(** * antigravity-openai: a shallow embedding of the gateway core

    The development follows the TypeScript sources:
    - [constants.ts]  : the endpoint list and the model registry;
    - [oauth.ts]      : [isTokenExpired], [refreshAccessToken];
    - [converter.ts]  : [convertMessage], [convertOpenAIToAntigravity],
                        [convertAntigravityToOpenAI];
    - [client.ts]     : [ensureValidToken], [resolveModel], the thinking
                        augmentation, [generateContent] and
                        [streamGenerateContent].

    Conventions.  JavaScript strings are modelled as [string]: the UTF-8
    encoding of the text, as a sequence of 8-bit code units (a character
    outside ASCII takes two to four of them); token counts and timestamps, which the program only
    ever handles as integers, are modelled as [Z]; [undefined] is [None].
    The outside world (HTTP responses, the clock, the UUID source, the token
    file) is passed in explicitly, and every call made to it is recorded in
    a trace. *)

From Stdlib Require Import ZArith QArith List String Ascii Bool Lia.
From Stdlib Require Import Numbers.DecimalString.
Import ListNotations.
Open Scope string_scope.
Set Warnings "-register-all".

(* ================================================================== *)
(** ** JavaScript string primitives used by the sources *)
(* ================================================================== *)

Module JS.

(** [s.startsWith(p)] *)
Definition startsWith (s p : string) : bool := String.prefix p s.

(** [s.slice(n)] for [n >= 0]: drop the first [n] code units. *)
Fixpoint slice (n : nat) (s : string) : string :=
  match n, s with
  | O, _ => s
  | S _, EmptyString => EmptyString
  | S k, String _ r => slice k r
  end.

(** [s.slice(0, n)] for [n >= 0]. *)
Fixpoint take (n : nat) (s : string) : string :=
  match n, s with
  | O, _ => EmptyString
  | S _, EmptyString => EmptyString
  | S k, String c r => String c (take k r)
  end.

(** White space removed by [trim]: the ECMAScript WhiteSpace and
    LineTerminator classes.  The ASCII ones take one code unit. *)
Definition is_space (c : ascii) : bool :=
  let n := nat_of_ascii c in
  (n =? 32)%nat || (n =? 9)%nat || (n =? 10)%nat || (n =? 11)%nat
  || (n =? 12)%nat || (n =? 13)%nat.

(** U+00A0 (no-break space) is [C2 A0]. *)
Definition is_space2 (a b : ascii) : bool :=
  ((nat_of_ascii a =? 194) && (nat_of_ascii b =? 160))%nat.

(** The white space of three code units: U+1680 [E1 9A 80]; U+2000 to
    U+200A [E2 80 80] to [E2 80 8A]; the line and paragraph separators
    U+2028, U+2029 [E2 80 A8], [E2 80 A9]; U+202F [E2 80 AF]; U+205F
    [E2 81 9F]; U+3000 [E3 80 80]; U+FEFF [EF BB BF]. *)
Definition is_space3 (a b c : ascii) : bool :=
  let x := nat_of_ascii a in
  let y := nat_of_ascii b in
  let z := nat_of_ascii c in
  ((x =? 225) && (y =? 154) && (z =? 128)
   || (x =? 226) && (y =? 128)
      && ((128 <=? z) && (z <=? 138) || (z =? 168) || (z =? 169) || (z =? 175))
   || (x =? 226) && (y =? 129) && (z =? 159)
   || (x =? 227) && (y =? 128) && (z =? 128)
   || (x =? 239) && (y =? 187) && (z =? 191))%nat.

Fixpoint trimStart (s : string) : string :=
  match s with
  | EmptyString => EmptyString
  | String c r =>
      if is_space c then trimStart r
      else
        match r with
        | String c1 r1 =>
            if is_space2 c c1 then trimStart r1
            else
              match r1 with
              | String c2 r2 => if is_space3 c c1 c2 then trimStart r2 else s
              | EmptyString => s
              end
        | EmptyString => s
        end
  end.

(** A string made of white space only. *)
Definition all_space (s : string) : bool :=
  match trimStart s with EmptyString => true | _ => false end.

(** [s.trimEnd()]: cut where only white space follows. *)
Fixpoint trimEnd (s : string) : string :=
  match s with
  | EmptyString => EmptyString
  | String c r => if all_space s then EmptyString else String c (trimEnd r)
  end.

(** [s.trim()] *)
Definition trim (s : string) : string := trimEnd (trimStart s).

(** [s.includes(p)] *)
Fixpoint includes (s p : string) : bool :=
  if String.prefix p s then true
  else match s with
       | EmptyString => false
       | String _ r => includes r p
       end.

Definition lower_char (c : ascii) : ascii :=
  let n := nat_of_ascii c in
  if ((65 <=? n)%nat && (n <=? 90)%nat)%bool then ascii_of_nat (n + 32) else c.

(** [s.toLowerCase()] on the ASCII letters. *)
Fixpoint toLowerCase (s : string) : string :=
  match s with
  | EmptyString => EmptyString
  | String c r => String (lower_char c) (toLowerCase r)
  end.

Definition newline : ascii := ascii_of_nat 10.
Definition NL : string := String newline EmptyString.

(** [s.split("\n")]: always at least one segment. *)
Fixpoint split_nl (s : string) : list string :=
  match s with
  | EmptyString => [EmptyString]
  | String c r =>
      if Ascii.eqb c newline then EmptyString :: split_nl r
      else match split_nl r with
           | [] => [String c EmptyString]
           | h :: t => String c h :: t
           end
  end.

(** [xs.join(sep)] *)
Fixpoint join (sep : string) (xs : list string) : string :=
  match xs with
  | [] => EmptyString
  | [x] => x
  | x :: rest => x ++ sep ++ join sep rest
  end.

(** Truthiness of a string: the empty string is falsy. *)
Definition truthy_str (s : string) : bool :=
  match s with EmptyString => false | _ => true end.

(** [a || b] on strings. *)
Definition or_str (a b : string) : string := if truthy_str a then a else b.

(** [a || b] where [a] may be [undefined]. *)
Definition or_opt_str (a : option string) (b : string) : string :=
  match a with Some s => or_str s b | None => b end.

(** Truthiness of an optional string ([undefined] and the empty string are
    falsy). *)
Definition truthy_opt_str (a : option string) : bool :=
  match a with Some s => truthy_str s | None => false end.

(** [n || 0] on an optional count. *)
Definition or_zero (a : option Z) : Z :=
  match a with Some n => n | None => 0%Z end.

(** Decimal rendering of an integer, as template literals do. *)
Definition Z_to_string (z : Z) : string := NilEmpty.string_of_int (Z.to_int z).

End JS.

(* ================================================================== *)
(** ** JSON values, [JSON.parse], and JavaScript reads on parsed values *)
(* ================================================================== *)

Module Json.

(** A parsed JSON value.  A number literal is kept exactly, as the decimal
    [mantissa * 10 ^ exponent]; an object keeps its members in textual
    order (a property read takes the last occurrence of a key, as
    [JSON.parse] lets a later member override an earlier one). *)
Inductive json : Type :=
| JNull
| JBool (b : bool)
| JNum (mantissa exponent : Z)
| JStr (s : string)
| JArr (items : list json)
| JObj (members : list (string * json)).

(** *** Lexical helpers *)

Definition ch (n : nat) : ascii := ascii_of_nat n.
Definition is_code (c : ascii) (n : nat) : bool := (nat_of_ascii c =? n)%nat.

(** JSON insignificant white space: space, tab, line feed, carriage return. *)
Definition is_ws (c : ascii) : bool :=
  is_code c 32 || is_code c 9 || is_code c 10 || is_code c 13.

Fixpoint skip_ws (s : string) : string :=
  match s with
  | EmptyString => EmptyString
  | String c r => if is_ws c then skip_ws r else s
  end.

Definition is_digit (c : ascii) : bool :=
  let n := nat_of_ascii c in ((48 <=? n) && (n <=? 57))%nat.

Definition digit_val (c : ascii) : Z := Z.of_nat (nat_of_ascii c - 48).

Definition hex_val (c : ascii) : option nat :=
  let n := nat_of_ascii c in
  if ((48 <=? n) && (n <=? 57))%nat then Some (n - 48)%nat
  else if ((65 <=? n) && (n <=? 70))%nat then Some (n - 55)%nat
  else if ((97 <=? n) && (n <=? 102))%nat then Some (n - 87)%nat
  else None.

Definition hex4 (a b c d : ascii) : option nat :=
  match hex_val a, hex_val b, hex_val c, hex_val d with
  | Some x, Some y, Some z, Some w => Some (((x * 16 + y) * 16 + z) * 16 + w)%nat
  | _, _, _, _ => None
  end.

(** The code units a [\uXXXX] escape contributes: UTF-8 of the code point
    (a surrogate half is encoded like any other code point of its range;
    [pair_surrogates] then joins a high half and the low half after it). *)
Definition encode_unit (n : nat) : string :=
  if (n <? 128)%nat then String (ch n) EmptyString
  else if (n <? 2048)%nat then
    String (ch (192 + n / 64)) (String (ch (128 + n mod 64)) EmptyString)
  else
    String (ch (224 + n / 4096))
      (String (ch (128 + (n / 64) mod 64))
         (String (ch (128 + n mod 64)) EmptyString)).

(** The encoded halves of a surrogate pair: a high half (U+D800 to U+DBFF)
    is [ED], a unit from [A0] to [AF] and a continuation unit; a low half
    (U+DC00 to U+DFFF) is [ED], a unit from [B0] to [BF] and a continuation
    unit. *)
Definition is_continuation (c : ascii) : bool :=
  let n := nat_of_ascii c in ((128 <=? n) && (n <=? 191))%nat.

Definition is_high_half (a b c : ascii) : bool :=
  let n := nat_of_ascii b in
  is_code a 237 && ((160 <=? n) && (n <=? 175))%nat && is_continuation c.

Definition is_low_half (a b c : ascii) : bool :=
  let n := nat_of_ascii b in
  is_code a 237 && ((176 <=? n) && (n <=? 191))%nat && is_continuation c.

(** The code units of the character that a surrogate pair stands for, from
    the second and third units of each half: the ten low bits of the high
    half and of the low half, plus [0x10000], in four units. *)
Definition encode_pair (b c e f : ascii) : string :=
  let high := ((nat_of_ascii b - 160) * 64 + (nat_of_ascii c - 128))%nat in
  let low := ((nat_of_ascii e - 176) * 64 + (nat_of_ascii f - 128))%nat in
  let top := (high + 64)%nat in          (* bits 10 to 20 of the code point *)
  String (ch (240 + top / 256))
    (String (ch (128 + (top / 4) mod 64))
       (String (ch (128 + (top mod 4) * 16 + low / 64))
          (String (ch (128 + low mod 64)) EmptyString))).

(** A string as [JSON.parse] returns it: a high half directly followed by
    a low half, however each was written, is one character. *)
Fixpoint pair_surrogates (s : string) : string :=
  match s with
  | EmptyString => EmptyString
  | String a t =>
      match t with
      | String b (String c (String d (String e (String f r)))) =>
          if is_high_half a b c && is_low_half d e f
          then encode_pair b c e f ++ pair_surrogates r
          else String a (pair_surrogates t)
      | _ => String a (pair_surrogates t)
      end
  end.

Definition simple_escape (e : ascii) : option ascii :=
  if is_code e 34 then Some (ch 34)           (* quote *)
  else if is_code e 92 then Some (ch 92)      (* backslash *)
  else if is_code e 47 then Some (ch 47)      (* solidus *)
  else if is_code e 98 then Some (ch 8)       (* backspace *)
  else if is_code e 102 then Some (ch 12)     (* form feed *)
  else if is_code e 110 then Some (ch 10)     (* line feed *)
  else if is_code e 114 then Some (ch 13)     (* carriage return *)
  else if is_code e 116 then Some (ch 9)      (* tab *)
  else None.

Definition prepend (p : string) (r : option (string * string))
  : option (string * string) :=
  match r with
  | Some (body, rest) => Some (p ++ body, rest)
  | None => None
  end.

(** The characters of a string literal after its opening quote, up to and
    including the closing quote: decoded body and remaining input. *)
Fixpoint parse_string_body (s : string) : option (string * string) :=
  match s with
  | EmptyString => None
  | String c r =>
      if is_code c 34 then Some (EmptyString, r)
      else if is_code c 92 then
        match r with
        | EmptyString => None
        | String e r' =>
            if is_code e 117 then
              match r' with
              | String a (String b (String c' (String d r''))) =>
                  match hex4 a b c' d with
                  | Some code => prepend (encode_unit code) (parse_string_body r'')
                  | None => None
                  end
              | _ => None
              end
            else
              match simple_escape e with
              | Some x => prepend (String x EmptyString) (parse_string_body r')
              | None => None
              end
        end
      else if (nat_of_ascii c <? 32)%nat then None
      else prepend (String c EmptyString) (parse_string_body r)
  end.

(** Longest prefix of decimal digits, and the rest. *)
Fixpoint span_digits (s : string) : string * string :=
  match s with
  | EmptyString => (EmptyString, EmptyString)
  | String c r =>
      if is_digit c then let (ds, rest) := span_digits r in (String c ds, rest)
      else (EmptyString, s)
  end.

Fixpoint digits_val_acc (acc : Z) (ds : string) : Z :=
  match ds with
  | EmptyString => acc
  | String c r => digits_val_acc (acc * 10 + digit_val c) r
  end.

Definition digits_val (ds : string) : Z := digits_val_acc 0 ds.

Definition leading_zero (ds : string) : bool :=
  match ds with
  | String c (String _ _) => is_code c 48
  | _ => false
  end.

(** An optional minus sign. *)
Definition take_minus (s : string) : bool * string :=
  match s with
  | String c r => if is_code c 45 then (true, r) else (false, s)
  | EmptyString => (false, s)
  end.

(** An optional fraction: a dot and one or more digits. *)
Definition parse_frac (s : string) : option (string * string) :=
  match s with
  | String c r =>
      if is_code c 46 then
        let '(fp, rest) := span_digits r in
        match fp with
        | EmptyString => None
        | _ => Some (fp, rest)
        end
      else Some (EmptyString, s)
  | EmptyString => Some (EmptyString, s)
  end.

(** The sign of an exponent. *)
Definition take_sign (s : string) : bool * string :=
  match s with
  | String c r =>
      if is_code c 45 then (true, r)
      else if is_code c 43 then (false, r)
      else (false, s)
  | EmptyString => (false, s)
  end.

(** An optional exponent: [e] or [E], an optional sign, one or more digits. *)
Definition parse_exp (s : string) : option (Z * string) :=
  match s with
  | String c r =>
      if is_code c 101 || is_code c 69 then
        let '(eneg, r1) := take_sign r in
        let '(ep, rest) := span_digits r1 in
        match ep with
        | EmptyString => None
        | _ => Some ((if eneg then - digits_val ep else digits_val ep)%Z, rest)
        end
      else Some (0%Z, s)
  | EmptyString => Some (0%Z, s)
  end.

(** A number literal: optional minus sign; an integer part that is either
    a single zero or starts with a non-zero digit; an optional fraction; an
    optional exponent. *)
Definition parse_number (s : string) : option (json * string) :=
  let '(neg, s1) := take_minus s in
  let '(ip, s2) := span_digits s1 in
  match ip with
  | EmptyString => None
  | _ =>
      if leading_zero ip then None else
      match parse_frac s2 with
      | None => None
      | Some (fp, s3) =>
          match parse_exp s3 with
          | None => None
          | Some (e, s4) =>
              let m := digits_val (ip ++ fp) in
              Some (JNum (if neg then - m else m)%Z
                         (e - Z.of_nat (String.length fp))%Z, s4)
          end
      end
  end.

(** Outcome of a recursive-descent step: a value and the remaining input,
    a syntax error, or recursion budget exhausted. *)
Inductive presult (A : Type) : Type :=
| POk (a : A) (rest : string)
| PFail
| PFuel.
Arguments POk {A} a rest.
Arguments PFail {A}.
Arguments PFuel {A}.

Definition literal (word : string) (v : json) (s : string) : presult json :=
  if String.prefix word s then POk v (JS.slice (String.length word) s) else PFail.

Fixpoint parse_value (fuel : nat) (s : string) {struct fuel} : presult json :=
  match fuel with
  | O => PFuel
  | S f =>
      match skip_ws s with
      | EmptyString => PFail
      | String c r =>
          if is_code c 123 then                         (* { *)
            match skip_ws r with
            | String c1 r1 =>
                if is_code c1 125 then POk (JObj []) r1
                else match parse_members f r with
                     | POk ms rest => POk (JObj ms) rest
                     | PFail => PFail
                     | PFuel => PFuel
                     end
            | EmptyString => PFail
            end
          else if is_code c 91 then                     (* [ *)
            match skip_ws r with
            | String c1 r1 =>
                if is_code c1 93 then POk (JArr []) r1
                else match parse_elements f r with
                     | POk vs rest => POk (JArr vs) rest
                     | PFail => PFail
                     | PFuel => PFuel
                     end
            | EmptyString => PFail
            end
          else if is_code c 34 then                     (* string *)
            match parse_string_body r with
            | Some (body, rest) => POk (JStr (pair_surrogates body)) rest
            | None => PFail
            end
          else if is_code c 116 then literal "true" (JBool true) (String c r)
          else if is_code c 102 then literal "false" (JBool false) (String c r)
          else if is_code c 110 then literal "null" JNull (String c r)
          else match parse_number (String c r) with
               | Some (v, rest) => POk v rest
               | None => PFail
               end
      end
  end

with parse_elements (fuel : nat) (s : string) {struct fuel} : presult (list json) :=
  match fuel with
  | O => PFuel
  | S f =>
      match parse_value f s with
      | POk v rest =>
          match skip_ws rest with
          | String c r =>
              if is_code c 44 then                      (* , *)
                match parse_elements f r with
                | POk vs rest' => POk (v :: vs) rest'
                | PFail => PFail
                | PFuel => PFuel
                end
              else if is_code c 93 then POk [v] r       (* ] *)
              else PFail
          | EmptyString => PFail
          end
      | PFail => PFail
      | PFuel => PFuel
      end
  end

with parse_members (fuel : nat) (s : string) {struct fuel}
  : presult (list (string * json)) :=
  match fuel with
  | O => PFuel
  | S f =>
      match skip_ws s with
      | String q r0 =>
          if is_code q 34 then
            match parse_string_body r0 with
            | Some (key, r1) =>
                match skip_ws r1 with
                | String col r2 =>
                    if is_code col 58 then              (* : *)
                      match parse_value f r2 with
                      | POk v rest =>
                          match skip_ws rest with
                          | String c r =>
                              if is_code c 44 then
                                match parse_members f r with
                                | POk ms rest' =>
                                    POk ((pair_surrogates key, v) :: ms) rest'
                                | PFail => PFail
                                | PFuel => PFuel
                                end
                              else if is_code c 125
                              then POk [(pair_surrogates key, v)] r
                              else PFail
                          | EmptyString => PFail
                          end
                      | PFail => PFail
                      | PFuel => PFuel
                      end
                    else PFail
                | EmptyString => PFail
                end
            | None => PFail
            end
          else PFail
      | EmptyString => PFail
      end
  end.

(** Recursion budget that no input of this length can exhaust
    (see [parse_value_fuel]). *)
Definition budget (s : string) : nat := 2 * String.length s + 2.

(** [JSON.parse(s)]: [None] stands for the [SyntaxError] it throws. *)
Definition JSON_parse (s : string) : option json :=
  match parse_value (budget s) s with
  | POk v rest =>
      match skip_ws rest with
      | EmptyString => Some v
      | _ => None
      end
  | _ => None
  end.

(** *** Reads on parsed values, as JavaScript performs them *)

(** Last binding of a key among the members of an object. *)
Fixpoint lookup (k : string) (ms : list (string * json)) : option json :=
  match ms with
  | [] => None
  | (k', v) :: rest =>
      match lookup k rest with
      | Some v' => Some v'
      | None => if String.eqb k k' then Some v else None
      end
  end.

(** [v.k] on a value that is neither [null] nor [undefined], for the
    property names the sources read (none of which is a built-in property
    of arrays, strings, numbers or booleans): [None] is [undefined]. *)
Definition get (v : json) (k : string) : option json :=
  match v with
  | JObj ms => lookup k ms
  | _ => None
  end.

(** [v?.k] *)
Definition get_opt (v : option json) (k : string) : option json :=
  match v with
  | None | Some JNull => None
  | Some x => get x k
  end.

(** [v?.[0]] *)
Definition index0_opt (v : option json) : option json :=
  match v with
  | None | Some JNull => None
  | Some (JArr (x :: _)) => Some x
  | Some (JStr (String c _)) => Some (JStr (String c EmptyString))
  | Some (JObj ms) => lookup "0" ms
  | Some _ => None
  end.

(** A number literal whose value is zero as a double: the mantissa is zero,
    or the value is at most [2 ^ -1075], half the smallest positive double,
    and so rounds to zero (ties go to the even neighbour, which is zero). *)
Definition rounds_to_zero (m e : Z) : bool :=
  ((m =? 0) || (e <? 0) && (Z.shiftl (Z.abs m) 1075 <=? 10 ^ (- e)))%Z.

(** Truthiness of a value; zero, with either sign, is the falsy number. *)
Definition truthy (v : json) : bool :=
  match v with
  | JNull => false
  | JBool b => b
  | JNum m e => negb (rounds_to_zero m e)
  | JStr s => JS.truthy_str s
  | JArr _ | JObj _ => true
  end.

Definition truthy_opt (v : option json) : bool :=
  match v with Some x => truthy x | None => false end.

End Json.

(* ================================================================== *)
(** ** constants.ts *)
(* ================================================================== *)

Module Constants.

Definition ANTIGRAVITY_ENDPOINT_DAILY : string :=
  "https://daily-cloudcode-pa.sandbox.googleapis.com".
Definition ANTIGRAVITY_ENDPOINT_AUTOPUSH : string :=
  "https://autopush-cloudcode-pa.sandbox.googleapis.com".
Definition ANTIGRAVITY_ENDPOINT_PROD : string :=
  "https://cloudcode-pa.googleapis.com".

(** Endpoint fallback order (daily, autopush, prod). *)
Definition ANTIGRAVITY_ENDPOINTS : list string :=
  [ANTIGRAVITY_ENDPOINT_DAILY; ANTIGRAVITY_ENDPOINT_AUTOPUSH;
   ANTIGRAVITY_ENDPOINT_PROD].

Definition ANTIGRAVITY_DEFAULT_PROJECT_ID : string := "rising-fact-p41fc".

(** An entry of the model registry; the two thinking fields are the only
    ones the client reads. *)
Record ModelInfo : Type := mkModel {
  model_id : string;
  owned_by : string;
  context_length : Z;
  thinkingLevel : option string;
  thinkingBudget : option Z
}.

Definition AVAILABLE_MODELS : list (string * ModelInfo) :=
  [ ("gemini-3-pro-low",
     mkModel "gemini-3-pro-low" "google" 1000000 (Some "low") None);
    ("gemini-3-pro-high",
     mkModel "gemini-3-pro-high" "google" 1000000 (Some "high") None);
    ("gemini-3-flash",
     mkModel "gemini-3-flash" "google" 1000000 None None);
    ("claude-sonnet-4-5",
     mkModel "claude-sonnet-4-5" "anthropic" 200000 None None);
    ("claude-sonnet-4-5-thinking-low",
     mkModel "claude-sonnet-4-5-thinking-low" "anthropic" 200000 None (Some 8192%Z));
    ("claude-sonnet-4-5-thinking-medium",
     mkModel "claude-sonnet-4-5-thinking-medium" "anthropic" 200000 None (Some 16384%Z));
    ("claude-sonnet-4-5-thinking-high",
     mkModel "claude-sonnet-4-5-thinking-high" "anthropic" 200000 None (Some 32768%Z));
    ("claude-opus-4-5-thinking-low",
     mkModel "claude-opus-4-5-thinking-low" "anthropic" 200000 None (Some 8192%Z));
    ("claude-opus-4-5-thinking-medium",
     mkModel "claude-opus-4-5-thinking-medium" "anthropic" 200000 None (Some 16384%Z));
    ("claude-opus-4-5-thinking-high",
     mkModel "claude-opus-4-5-thinking-high" "anthropic" 200000 None (Some 32768%Z));
    ("gpt-oss-120b-medium",
     mkModel "gpt-oss-120b-medium" "google" 128000 None None) ].

(** [AVAILABLE_MODELS[modelId]] on the registry's own keys (an inherited
    property of the object literal carries no thinking field, so it resolves
    like an unknown model). *)
Fixpoint registry_get (reg : list (string * ModelInfo)) (modelId : string)
  : option ModelInfo :=
  match reg with
  | [] => None
  | (k, info) :: rest =>
      if String.eqb modelId k then Some info else registry_get rest modelId
  end.

End Constants.

(* ================================================================== *)
(** ** oauth.ts *)
(* ================================================================== *)

Module OAuth.

Record AuthTokens : Type := mkTokens {
  accessToken : string;
  refreshToken : string;
  expiresAt : Z;
  email : option string;
  projectId : string
}.

(** Check if tokens are expired (with 5 minute buffer):
    [Date.now() > expiresAt - 5 * 60 * 1000]. *)
Definition isTokenExpired (now expiresAt : Z) : bool :=
  (now >? expiresAt - 5 * 60 * 1000)%Z.

(** What the identity provider's token endpoint answers to a refresh. *)
Inductive TokenEndpointReply : Type :=
| TokenNetworkError (message : string)
| TokenNotOk (errorText : string)
| TokenOk (access_token : string) (expires_in : Z).

Record Refreshed : Type := mkRefreshed {
  r_accessToken : string;
  r_expiresAt : Z
}.

(** [refreshAccessToken(refreshToken)]: one call to the token endpoint;
    [inr m] is the thrown error. *)
Definition refreshAccessToken (now : Z)
    (token_endpoint : string -> TokenEndpointReply) (refreshToken : string)
  : Refreshed + string :=
  match token_endpoint refreshToken with
  | TokenNetworkError m => inr m
  | TokenNotOk errorText => inr ("Token refresh failed: " ++ errorText)
  | TokenOk a e => inl (mkRefreshed a (now + e * 1000)%Z)
  end.

End OAuth.

(* ================================================================== *)
(** ** converter.ts: the public and the backend shapes *)
(* ================================================================== *)

Module Converter.
Import Json.

(** *** Public chat request *)

Inductive Role : Type := system | user | assistant | tool.

Definition role_eqb (a b : Role) : bool :=
  match a, b with
  | system, system | user, user | assistant, assistant | tool, tool => true
  | _, _ => false
  end.

Record ContentItem : Type := mkItem {
  item_type : string;
  item_text : option string;
  item_image_url : option string          (* [image_url: { url }] *)
}.

Inductive MessageContent : Type :=
| ContentString (s : string)
| ContentArray (items : list ContentItem).

Record ToolCall : Type := mkToolCall {
  tc_id : string;
  tc_name : string;                       (* [function.name] *)
  tc_arguments : string                   (* [function.arguments] *)
}.

Record OpenAIMessage : Type := mkMessage {
  msg_role : Role;
  msg_content : MessageContent;
  msg_name : option string;
  msg_tool_calls : option (list ToolCall);
  msg_tool_call_id : option string
}.

Record Tool : Type := mkTool {
  tool_type : string;
  tool_name : string;
  tool_description : option string;
  tool_parameters : option json
}.

Inductive ToolChoice : Type :=
| ChoiceAuto
| ChoiceNone
| ChoiceFunction (name : string).

Record OpenAIChatRequest : Type := mkChatRequest {
  req_model : string;
  req_messages : list OpenAIMessage;
  req_temperature : option Q;
  req_top_p : option Q;
  req_max_tokens : option Z;
  req_stream : option bool;
  req_tools : option (list Tool);
  req_tool_choice : option ToolChoice
}.

(** *** Backend request *)

Inductive ContentRole : Type := role_user | role_model.

(** The body of a function response: a parsed JSON value (which includes
    the wrapper [{result: <string>}]) or, for array content, the content
    items as they are. *)
Inductive ResponseBody : Type :=
| RespJson (v : json)
| RespItems (items : list ContentItem).

(** A part carries exactly one of the four keys the converter writes. *)
Inductive Part : Type :=
| PText (text : string)
| PFunctionCall (name : string) (args : json)
| PFunctionResponse (name : string) (response : ResponseBody)
| PInlineData (mimeType data : string).

Record AntigravityContent : Type := mkContent {
  c_role : ContentRole;
  c_parts : list Part
}.

Record ThinkingConfig : Type := mkThinking {
  includeThoughts : option bool;
  tc_thinkingLevel : option string;
  tc_thinkingBudget : option Z;
  include_thoughts : option bool;
  thinking_budget : option Z
}.

Record GenerationConfig : Type := mkGenConfig {
  temperature : option Q;
  topP : option Q;
  topK : option Q;
  maxOutputTokens : option Z;
  thinkingConfig : option ThinkingConfig
}.

Definition emptyGenerationConfig : GenerationConfig :=
  mkGenConfig None None None None None.

Record FunctionDeclaration : Type := mkDecl {
  fd_name : string;
  fd_description : string;
  fd_parameters : json
}.

Record FunctionCallingConfig : Type := mkFCC {
  mode : option string;
  allowedFunctionNames : option (list string)
}.

Record ToolConfig : Type := mkToolConfig {
  functionCallingConfig : option FunctionCallingConfig
}.

Record AntigravityRequest : Type := mkRequest {
  contents : list AntigravityContent;
  generationConfig : option GenerationConfig;
  systemInstruction : option (list string);          (* [{ parts: [{text}] }] *)
  tools : option (list (list FunctionDeclaration));   (* [[{ functionDeclarations }]] *)
  toolConfig : option ToolConfig
}.

(** *** convertMessage *)

(** The characters the dot of a regular expression does not match: line
    feed, carriage return, and the line and paragraph separators U+2028 and
    U+2029 ([E2 80 A8] and [E2 80 A9]). *)
Definition starts_with_separator (s : string) : bool :=
  match s with
  | String a (String b (String c _)) =>
      is_code a 226 && is_code b 128 && (is_code c 168 || is_code c 169)
  | _ => false
  end.

Fixpoint no_line_terminator (s : string) : bool :=
  match s with
  | EmptyString => true
  | String c r =>
      negb (is_code c 10 || is_code c 13) && negb (starts_with_separator s)
      && no_line_terminator r
  end.

(** Split at the first [;]: the text before it and the text from it on. *)
Fixpoint until_semicolon (s : string) : string * string :=
  match s with
  | EmptyString => (EmptyString, EmptyString)
  | String c r =>
      if is_code c 59 then (EmptyString, s)
      else let (a, b) := until_semicolon r in (String c a, b)
  end.

(** [url.match(/^data:([^;]+);base64,(.+)$/)]: the two captured groups. *)
Definition match_data_uri (url : string) : option (string * string) :=
  if JS.startsWith url "data:" then
    let (mime, rest) := until_semicolon (JS.slice 5 url) in
    if JS.truthy_str mime && JS.startsWith rest ";base64," then
      let data := JS.slice 8 rest in
      if JS.truthy_str data && no_line_terminator data then Some (mime, data)
      else None
    else None
  else None.

(** The parts one item of array content contributes. *)
Definition item_parts (item : ContentItem) : list Part :=
  if String.eqb (item_type item) "text" && JS.truthy_opt_str (item_text item) then
    match item_text item with Some t => [PText t] | None => [] end
  else if String.eqb (item_type item) "image_url"
          && JS.truthy_opt_str (item_image_url item) then
    match item_image_url item with
    | Some url =>
        if JS.startsWith url "data:" then
          match match_data_uri url with
          | Some (m, d) => [PInlineData m d]
          | None => []
          end
        else []
    | None => []
    end
  else [].

Definition content_parts (c : MessageContent) : list Part :=
  match c with
  | ContentString s => if JS.truthy_str s then [PText s] else []
  | ContentArray items => flat_map item_parts items
  end.

(** One function-call part per tool call; arguments that do not parse are
    replaced by the empty object. *)
Definition tool_call_part (tc : ToolCall) : Part :=
  PFunctionCall (tc_name tc)
    (match JSON_parse (tc_arguments tc) with
     | Some v => v
     | None => JObj []
     end).

Definition tool_response_body (c : MessageContent) : ResponseBody :=
  match c with
  | ContentString s =>
      match JSON_parse s with
      | Some v => RespJson v
      | None => RespJson (JObj [("result", JStr s)])
      end
  | ContentArray items => RespItems items
  end.

(** Convert a single OpenAI message to Antigravity content; [None] is the
    [null] the source returns for a message without parts. *)
Definition convertMessage (msg : OpenAIMessage) : option AntigravityContent :=
  let role := match msg_role msg with assistant => role_model | _ => role_user end in
  if role_eqb (msg_role msg) tool && JS.truthy_opt_str (msg_tool_call_id msg) then
    Some (mkContent role_user
            [PFunctionResponse
               (JS.or_opt_str (msg_name msg)
                  (match msg_tool_call_id msg with Some i => i | None => EmptyString end))
               (tool_response_body (msg_content msg))])
  else
    let parts :=
      (content_parts (msg_content msg)
       ++ (if role_eqb (msg_role msg) assistant then
             match msg_tool_calls msg with
             | Some tcs => map tool_call_part tcs
             | None => []
             end
           else []))%list in
    match parts with
    | [] => None
    | _ => Some (mkContent role parts)
    end.

(** *** convertOpenAIToAntigravity *)

Definition content_as_text (m : OpenAIMessage) : string :=
  match msg_content m with
  | ContentString s => s
  | ContentArray _ => EmptyString
  end.

Definition is_system (m : OpenAIMessage) : bool := role_eqb (msg_role m) system.

Definition convert_system (messages : list OpenAIMessage) : option (list string) :=
  match filter is_system messages with
  | [] => None
  | systemMessages =>
      let systemText :=
        JS.join (JS.NL ++ JS.NL) (map content_as_text systemMessages) in
      if JS.truthy_str systemText then Some [systemText] else None
  end.

(** The loop over the non-system messages: a converted message is pushed
    only when [convertMessage] returned one. *)
Fixpoint convert_contents (msgs : list OpenAIMessage) : list AntigravityContent :=
  match msgs with
  | [] => []
  | m :: rest =>
      match convertMessage m with
      | Some c => c :: convert_contents rest
      | None => convert_contents rest
      end
  end.

Definition is_some {A} (o : option A) : bool :=
  match o with Some _ => true | None => false end.

Definition convert_generation (request : OpenAIChatRequest) : option GenerationConfig :=
  if is_some (req_temperature request) || is_some (req_top_p request)
     || is_some (req_max_tokens request)
  then Some (mkGenConfig (req_temperature request) (req_top_p request) None
               (req_max_tokens request) None)
  else None.

Definition default_parameters : json :=
  JObj [("type", JStr "object"); ("properties", JObj [])].

Definition convert_tool (t : Tool) : FunctionDeclaration :=
  mkDecl (tool_name t)
    (JS.or_opt_str (tool_description t) EmptyString)
    (match tool_parameters t with
     | Some p => if truthy p then p else default_parameters
     | None => default_parameters
     end).

Definition convert_tool_choice (c : ToolChoice) : ToolConfig :=
  mkToolConfig (Some
    match c with
    | ChoiceNone => mkFCC (Some "NONE") None
    | ChoiceAuto => mkFCC (Some "AUTO") None
    | ChoiceFunction n => mkFCC (Some "ANY") (Some [n])
    end).

Definition convertOpenAIToAntigravity (request : OpenAIChatRequest)
  : AntigravityRequest :=
  let nonSystemMessages :=
    filter (fun m => negb (is_system m)) (req_messages request) in
  let has_tools :=
    match req_tools request with
    | Some (_ :: _) => true
    | _ => false
    end in
  let functionDeclarations :=
    match req_tools request with
    | Some ts =>
        map convert_tool (filter (fun t => String.eqb (tool_type t) "function") ts)
    | None => []
    end in
  mkRequest
    (convert_contents nonSystemMessages)
    (convert_generation request)
    (convert_system (req_messages request))
    (if has_tools then
       match functionDeclarations with
       | [] => None
       | _ => Some [functionDeclarations]
       end
     else None)
    (if has_tools then option_map convert_tool_choice (req_tool_choice request)
     else None).

(** *** Backend response and public chat response *)

Record FunctionCall : Type := mkFunctionCall {
  fc_name : string;
  fc_args : option json
}.

Record ResponsePart : Type := mkRPart {
  p_text : option string;
  p_thought : option bool;
  p_functionCall : option FunctionCall
}.

Record CandidateContent : Type := mkCandidateContent {
  parts : option (list ResponsePart)
}.

Record Candidate : Type := mkCandidate {
  cand_content : option CandidateContent;
  finishReason : option string
}.

Record UsageMetadata : Type := mkUsageMetadata {
  promptTokenCount : option Z;
  candidatesTokenCount : option Z;
  totalTokenCount : option Z
}.

Record BackendResponse : Type := mkBackendResponse {
  candidates : option (list Candidate);
  usageMetadata : option UsageMetadata
}.

Inductive FinishReason : Type :=
| finish_stop | finish_length | finish_tool_calls | finish_content_filter.

Record OpenAIToolCall : Type := mkOutCall {
  call_id : string;
  call_name : string;
  call_arguments : string
}.

Record OpenAIChoice : Type := mkChoice {
  index : Z;
  message_content : option string;                    (* [null] is [None] *)
  message_tool_calls : option (list OpenAIToolCall);
  finish_reason : option FinishReason
}.

Record Usage : Type := mkUsage {
  prompt_tokens : Z;
  completion_tokens : Z;
  total_tokens : Z
}.

Record OpenAIChatResponse : Type := mkChatResponse {
  resp_id : string;
  resp_object : string;
  created : Z;
  resp_model : string;
  choices : list OpenAIChoice;
  usage : option Usage
}.

(** What the translation takes from the runtime: the clock, the successive
    results of [crypto.randomUUID()], and [JSON.stringify]. *)
Record Runtime : Type := mkRuntime {
  Date_now : Z;
  randomUUID : nat -> string;
  JSON_stringify : json -> string
}.

(** The state of the loop over the parts of the first candidate: the text
    assembled so far, the tool calls so far, and how many UUIDs were drawn. *)
Record ScanState : Type := mkScan {
  scan_content : string;
  scan_toolCalls : list OpenAIToolCall;
  scan_uuids : nat
}.

Definition scan_part (rt : Runtime) (st : ScanState) (part : ResponsePart)
  : ScanState :=
  match p_thought part with
  | Some true => st                                   (* skip thinking parts *)
  | _ =>
      let content1 :=
        match p_text part with
        | Some t => if JS.truthy_str t then scan_content st ++ t else scan_content st
        | None => scan_content st
        end in
      match p_functionCall part with
      | Some fc =>
          mkScan content1
            (scan_toolCalls st ++
               [mkOutCall
                  ("call_" ++ JS.take 8 (randomUUID rt (scan_uuids st)))
                  (fc_name fc)
                  (JSON_stringify rt
                     (match fc_args fc with
                      | Some a => if truthy a then a else JObj []
                      | None => JObj []
                      end))])%list
            (S (scan_uuids st))
      | None => mkScan content1 (scan_toolCalls st) (scan_uuids st)
      end
  end.

Definition scan_parts (rt : Runtime) (st : ScanState) (parts : list ResponsePart)
  : ScanState :=
  fold_left (scan_part rt) parts st.

(** [candidate.content?.parts || []] *)
Definition candidate_parts (c : Candidate) : list ResponsePart :=
  match cand_content c with
  | Some cc => match parts cc with Some ps => ps | None => [] end
  | None => []
  end.

Definition convert_candidate (rt : Runtime) (uuids : nat) (candidate : Candidate)
  : OpenAIChoice :=
  let st := scan_parts rt (mkScan EmptyString [] uuids) (candidate_parts candidate) in
  let has_calls := match scan_toolCalls st with [] => false | _ => true end in
  let finishReason :=
    match finishReason candidate with
    | Some r =>
        if String.eqb r "MAX_TOKENS" then finish_length
        else if has_calls then finish_tool_calls else finish_stop
    | None => if has_calls then finish_tool_calls else finish_stop
    end in
  mkChoice 0
    (if JS.truthy_str (scan_content st) then Some (scan_content st) else None)
    (if has_calls then Some (scan_toolCalls st) else None)
    (Some finishReason).

Definition convert_usage (u : UsageMetadata) : Usage :=
  mkUsage (JS.or_zero (promptTokenCount u))
          (JS.or_zero (candidatesTokenCount u))
          (JS.or_zero (totalTokenCount u)).

(** Convert Antigravity response to OpenAI format. *)
Definition convertAntigravityToOpenAI (rt : Runtime) (response : BackendResponse)
    (model : string) (requestId : option string) : OpenAIChatResponse :=
  let fresh := negb (JS.truthy_opt_str requestId) in
  let id :=
    match requestId with
    | Some r => if JS.truthy_str r then r else "chatcmpl-" ++ randomUUID rt 0
    | None => "chatcmpl-" ++ randomUUID rt 0
    end in
  let created := (Date_now rt / 1000)%Z in
  let choices :=
    match candidates response with
    | Some (candidate :: _) =>
        [convert_candidate rt (if fresh then 1 else 0)%nat candidate]
    | _ => []
    end in
  mkChatResponse id "chat.completion" created model choices
    (option_map convert_usage (usageMetadata response)).

(** A part that the scan turns into a tool call: it carries a function call
    and is not flagged as a thought. *)
Definition yields_tool_call (part : ResponsePart) : bool :=
  match p_thought part with
  | Some true => false
  | _ => is_some (p_functionCall part)
  end.

(** The identifier of a response: the caller's, or a fresh one. *)
Definition response_id (rt : Runtime) (requestId : option string) : string :=
  JS.or_opt_str requestId ("chatcmpl-" ++ randomUUID rt 0).

End Converter.

(* ================================================================== *)
(** ** client.ts *)
(* ================================================================== *)

Module Client.
Import Json Constants OAuth Converter.

(** *** The outside world *)

(** The body of a streamed response as [reader.read()] delivers it: the
    decoded text of the successive reads, then either the end of the
    stream ([None]) or an error thrown by a read ([Some message]). *)
Record Stream : Type := mkStream {
  reads : list string;
  fault : option string
}.

Record HttpResponse : Type := mkResponse {
  status : Z;
  body_text : string;                 (* what [text()] / [json()] consume *)
  body_stream : option Stream         (* [response.body] *)
}.

Inductive FetchResult : Type :=
| FetchThrows (message : string)
| FetchReturns (response : HttpResponse).

Record World : Type := mkWorld {
  clock : Z;                                   (* [Date.now()] at the expiry check *)
  clock_refresh : Z;                           (* [Date.now()] when the refresh answers *)
  token_endpoint : string -> TokenEndpointReply;
  save_error : AuthTokens -> option string;    (* [saveTokens]: [Some m] when it throws *)
  fetch : string -> FetchResult;               (* by URL *)
  uuid : string                                (* [crypto.randomUUID()] *)
}.

(** [response.ok] *)
Definition ok (r : HttpResponse) : bool :=
  ((200 <=? status r) && (status r <=? 299))%Z.

(** The statuses on which the loops [continue] to the next endpoint. *)
Definition retryable (st : Z) : bool :=
  ((st =? 403) || (st =? 404) || (st >=? 500))%Z.

(** Messages of errors the runtime itself throws. *)
Definition SyntaxError_message : string := "SyntaxError: JSON Parse error".
Definition TypeError_message : string := "TypeError: null is not an object".

(** *** ensureValidToken *)

Inductive Event : Type :=
| EvRefresh (refreshToken : string)
| EvSave (tokens : AuthTokens).

Record TokenOutcome : Type := mkTokenOutcome {
  events : list Event;
  tokens_after : option AuthTokens;      (* [this.tokens] afterwards *)
  returned : string + string             (* access token, or thrown message *)
}.

Definition ensureValidToken (w : World) (tokens : option AuthTokens) : TokenOutcome :=
  match tokens with
  | None =>
      mkTokenOutcome [] None (inr "Not authenticated. Run 'bun run auth' first.")
  | Some t =>
      if isTokenExpired (clock w) (expiresAt t) then
        match refreshAccessToken (clock_refresh w) (token_endpoint w) (refreshToken t) with
        | inr m => mkTokenOutcome [EvRefresh (refreshToken t)] (Some t) (inr m)
        | inl refreshed =>
            let t' := mkTokens (r_accessToken refreshed) (refreshToken t)
                        (r_expiresAt refreshed) (email t) (projectId t) in
            match save_error w t' with
            | Some m =>
                mkTokenOutcome [EvRefresh (refreshToken t); EvSave t'] (Some t') (inr m)
            | None =>
                mkTokenOutcome [EvRefresh (refreshToken t); EvSave t'] (Some t')
                  (inl (accessToken t'))
            end
        end
      else mkTokenOutcome [] (Some t) (inl (accessToken t))
  end.

Definition is_refresh (e : Event) : bool :=
  match e with EvRefresh _ => true | EvSave _ => false end.

(** Number of refresh-token exchanges in a trace. *)
Definition refresh_calls (evs : list Event) : nat :=
  List.length (filter is_refresh evs).

(** [this.tokens?.projectId || ANTIGRAVITY_DEFAULT_PROJECT_ID] *)
Definition getProjectId (tokens : option AuthTokens) : string :=
  match tokens with
  | Some t => JS.or_str (projectId t) ANTIGRAVITY_DEFAULT_PROJECT_ID
  | None => ANTIGRAVITY_DEFAULT_PROJECT_ID
  end.

(** *** resolveModel and the thinking augmentation *)

Record ResolvedThinking : Type := mkResolvedThinking {
  rt_thinkingLevel : option string;
  rt_thinkingBudget : option Z
}.

Record Resolved : Type := mkResolved {
  actualModel : string;
  resolvedThinking : option ResolvedThinking;
  isClaude : bool
}.

Definition resolveModel (modelId : string) : Resolved :=
  let modelInfo := registry_get AVAILABLE_MODELS modelId in
  let isClaude := JS.includes (JS.toLowerCase modelId) "claude" in
  let thinkingConfig :=
    match modelInfo with
    | Some info =>
        match thinkingLevel info with
        | Some l => Some (mkResolvedThinking (Some l) None)
        | None =>
            match thinkingBudget info with
            | Some b => Some (mkResolvedThinking None (Some b))
            | None => None
            end
        end
    | None => None
    end in
  mkResolved modelId thinkingConfig isClaude.

Definition truthy_num (n : option Z) : bool :=
  match n with Some z => negb (z =? 0)%Z | None => false end.

(** "Apply thinking config": the block both [generateContent] and
    [streamGenerateContent] run on the request before sending it. *)
Definition applyThinkingConfig (r : Resolved) (request : AntigravityRequest)
  : AntigravityRequest :=
  match resolvedThinking r with
  | None => request
  | Some tc =>
      let gc :=
        match generationConfig request with
        | Some g => g
        | None => emptyGenerationConfig
        end in
      let gc' :=
        if isClaude r && truthy_num (rt_thinkingBudget tc) then
          mkGenConfig (temperature gc) (topP gc) (topK gc)
            (Some (Z.max (JS.or_zero (maxOutputTokens gc)) 65536))
            (Some (mkThinking None None None (Some true) (rt_thinkingBudget tc)))
        else if JS.truthy_opt_str (rt_thinkingLevel tc) then
          mkGenConfig (temperature gc) (topP gc) (topK gc) (maxOutputTokens gc)
            (Some (mkThinking (Some true) (rt_thinkingLevel tc) None None None))
        else gc in
      mkRequest (contents request) (Some gc') (systemInstruction request)
        (tools request) (toolConfig request)
  end.

(** "Configure Claude tool calling mode". *)
Definition applyToolMode (r : Resolved) (request : AntigravityRequest)
  : AntigravityRequest :=
  if isClaude r
     && match tools request with Some (_ :: _) => true | _ => false end
  then mkRequest (contents request) (generationConfig request)
         (systemInstruction request) (tools request)
         (Some (mkToolConfig (Some (mkFCC (Some "VALIDATED") None))))
  else request.

(** The request as it is put in the body of the backend call. *)
Definition prepareRequest (model : string) (request : AntigravityRequest)
  : AntigravityRequest :=
  let r := resolveModel model in
  applyToolMode r (applyThinkingConfig r request).

(** The envelope posted to the backend. *)
Record Body : Type := mkBody {
  project : string;
  body_model : string;
  body_request : AntigravityRequest;
  userAgent : string;
  requestId : string
}.

Definition makeBody (w : World) (tokens : option AuthTokens) (model : string)
    (request : AntigravityRequest) : Body :=
  mkBody (getProjectId tokens) (actualModel (resolveModel model))
    (prepareRequest model request) "antigravity" ("agent-" ++ uuid w).

(** *** generateContent *)

Definition generate_url (endpoint : string) : string :=
  endpoint ++ "/v1internal:generateContent".

(** The last element of the endpoint list, which the [catch] clause
    compares the current endpoint with. *)
Definition last_endpoint (endpoints : list string) : string :=
  last endpoints EmptyString.

(** The loop "try endpoints in order": the URLs fetched, in order, and the
    value returned ([inl]) or the message of the error thrown ([inr]).
    [catch m] is the [catch] clause entered with an error of message [m]. *)
Fixpoint generate_loop (w : World) (endpoints remaining : list string)
  : list string * (json + string) :=
  match remaining with
  | [] => ([], inr "All Antigravity endpoints failed")
  | endpoint :: rest =>
      let url := generate_url endpoint in
      let continue :=
        let (calls, r) := generate_loop w endpoints rest in (url :: calls, r) in
      let catch (m : string) :=
        if String.eqb endpoint (last_endpoint endpoints)
        then ([url], inr m) else continue in
      match fetch w url with
      | FetchThrows m => catch m
      | FetchReturns response =>
          if ok response then
            match JSON_parse (body_text response) with
            | None => catch SyntaxError_message
            | Some JNull => catch TypeError_message
            | Some data =>
                ([url],
                 inl (match get data "response" with
                      | Some r => if truthy r then r else data
                      | None => data
                      end))
            end
          else if retryable (status response) then continue
          else catch ("API error " ++ JS.Z_to_string (status response)
                        ++ ": " ++ body_text response)
      end
  end.

Record GenerateOutcome : Type := mkGenerateOutcome {
  g_events : list Event;
  g_body : option Body;             (* the body of every call made *)
  g_calls : list string;            (* the URLs fetched, in order *)
  g_result : json + string
}.

(** [generateContent(model, request)] over a given endpoint list; the
    deployed client runs it on [ANTIGRAVITY_ENDPOINTS]. *)
Definition generateContentOn (endpoints : list string) (w : World)
    (tokens : option AuthTokens) (model : string) (request : AntigravityRequest)
  : GenerateOutcome :=
  let t := ensureValidToken w tokens in
  match returned t with
  | inr m => mkGenerateOutcome (events t) None [] (inr m)
  | inl _ =>
      let (calls, r) := generate_loop w endpoints endpoints in
      mkGenerateOutcome (events t)
        (Some (makeBody w (tokens_after t) model request)) calls r
  end.

Definition generateContent := generateContentOn ANTIGRAVITY_ENDPOINTS.

(** *** streamGenerateContent *)

(** [StreamChunk]: the [type] tag has the four values of the declaration;
    the payload fields hold whatever the parsed record holds. *)
Inductive ChunkType : Type :=
| type_content | type_thinking | type_done | type_error.

Record ChunkUsage : Type := mkChunkUsage {
  promptTokens : option json;
  completionTokens : option json;
  totalTokens : option json
}.

Record StreamChunk : Type := mkChunk {
  chunk_type : ChunkType;
  chunk_content : option json;
  chunk_thinking : option json;
  chunk_error : option string;
  chunk_usage : option ChunkUsage
}.

Definition content_chunk (v : json) : StreamChunk :=
  mkChunk type_content (Some v) None None None.
Definition thinking_chunk (v : json) : StreamChunk :=
  mkChunk type_thinking None (Some v) None None.
Definition usage_chunk (u : ChunkUsage) : StreamChunk :=
  mkChunk type_content None None None (Some u).
Definition done_chunk : StreamChunk :=
  mkChunk type_done None None None None.
Definition error_chunk (m : string) : StreamChunk :=
  mkChunk type_error None None (Some m) None.

Definition is_true (v : option json) : bool :=
  match v with Some (JBool true) => true | _ => false end.

Definition is_string (v : option json) (s : string) : bool :=
  match v with Some (JStr x) => String.eqb x s | _ => false end.

(** [a || b] on values. *)
Definition or_json (a : option json) (b : json) : json :=
  match a with
  | Some x => if truthy x then x else b
  | None => b
  end.

(** The chunks one part yields; [None] when reading a property of the
    part throws (the part is [null]). *)
Definition part_chunks (part : json) : option (list StreamChunk) :=
  match part with
  | JNull => None
  | _ =>
      if is_true (get part "thought") || is_string (get part "type") "thinking" then
        Some [thinking_chunk
                (or_json (get part "text")
                   (or_json (get part "thinking") (JStr EmptyString)))]
      else
        match get part "text" with
        | Some t => if truthy t then Some [content_chunk t] else Some []
        | None => Some []
        end
  end.

(** The loop over the parts: the chunks yielded, and whether the loop ran
    to its end ([false]: an error was thrown on the way). *)
Fixpoint parts_chunks (ps : list json) : list StreamChunk * bool :=
  match ps with
  | [] => ([], true)
  | p :: rest =>
      match part_chunks p with
      | None => ([], false)
      | Some cs => let (cs', fin) := parts_chunks rest in ((cs ++ cs')%list, fin)
      end
  end.

(** "Include usage if available". *)
Definition usage_chunks (response : option json) : list StreamChunk :=
  match get_opt response "usageMetadata" with
  | Some um =>
      if truthy um then
        [usage_chunk (mkChunkUsage (get um "promptTokenCount")
                        (get um "candidatesTokenCount")
                        (get um "totalTokenCount"))]
      else []
  | None => []
  end.

(** The chunks one parsed record yields (the body of the inner [try]). *)
Definition translate_record (data : json) : list StreamChunk :=
  match data with
  | JNull => []                                   (* reading [data.response] throws *)
  | _ =>
      let response := get data "response" in
      let parts :=
        get_opt (get_opt (index0_opt (get_opt response "candidates")) "content")
          "parts" in
      match parts with
      | Some (JArr ps) =>
          let (cs, fin) := parts_chunks ps in
          if fin then (cs ++ usage_chunks response)%list else cs
      | Some (JStr (String _ _)) =>
          usage_chunks response                   (* its characters yield nothing *)
      | Some (JObj _) => []                       (* truthy but not iterable: throws *)
      | Some (JNum m _) => []                     (* falsy, or not iterable *)
      | Some (JBool _) => []
      | _ => []                                   (* falsy: [continue] *)
      end
  end.

(** The chunks one complete line of the stream yields. *)
Definition process_line (line : string) : list StreamChunk :=
  if negb (JS.startsWith line "data:") then []
  else
    let jsonStr := JS.trim (JS.slice 5 line) in
    if negb (JS.truthy_str jsonStr) then []
    else match JSON_parse jsonStr with
         | Some data => translate_record data
         | None => []                             (* skip malformed JSON *)
         end.

(** One read: append to the buffer, split on newline, keep the last
    fragment as the new buffer, translate the complete lines. *)
Definition feed (buffer value : string) : list StreamChunk * string :=
  let lines := JS.split_nl (buffer ++ value) in
  let buffer' := JS.or_str (last lines EmptyString) EmptyString in
  (flat_map process_line (removelast lines), buffer').

(** The [while (true)] loop over the reads of one response: the chunks
    yielded, and [Some m] when a read threw an error of message [m]
    ([None]: the stream ended, [done] was yielded and the generator
    returned). *)
Fixpoint read_loop (buffer : string) (rs : list string) (flt : option string)
  : list StreamChunk * option string :=
  match rs with
  | [] =>
      match flt with
      | None => ([done_chunk], None)
      | Some m => ([], Some m)
      end
  | value :: more =>
      let (cs, buffer') := feed buffer value in
      let (cs', thrown) := read_loop buffer' more flt in
      ((cs ++ cs')%list, thrown)
  end.

Definition stream_url (endpoint : string) : string :=
  endpoint ++ "/v1internal:streamGenerateContent?alt=sse".

Definition exhausted_message (lastError : option string) : string :=
  match lastError with
  | Some m => JS.or_str m "All endpoints failed"
  | None => "All endpoints failed"
  end.

(** The loop "try endpoints in order" of the streaming variant: the URLs
    fetched and the chunks yielded, in order.  [catch m pre] is the
    [catch] clause entered with an error of message [m] after the chunks
    [pre] were yielded for this endpoint. *)
Fixpoint stream_loop (w : World) (endpoints remaining : list string)
    (lastError : option string) : list string * list StreamChunk :=
  match remaining with
  | [] => ([], [error_chunk (exhausted_message lastError)])
  | endpoint :: rest =>
      let url := stream_url endpoint in
      let continue (le : option string) (pre : list StreamChunk) :=
        let (calls, cs) := stream_loop w endpoints rest le in
        (url :: calls, (pre ++ cs)%list) in
      let catch (m : string) (pre : list StreamChunk) :=
        if String.eqb endpoint (last_endpoint endpoints)
        then ([url], (pre ++ [error_chunk m])%list)
        else continue (Some m) pre in
      match fetch w url with
      | FetchThrows m => catch m []
      | FetchReturns response =>
          if negb (ok response) then
            if retryable (status response) then continue lastError []
            else catch ("API error " ++ JS.Z_to_string (status response)
                          ++ ": " ++ body_text response) []
          else
            match body_stream response with
            | None => catch "No response body" []
            | Some st =>
                match read_loop EmptyString (reads st) (fault st) with
                | (cs, None) => ([url], cs)
                | (cs, Some m) => catch m cs
                end
            end
      end
  end.

Record StreamOutcome : Type := mkStreamOutcome {
  s_events : list Event;
  s_body : option Body;
  s_calls : list string;
  s_chunks : list StreamChunk;
  s_thrown : option string          (* an error thrown out of the generator *)
}.

(** [streamGenerateContent(model, request)] over a given endpoint list,
    consumed to its end. *)
Definition streamGenerateContentOn (endpoints : list string) (w : World)
    (tokens : option AuthTokens) (model : string) (request : AntigravityRequest)
  : StreamOutcome :=
  let t := ensureValidToken w tokens in
  match returned t with
  | inr m => mkStreamOutcome (events t) None [] [] (Some m)
  | inl _ =>
      let (calls, cs) := stream_loop w endpoints endpoints None in
      mkStreamOutcome (events t)
        (Some (makeBody w (tokens_after t) model request)) calls cs None
  end.

Definition streamGenerateContent := streamGenerateContentOn ANTIGRAVITY_ENDPOINTS.

(** [done] and [error] are the terminal chunks. *)
Definition is_terminal (c : StreamChunk) : bool :=
  match chunk_type c with
  | type_done | type_error => true
  | type_content | type_thinking => false
  end.

(** How one iteration of the streaming loop ends: the generator returns
    after the chunks yielded, or the loop goes on to the next endpoint with
    the given [lastError]. *)
Inductive Step : Type :=
| StepReturn (chunks : list StreamChunk)
| StepContinue (lastError : option string) (chunks : list StreamChunk).

(** The body of the streaming loop for one endpoint (see [stream_loop_step]). *)
Definition stream_attempt (w : World) (endpoints : list string) (endpoint : string)
    (lastError : option string) : Step :=
  let catch (m : string) (pre : list StreamChunk) :=
    if String.eqb endpoint (last_endpoint endpoints)
    then StepReturn (pre ++ [error_chunk m])%list
    else StepContinue (Some m) pre in
  match fetch w (stream_url endpoint) with
  | FetchThrows m => catch m []
  | FetchReturns response =>
      if negb (ok response) then
        if retryable (status response) then StepContinue lastError []
        else catch ("API error " ++ JS.Z_to_string (status response)
                      ++ ": " ++ body_text response) []
      else
        match body_stream response with
        | None => catch "No response body" []
        | Some st =>
            match read_loop EmptyString (reads st) (fault st) with
            | (cs, None) => StepReturn cs
            | (cs, Some m) => catch m cs
            end
        end
  end.

End Client.

(* ================================================================== *)
(** ** Concrete inputs used below *)
(* ================================================================== *)

Module Examples.
Import Json Constants OAuth Converter Client.

(** The double-quote character, and a quoted word. *)
Definition dq : string := String (ascii_of_nat 34) EmptyString.
Definition q (s : string) : string := dq ++ s ++ dq.

(** A credential that is valid for a long time at clock 0. *)
Definition fresh_tokens : AuthTokens :=
  mkTokens "access-0" "refresh-0" 86400000 (Some "dev@example.org") "project-1".

(** A credential that expires in exactly five minutes at clock 0. *)
Definition boundary_tokens : AuthTokens :=
  mkTokens "access-0" "refresh-0" 300000 None "project-1".

(** A credential that expired before clock 0. *)
Definition stale_tokens : AuthTokens :=
  mkTokens "access-0" "refresh-0" (-1) None "project-1".

Definition refresh_ok (_ : string) : TokenEndpointReply := TokenOk "access-1" 3600.

Definition no_fetch (_ : string) : FetchResult := FetchThrows "unreachable".

Definition quiet_world : World :=
  mkWorld 0 0 refresh_ok (fun _ => None) no_fetch "00000000-0000-4000-8000-000000000000".

Definition with_fetch (f : string -> FetchResult) : World :=
  mkWorld 0 0 refresh_ok (fun _ => None) f "00000000-0000-4000-8000-000000000000".

(** The SSE line of a record with one text part. *)
Definition text_record (t : string) : string :=
  "{" ++ q "response" ++ ":{" ++ q "candidates" ++ ":[{" ++ q "content"
    ++ ":{" ++ q "parts" ++ ":[{" ++ q "text" ++ ":" ++ q t ++ "}]}}]}}".

Definition text_line (t : string) : string := "data: " ++ text_record t ++ JS.NL.

(** The two reads of the split record. *)
Definition read1 : string :=
  "data: {" ++ q "response" ++ ":{" ++ q "candidates" ++ ":[{" ++ q "content"
    ++ ":{" ++ q "parts" ++ ":[{" ++ dq ++ "te".
Definition read2 : string :=
  "xt" ++ dq ++ ":" ++ q "hi" ++ "}]}}]}}" ++ JS.NL ++ JS.NL.

(** A record with an empty parts list and a usage block. *)
Definition usage_record : string :=
  "{" ++ q "response" ++ ":{" ++ q "candidates" ++ ":[{" ++ q "content"
    ++ ":{" ++ q "parts" ++ ":[]}}]," ++ q "usageMetadata" ++ ":{"
    ++ q "promptTokenCount" ++ ":7," ++ q "candidatesTokenCount" ++ ":5,"
    ++ q "totalTokenCount" ++ ":12}}}".

(** The first endpoint answers 401, every other endpoint answers 200. *)
Definition fetch_401_then_200 (url : string) : FetchResult :=
  if String.eqb url (generate_url ANTIGRAVITY_ENDPOINT_DAILY)
  then FetchReturns (mkResponse 401 "denied" None)
  else FetchReturns (mkResponse 200 ("{" ++ q "response" ++ ":{" ++ q "served" ++ ":true}}") None).

(** The first endpoint answers 200 and its stream breaks after one record;
    every other endpoint answers 200 with a complete stream. *)
Definition fetch_broken_stream (url : string) : FetchResult :=
  if String.eqb url (stream_url ANTIGRAVITY_ENDPOINT_DAILY)
  then FetchReturns (mkResponse 200 EmptyString
                       (Some (mkStream [text_line "hi"] (Some "socket closed"))))
  else FetchReturns (mkResponse 200 EmptyString
                       (Some (mkStream [text_line "yo"] None))).

(** Every endpoint answers 200; the stream breaks after one record. *)
Definition fetch_all_broken (_ : string) : FetchResult :=
  FetchReturns (mkResponse 200 EmptyString
                  (Some (mkStream [text_line "hi"] (Some "socket closed")))).

Definition empty_request : AntigravityRequest := mkRequest [] None None None None.

Definition chat_request (model : string) (messages : list OpenAIMessage)
    (max_tokens : option Z) : OpenAIChatRequest :=
  mkChatRequest model messages None None max_tokens None None None.

Definition user_message (text : string) : OpenAIMessage :=
  mkMessage user (ContentString text) None None None.

(** Tool results with content [oops]: with and without a tool-call id. *)
Definition tool_oops : OpenAIMessage :=
  mkMessage tool (ContentString "oops") None None (Some "call_1").
Definition tool_oops_no_id : OpenAIMessage :=
  mkMessage tool (ContentString "oops") None None None.

Definition simple_runtime : Runtime :=
  mkRuntime 1700000000123 (fun _ => "123e4567-e89b-42d3-a456-426614174000")
    (fun _ => "{}").

Definition text_part (t : string) : ResponsePart := mkRPart (Some t) None None.

Definition one_part_response (t : string) : BackendResponse :=
  mkBackendResponse
    (Some [mkCandidate (Some (mkCandidateContent (Some [text_part t]))) None])
    None.

(** The record [usage_record], parsed. *)
Definition usage_data : json :=
  JObj [("response",
         JObj [("candidates", JArr [JObj [("content", JObj [("parts", JArr [])])]]);
               ("usageMetadata",
                JObj [("promptTokenCount", JNum 7 0);
                      ("candidatesTokenCount", JNum 5 0);
                      ("totalTokenCount", JNum 12 0)])])].

(** The first two endpoints answer 503; the production endpoint answers 200
    and its stream breaks after one record. *)
Definition fetch_503_then_broken (url : string) : FetchResult :=
  if String.eqb url (stream_url ANTIGRAVITY_ENDPOINT_PROD)
  then FetchReturns (mkResponse 200 EmptyString
                       (Some (mkStream [text_line "hi"] (Some "socket closed"))))
  else FetchReturns (mkResponse 503 "unavailable" None).

End Examples.

(* ================================================================== *)
(** ** oauth.ts: the login flow *)
(* ================================================================== *)

Module OAuthFlow.
Import Constants OAuth.

(** The alphabet of [generateRandomString]. *)
Definition chars : string :=
  "ABCDEFGHIJKLMNOPQRSTUVWXYZabcdefghijklmnopqrstuvwxyz0123456789-._~".

(** [chars[i]] for an index inside the alphabet. *)
Definition char_at (i : nat) : ascii :=
  match String.get i chars with
  | Some c => c
  | None => Ascii.zero
  end.

(** [generateRandomString(length)], given the bytes that
    [crypto.getRandomValues] wrote, one per position. *)
Fixpoint generateRandomString (randomValues : list nat) : string :=
  match randomValues with
  | [] => EmptyString
  | v :: rest =>
      String (char_at (v mod String.length chars)) (generateRandomString rest)
  end.

(** The unreserved characters of a URI: letters, digits, [-], [.], [_], [~]. *)
Definition is_unreserved (c : ascii) : bool :=
  let n := nat_of_ascii c in
  ((65 <=? n) && (n <=? 90) || (97 <=? n) && (n <=? 122)
   || (48 <=? n) && (n <=? 57)
   || (n =? 45) || (n =? 46) || (n =? 95) || (n =? 126))%nat.

Definition plus_sign : ascii := ascii_of_nat 43.
Definition minus_sign : ascii := ascii_of_nat 45.
Definition solidus : ascii := ascii_of_nat 47.
Definition underscore : ascii := ascii_of_nat 95.
Definition equals_sign : ascii := ascii_of_nat 61.

(** [s.replace(/c/g, d)] for single characters. *)
Fixpoint replace_char (c d : ascii) (s : string) : string :=
  match s with
  | EmptyString => EmptyString
  | String x r => String (if Ascii.eqb x c then d else x) (replace_char c d r)
  end.

(** [s.replace(/=+$/, empty)]: drop the equals signs the string ends with. *)
Fixpoint strip_padding (s : string) : string :=
  match s with
  | EmptyString => EmptyString
  | String x r =>
      match strip_padding r with
      | EmptyString =>
          if Ascii.eqb x equals_sign then EmptyString else String x EmptyString
      | r' => String x r'
      end
  end.

(** [base64UrlEncode(buffer)], given [base64], the standard base64 text of
    the buffer ([Buffer.from(buffer).toString("base64")]). *)
Definition base64UrlEncode (base64 : string) : string :=
  strip_padding (replace_char solidus underscore (replace_char plus_sign minus_sign base64)).

Fixpoint repeat_char (c : ascii) (n : nat) : string :=
  match n with
  | O => EmptyString
  | S k => String c (repeat_char c k)
  end.

(** [s.padEnd(target, "=")] *)
Definition padEnd (s : string) (target : nat) : string :=
  s ++ repeat_char equals_sign (target - String.length s).

(** The text [decodeState] hands to the base64 decoder: the state with the
    URL-safe characters put back and the padding restored. *)
Definition padded_state (state : string) : string :=
  let normalized :=
    replace_char underscore solidus (replace_char minus_sign plus_sign state) in
  padEnd normalized
    (String.length normalized + ((4 - String.length normalized mod 4) mod 4)).

(** The characters of the standard base64 alphabet. *)
Definition is_base64_char (c : ascii) : bool :=
  let n := nat_of_ascii c in
  ((65 <=? n) && (n <=? 90) || (97 <=? n) && (n <=? 122)
   || (48 <=? n) && (n <=? 57) || (n =? 43) || (n =? 47))%nat.

Fixpoint all_chars (p : ascii -> bool) (s : string) : bool :=
  match s with
  | EmptyString => true
  | String c r => p c && all_chars p r
  end.

(** [cloudaicompanionProject] of a [loadCodeAssist] answer: absent (or
    [null]), a string, or an object with an optional [id]. *)
Inductive ProjectField : Type :=
| ProjectAbsent
| ProjectString (s : string)
| ProjectObject (id : option string).

(** What an endpoint answers to [loadCodeAssist]: the call throws, the
    status is not 2xx, the body is not JSON, or the body is an object. *)
Inductive LoadReply : Type :=
| LoadThrows
| LoadNotOk
| LoadBadJson
| LoadData (cloudaicompanionProject : ProjectField).

Definition load_url (endpoint : string) : string :=
  endpoint ++ "/v1internal:loadCodeAssist".

(** The loop of [fetchProjectId]: the URLs fetched, in order, and the
    project id returned (the empty string when no endpoint gave one). *)
Fixpoint fetchProjectId_loop (load : string -> LoadReply) (endpoints : list string)
  : list string * string :=
  match endpoints with
  | [] => ([], EmptyString)
  | endpoint :: rest =>
      let url := load_url endpoint in
      let next :=
        let (calls, r) := fetchProjectId_loop load rest in (url :: calls, r) in
      match load url with
      | LoadData (ProjectString s) => ([url], s)
      | LoadData (ProjectObject (Some id)) =>
          if JS.truthy_str id then ([url], id) else next
      | _ => next
      end
  end.

Definition fetchProjectId (load : string -> LoadReply) : list string * string :=
  fetchProjectId_loop load ANTIGRAVITY_ENDPOINTS.

(** The token endpoint's answer to an authorization-code exchange. *)
Record TokenData : Type := mkTokenData {
  td_access_token : string;
  td_expires_in : Z;
  td_refresh_token : option string
}.

Inductive ExchangeReply : Type :=
| ExchangeThrows (message : string)
| ExchangeNotOk (errorText : string)
| ExchangeOk (tokenData : TokenData).

(** The answer of the user-info endpoint, as [fetchUserInfo] reads it: any
    failure gives the empty record. *)
Inductive UserInfoReply : Type :=
| UserInfoFails
| UserInfoOk (email : option string).

Record AuthWorld : Type := mkAuthWorld {
  auth_clock : Z;
  exchange : string -> string -> ExchangeReply;   (* by code and verifier *)
  userinfo : string -> UserInfoReply;             (* by access token *)
  loadCodeAssist : string -> LoadReply            (* by URL *)
}.

(** [decodeState(state)], as its return type declares it. *)
Record DecodedState : Type := mkDecodedState {
  ds_verifier : string;
  ds_projectId : string
}.

Inductive AuthEvent : Type :=
| EvExchange (code verifier : string)
| EvUserInfo (accessToken : string)
| EvLoadCodeAssist (url : string).

(** [fetchUserInfo(accessToken)]: the email, when the endpoint gave one. *)
Definition fetchUserInfo (w : AuthWorld) (accessToken : string) : option string :=
  match userinfo w accessToken with
  | UserInfoOk e => e
  | UserInfoFails => None
  end.

(** [exchangeCodeForTokens(code, state)], given [decoded], the result of
    [decodeState(state)]: the calls made, and the credential ([inl]) or the
    message of the error thrown ([inr]). *)
Definition exchangeCodeForTokens (w : AuthWorld) (code : string)
    (decoded : DecodedState) : list AuthEvent * (AuthTokens + string) :=
  let ev := EvExchange code (ds_verifier decoded) in
  match exchange w code (ds_verifier decoded) with
  | ExchangeThrows m => ([ev], inr m)
  | ExchangeNotOk errorText => ([ev], inr ("Token exchange failed: " ++ errorText))
  | ExchangeOk tokenData =>
      match td_refresh_token tokenData with
      | None => ([ev], inr "No refresh token received")
      | Some refresh =>
          if negb (JS.truthy_str refresh) then ([ev], inr "No refresh token received")
          else
            let email := fetchUserInfo w (td_access_token tokenData) in
            let '(calls, effectiveProjectId) :=
              if JS.truthy_str (ds_projectId decoded) then ([], ds_projectId decoded)
              else fetchProjectId (loadCodeAssist w) in
            ((ev :: EvUserInfo (td_access_token tokenData)
                 :: map EvLoadCodeAssist calls)%list,
             inl (mkTokens (td_access_token tokenData) refresh
                    (auth_clock w + td_expires_in tokenData * 1000)%Z
                    email
                    (JS.or_str effectiveProjectId ANTIGRAVITY_DEFAULT_PROJECT_ID)))
      end
  end.

End OAuthFlow.

(* ================================================================== *)
(** ** converter.ts and index.ts: the outbound event stream *)
(* ================================================================== *)

Module Server.
Import Json Converter Client.

Record StreamUsage : Type := mkStreamUsage {
  su_prompt_tokens : json;
  su_completion_tokens : json;
  su_total_tokens : json
}.

(** [OpenAIStreamChunk]; its [choices] array always has the one entry whose
    fields are kept here. *)
Record OpenAIStreamChunk : Type := mkStreamChunk {
  sc_id : string;
  sc_object : string;
  sc_created : Z;
  sc_model : string;
  delta_role : option string;
  delta_content : option json;
  sc_finish_reason : option FinishReason;
  sc_usage : option StreamUsage
}.

(** Create an OpenAI streaming chunk; [now] is the [Date.now()] it reads. *)
Definition createStreamChunk (now : Z) (id model : string) (content : option json)
    (isFirst : bool) (finishReason : option FinishReason)
    (usage : option StreamUsage) : OpenAIStreamChunk :=
  mkStreamChunk id "chat.completion.chunk" (now / 1000)%Z model
    (if isFirst then Some "assistant" else None) content finishReason usage.

(** What the handler enqueues: the SSE frame of a chunk, the SSE frame of
    an error payload, or the [DONE] sentinel of [formatSSEDone]. *)
Inductive Frame : Type :=
| FrameData (chunk : OpenAIStreamChunk)
| FrameError (message : string)
| FrameDone.

(** What the handler takes from the runtime: the successive readings of the
    clock and the addition of two counters. *)
Record ServerRuntime : Type := mkServerRuntime {
  now_at : nat -> Z;
  js_plus : json -> json -> json
}.

(** The variables of the [start] callback, and how many chunks were created. *)
Record Tracker : Type := mkTracker {
  isFirst : bool;
  promptTokens : json;
  completionTokens : json;
  created_chunks : nat
}.

Definition initial_tracker : Tracker := mkTracker true (JNum 0 0) (JNum 0 0) 0.

(** "Track usage if available". *)
Definition track (st : Tracker) (chunk : StreamChunk) : Tracker :=
  match chunk_usage chunk with
  | Some u =>
      mkTracker (isFirst st)
        (or_json (Client.promptTokens u) (promptTokens st))
        (or_json (Client.completionTokens u) (completionTokens st))
        (created_chunks st)
  | None => st
  end.

(** The final chunk sent on [done]. *)
Definition final_chunk (rt : ServerRuntime) (id model : string) (st : Tracker)
  : OpenAIStreamChunk :=
  createStreamChunk (now_at rt (created_chunks st)) id model None false
    (Some finish_stop)
    (if truthy (promptTokens st) || truthy (completionTokens st)
     then Some (mkStreamUsage (promptTokens st) (completionTokens st)
                  (js_plus rt (promptTokens st) (completionTokens st)))
     else None).

(** The [for await] loop over the chunks of the generator: the frames
    enqueued, and whether the controller was closed. *)
Fixpoint consume (rt : ServerRuntime) (id model : string) (st : Tracker)
    (chunks : list StreamChunk) : list Frame * bool :=
  match chunks with
  | [] => ([], false)
  | chunk :: rest =>
      match chunk_type chunk with
      | type_content =>
          if truthy_opt (chunk_content chunk) then
            let frame :=
              FrameData (createStreamChunk (now_at rt (created_chunks st)) id model
                           (chunk_content chunk) (isFirst st) None None) in
            let st' := mkTracker false (promptTokens st) (completionTokens st)
                         (S (created_chunks st)) in
            let (frames, closed) := consume rt id model (track st' chunk) rest in
            (frame :: frames, closed)
          else consume rt id model (track st chunk) rest
      | type_thinking => consume rt id model (track st chunk) rest
      | type_done => ([FrameData (final_chunk rt id model st); FrameDone], true)
      | type_error =>
          ([FrameError (JS.or_opt_str (chunk_error chunk) "Unknown error")], true)
      end
  end.

(** The body of the streamed response for one request: the generator is
    consumed; an error it throws is caught and sent as an error payload. *)
Definition streamResponse (rt : ServerRuntime) (id model : string)
    (out : StreamOutcome) : list Frame * bool :=
  match s_thrown out with
  | Some m => ([FrameError m], true)
  | None => consume rt id model initial_tracker (s_chunks out)
  end.

(** The contents of the chunks that are forwarded: those of the chunks
    tagged [content] whose content is truthy. *)
Definition forwarded (chunks : list StreamChunk) : list json :=
  flat_map (fun c =>
              match chunk_type c, chunk_content c with
              | type_content, Some v => if truthy v then [v] else []
              | _, _ => []
              end) chunks.

Definition frame_chunk (f : Frame) : option OpenAIStreamChunk :=
  match f with
  | FrameData c => Some c
  | _ => None
  end.

(** The frames that close a stream after a terminal chunk. *)
Definition closing_frames (rt : ServerRuntime) (id model : string) (st : Tracker)
    (t : StreamChunk) : list Frame :=
  match chunk_type t with
  | type_error => [FrameError (JS.or_opt_str (chunk_error t) "Unknown error")]
  | _ => [FrameData (final_chunk rt id model st); FrameDone]
  end.

(** The variables of the callback after a chunk that is not terminal. *)
Definition advance (st : Tracker) (chunk : StreamChunk) : Tracker :=
  track
    (match chunk_type chunk with
     | type_content =>
         if truthy_opt (chunk_content chunk)
         then mkTracker false (promptTokens st) (completionTokens st)
                (S (created_chunks st))
         else st
     | _ => st
     end) chunk.

(** The role markers of [n] forwarded chunks, the first of which is sent
    while [isFirst] has the value [first]. *)
Definition role_markers (first : bool) (n : nat) : list (option string) :=
  match n with
  | O => []
  | S k => (if first then Some "assistant" else None) :: repeat None k
  end.

End Server.

(* ================================================================== *)
(** ** Reference definitions and further concrete inputs *)
(* ================================================================== *)

Module Reference.
Import Json Constants OAuth Converter Client.

(** A part that is not flagged as a thought. *)
Definition not_thought (p : ResponsePart) : bool :=
  match p_thought p with
  | Some true => false
  | _ => true
  end.

Definition text_of (p : ResponsePart) : string :=
  match p_text p with
  | Some t => t
  | None => EmptyString
  end.

(** The texts of the parts that are not thoughts, concatenated in order. *)
Definition visible_text (ps : list ResponsePart) : string :=
  String.concat EmptyString (map text_of (filter not_thought ps)).

(** The names of the function calls of the parts that are not thoughts. *)
Definition called_names (ps : list ResponsePart) : list string :=
  flat_map (fun p => match p_functionCall p with
                     | Some fc => [fc_name fc]
                     | None => []
                     end)
    (filter not_thought ps).

(** The function-call parts of a turn, in order: name and arguments. *)
Definition function_calls (ps : list Part) : list (string * json) :=
  flat_map (fun p => match p with
                     | PFunctionCall n a => [(n, a)]
                     | _ => []
                     end) ps.

(** What [convertMessage] makes of the arguments of a tool call:
    [JSON.parse], with the empty object in its [catch] clause. *)
Definition parsed_arguments (tc : ToolCall) : json :=
  match JSON_parse (tc_arguments tc) with
  | Some v => v
  | None => JObj []
  end.

(** An endpoint whose answer makes the loops go on without entering the
    [catch] clause: a status among 403, 404 and 5xx. *)
Definition answers_retryable (f : string -> FetchResult) (url : string) : Prop :=
  exists r, f url = FetchReturns r /\ ok r = false /\ retryable (status r) = true.

(** The text of a stream: its reads, concatenated. *)
Definition stream_text (rs : list string) : string :=
  String.concat EmptyString rs.

Fixpoint has_newline (s : string) : bool :=
  match s with
  | EmptyString => false
  | String c r => Ascii.eqb c JS.newline || has_newline r
  end.

Fixpoint has_semicolon (s : string) : bool :=
  match s with
  | EmptyString => false
  | String c r => is_code c 59 || has_semicolon r
  end.

(** The first endpoint answers 503, every other endpoint answers 200. *)
Definition fetch_503_then_200 (url : string) : FetchResult :=
  if String.eqb url (generate_url ANTIGRAVITY_ENDPOINT_DAILY)
  then FetchReturns (mkResponse 503 "unavailable" None)
  else FetchReturns (mkResponse 200 "[1]" None).

(** Every endpoint answers 503. *)
Definition fetch_all_503 (_ : string) : FetchResult :=
  FetchReturns (mkResponse 503 "unavailable" None).

(** A token endpoint that rejects every refresh. *)
Definition refresh_rejected (_ : string) : TokenEndpointReply :=
  TokenNotOk "invalid_grant".

Definition rejecting_world : World :=
  mkWorld 0 0 refresh_rejected (fun _ => None) fetch_all_503
    "00000000-0000-4000-8000-000000000000".

(** The first endpoint answers 404; every other endpoint answers 200 with a
    stream of one record. *)
Definition fetch_404_then_stream (url : string) : FetchResult :=
  if String.eqb url (stream_url ANTIGRAVITY_ENDPOINT_DAILY)
  then FetchReturns (mkResponse 404 "not found" None)
  else FetchReturns (mkResponse 200 EmptyString
                       (Some (mkStream [Examples.text_line "yo"] None))).

(** A record whose second part is [null], with a usage block. *)
Definition null_part_data : json :=
  JObj [("response",
         JObj [("candidates",
                JArr [JObj [("content",
                             JObj [("parts",
                                    JArr [JObj [("text", JStr "a")];
                                          JNull;
                                          JObj [("text", JStr "b")]])])]]);
               ("usageMetadata", JObj [("totalTokenCount", JNum 3 0)])])].

(** The function calls of the parts that are not thoughts, in order. *)
Definition called_functions (ps : list ResponsePart) : list FunctionCall :=
  flat_map (fun p => match p_functionCall p with
                     | Some fc => [fc]
                     | None => []
                     end)
    (filter not_thought ps).

(** The tool calls made of a list of function calls, the first of which
    gets the [n]-th UUID drawn. *)
Fixpoint number_calls (rt : Runtime) (n : nat) (fcs : list FunctionCall)
  : list OpenAIToolCall :=
  match fcs with
  | [] => []
  | fc :: rest =>
      mkOutCall ("call_" ++ JS.take 8 (randomUUID rt n)) (fc_name fc)
        (JSON_stringify rt
           (match fc_args fc with
            | Some a => if truthy a then a else JObj []
            | None => JObj []
            end))
      :: number_calls rt (S n) rest
  end.

(** A sequence of chunks: a thought, two contents, usage, then [done]
    followed by a stray content chunk. *)
Definition sample_chunks : list StreamChunk :=
  [thinking_chunk (JStr "hm"); content_chunk (JStr "a"); content_chunk (JStr "b");
   usage_chunk (mkChunkUsage (Some (JNum 7 0)) (Some (JNum 5 0)) (Some (JNum 12 0)));
   done_chunk; content_chunk (JStr "late")].

(** Addition of two integer counters. *)
Definition plus_integers (a b : json) : json :=
  match a, b with
  | JNum m 0, JNum n 0 => JNum (m + n) 0
  | _, _ => JNull
  end.

Definition sample_server_runtime : Server.ServerRuntime :=
  Server.mkServerRuntime (fun n => (1700000000000 + Z.of_nat n)%Z) plus_integers.

End Reference.

(* ================================================================== *)
(** ** Token manager *)
(* ================================================================== *)

Section TokenManager.
Import OAuth Client.

Variable w : World.
Variable t : AuthTokens.

Lemma isTokenExpired_spec :
  isTokenExpired (clock w) (expiresAt t) = true
  <-> (expiresAt t - clock w < 300000)%Z.
Proof.
  unfold isTokenExpired. rewrite Z.gtb_gt. lia.
Qed.

Lemma ensureValidToken_expired :
  isTokenExpired (clock w) (expiresAt t) = true ->
  refresh_calls (events (ensureValidToken w (Some t))) = 1%nat.
Proof.
  intros E. unfold ensureValidToken. rewrite E.
  destruct (refreshAccessToken _ _ _) as [r | m]; [| reflexivity].
  destruct (save_error w _); reflexivity.
Qed.

Lemma ensureValidToken_valid :
  isTokenExpired (clock w) (expiresAt t) = false ->
  ensureValidToken w (Some t) = mkTokenOutcome [] (Some t) (inl (accessToken t)).
Proof.
  intros E. unfold ensureValidToken. now rewrite E.
Qed.

End TokenManager.

(** Claim C3, as the code has it (the five-minute buffer is exclusive).
    For every loaded credential, [ensureValidToken] performs a refresh-token
    exchange if and only if [expiresAt] is less than 5 minutes after the
    current time (or in the past), and then performs exactly one; when
    [expiresAt] is 5 minutes or more in the future it makes no refresh call,
    leaves the credential as it is and returns the stored access token. *)
Theorem ensureValidToken_refresh_iff_inside_buffer :
  forall (w : Client.World) (t : OAuth.AuthTokens),
    let out := Client.ensureValidToken w (Some t) in
    (Client.refresh_calls (Client.events out) = 1%nat
     <-> (OAuth.expiresAt t - Client.clock w < 300000)%Z)
    /\ (Client.refresh_calls (Client.events out) = 0%nat
        <-> (300000 <= OAuth.expiresAt t - Client.clock w)%Z)
    /\ ((300000 <= OAuth.expiresAt t - Client.clock w)%Z ->
        Client.events out = []
        /\ Client.tokens_after out = Some t
        /\ Client.returned out = inl (OAuth.accessToken t))
    /\ (forall a, (OAuth.expiresAt t - Client.clock w < 300000)%Z ->
        Client.returned out = inl a ->
        exists t', Client.events out
                   = [Client.EvRefresh (OAuth.refreshToken t); Client.EvSave t']
                   /\ Client.tokens_after out = Some t'
                   /\ OAuth.accessToken t' = a
                   /\ OAuth.refreshToken t' = OAuth.refreshToken t).
Proof.
  intros w t out.
  destruct (OAuth.isTokenExpired (Client.clock w) (OAuth.expiresAt t)) eqn:E.
  - pose proof (ensureValidToken_expired w t E) as H1. fold out in H1.
    pose proof (proj1 (isTokenExpired_spec w t) E) as L.
    split; [| split; [| split]].
    + split; intros; [exact L | exact H1].
    + split; intros; [congruence | lia].
    + intros; lia.
    + intros a _. subst out. unfold Client.ensureValidToken. rewrite E.
      destruct (OAuth.refreshAccessToken _ _ _) as [r | m]; [| discriminate].
      destruct (Client.save_error w _) eqn:S; [discriminate |].
      simpl. intros [= <-]. eexists. repeat split.
  - pose proof (ensureValidToken_valid w t E) as H0.
    assert (L : (300000 <= OAuth.expiresAt t - Client.clock w)%Z).
    { destruct (Z_lt_le_dec (OAuth.expiresAt t - Client.clock w) 300000) as [l | l];
        [| exact l].
      apply isTokenExpired_spec in l. congruence. }
    subst out. rewrite H0. simpl.
    split; [| split; [| split]].
    + split; intros; [discriminate | lia].
    + split; intros; [exact L | reflexivity].
    + intros; repeat split.
    + intros; lia.
Qed.

(** Witness for C3: a credential that expired is refreshed once, and the
    refreshed access token is returned. *)
Lemma ensureValidToken_refresh_witness :
  Client.refresh_calls
    (Client.events (Client.ensureValidToken Examples.quiet_world
                      (Some Examples.stale_tokens))) = 1%nat.
Proof.
  apply (proj1 (ensureValidToken_refresh_iff_inside_buffer
                  Examples.quiet_world Examples.stale_tokens)).
  vm_compute. reflexivity.
Defined.

(** Counterexample to C3 as stated: a credential whose [expiresAt] is
    exactly 5 minutes after the current time is within 5 minutes
    (inclusive) of it, yet no refresh call is made and the stored access
    token is returned. *)
Lemma ensureValidToken_boundary_not_refreshed :
  (OAuth.expiresAt Examples.boundary_tokens - Client.clock Examples.quiet_world
   <= 5 * 60 * 1000)%Z
  /\ Client.refresh_calls
       (Client.events (Client.ensureValidToken Examples.quiet_world
                         (Some Examples.boundary_tokens))) = 0%nat
  /\ Client.returned (Client.ensureValidToken Examples.quiet_world
                        (Some Examples.boundary_tokens)) = inl "access-0".
Proof.
  vm_compute. repeat split. discriminate.
Qed.

(* ================================================================== *)
(** ** Response translator *)
(* ================================================================== *)

Section ResponseTranslator.
Import Json Converter.

Variable rt : Runtime.

Lemma scan_part_calls (st : ScanState) (part : ResponsePart) :
  List.length (scan_toolCalls (scan_part rt st part))
  = (List.length (scan_toolCalls st) + (if yields_tool_call part then 1 else 0))%nat.
Proof.
  unfold scan_part, yields_tool_call.
  destruct (p_thought part) as [[|]|]; simpl; try lia;
    destruct (p_functionCall part); simpl;
    rewrite ?length_app; simpl; lia.
Qed.

Lemma scan_parts_calls (ps : list ResponsePart) :
  forall st,
    List.length (scan_toolCalls (scan_parts rt st ps))
    = (List.length (scan_toolCalls st)
       + List.length (filter yields_tool_call ps))%nat.
Proof.
  induction ps as [| p ps IH]; intros st; simpl.
  - lia.
  - unfold scan_parts in *. simpl. rewrite IH, scan_part_calls.
    destruct (yields_tool_call p); simpl; lia.
Qed.

(** Some part was translated into a tool call exactly when the scan ends
    with a non-empty list of tool calls. *)
Lemma scan_has_calls (ps : list ResponsePart) (n : nat) :
  match scan_toolCalls (scan_parts rt (mkScan EmptyString [] n) ps) with
  | [] => false
  | _ => true
  end = existsb yields_tool_call ps.
Proof.
  pose proof (scan_parts_calls ps (mkScan EmptyString [] n)) as L. simpl in L.
  destruct (scan_toolCalls _) as [| c cs]; simpl in L.
  - symmetry. apply not_true_is_false. intros E.
    apply existsb_exists in E. destruct E as [x [Hin Hx]].
    assert (In x (filter yields_tool_call ps)) as F by (apply filter_In; auto).
    destruct (filter yields_tool_call ps); [contradiction | discriminate].
  - symmetry. destruct (filter yields_tool_call ps) as [| x xs] eqn:F;
      [discriminate |].
    assert (In x (filter yields_tool_call ps)) as Hx by (rewrite F; left; auto).
    apply filter_In in Hx. apply existsb_exists. exists x. exact Hx.
Qed.

Lemma response_id_eq (requestId : option string) (model : string)
    (response : BackendResponse) :
  resp_id (convertAntigravityToOpenAI rt response model requestId)
  = response_id rt requestId.
Proof.
  unfold convertAntigravityToOpenAI, response_id, JS.or_opt_str, JS.or_str.
  destruct requestId as [r |]; reflexivity.
Qed.

End ResponseTranslator.

(** Claim C10.  A backend response whose candidates list is absent or empty
    is translated without failure into a response with no choice, carrying
    the response id (the caller's when it is non-empty, a fresh one
    otherwise), the model id, the creation time in seconds, and the usage
    counts exactly when the backend supplied a usage block (a missing count
    being 0). *)
Theorem convert_no_candidates :
  forall (rt : Converter.Runtime) (response : Converter.BackendResponse)
         (model : string) (requestId : option string),
    Converter.candidates response = None \/ Converter.candidates response = Some [] ->
    let r := Converter.convertAntigravityToOpenAI rt response model requestId in
    Converter.choices r = []
    /\ Converter.resp_id r
       = match requestId with
         | Some i => if JS.truthy_str i then i
                     else "chatcmpl-" ++ Converter.randomUUID rt 0
         | None => "chatcmpl-" ++ Converter.randomUUID rt 0
         end
    /\ Converter.resp_object r = "chat.completion"
    /\ Converter.resp_model r = model
    /\ Converter.created r = (Converter.Date_now rt / 1000)%Z
    /\ Converter.usage r
       = match Converter.usageMetadata response with
         | Some u =>
             Some (Converter.mkUsage
                     (match Converter.promptTokenCount u with Some n => n | None => 0%Z end)
                     (match Converter.candidatesTokenCount u with Some n => n | None => 0%Z end)
                     (match Converter.totalTokenCount u with Some n => n | None => 0%Z end))
         | None => None
         end.
Proof.
  intros rt response model requestId H r. subst r.
  unfold Converter.convertAntigravityToOpenAI. simpl.
  split; [destruct H as [-> | ->]; reflexivity |].
  split; [destruct requestId; reflexivity |].
  split; [reflexivity |].
  split; [reflexivity |].
  split; [reflexivity |].
  destruct (Converter.usageMetadata response); reflexivity.
Qed.

(** Witness for C10: a response with an empty candidates list and a usage
    block. *)
Lemma convert_no_candidates_witness :
  Converter.choices
    (Converter.convertAntigravityToOpenAI Examples.simple_runtime
       (Converter.mkBackendResponse (Some [])
          (Some (Converter.mkUsageMetadata (Some 3%Z) None (Some 3%Z))))
       "gemini-3-flash" None) = [].
Proof.
  apply (convert_no_candidates Examples.simple_runtime
           (Converter.mkBackendResponse (Some [])
              (Some (Converter.mkUsageMetadata (Some 3%Z) None (Some 3%Z))))
           "gemini-3-flash" None).
  right. reflexivity.
Defined.

(** Claim C9, as the code has it.  For every backend response with at least
    one candidate, the translated response has exactly one choice, built
    from the first candidate; its finish reason is [length] when that
    candidate's finish reason is [MAX_TOKENS], otherwise [tool_calls] when
    at least one function-call part was translated into a tool call, and
    otherwise [stop].  In particular a first candidate with one non-thought
    part carrying a non-empty text, and no finish reason, yields a sole
    choice with that text as content and finish reason [stop]. *)
Theorem convert_finish_reason :
  forall (rt : Converter.Runtime) (candidate : Converter.Candidate)
         (others : list Converter.Candidate)
         (um : option Converter.UsageMetadata)
         (model : string) (requestId : option string),
    let r := Converter.convertAntigravityToOpenAI rt
               (Converter.mkBackendResponse (Some (candidate :: others)) um)
               model requestId in
    (exists choice,
        Converter.choices r = [choice]
        /\ Converter.finish_reason choice
           = Some (if match Converter.finishReason candidate with
                      | Some reason => String.eqb reason "MAX_TOKENS"
                      | None => false
                      end
                   then Converter.finish_length
                   else if existsb Converter.yields_tool_call
                             (Converter.candidate_parts candidate)
                        then Converter.finish_tool_calls
                        else Converter.finish_stop))
    /\ (forall (t : string) (th : option bool),
           t <> EmptyString -> th <> Some true ->
           candidate
           = Converter.mkCandidate
               (Some (Converter.mkCandidateContent
                        (Some [Converter.mkRPart (Some t) th None])))
               None ->
           Converter.choices r
           = [Converter.mkChoice 0 (Some t) None (Some Converter.finish_stop)]).
Proof.
  intros rt candidate others um model requestId r. subst r.
  unfold Converter.convertAntigravityToOpenAI. simpl. split.
  - eexists. split; [reflexivity |].
    unfold Converter.convert_candidate. simpl.
    rewrite scan_has_calls.
    destruct (Converter.finishReason candidate) as [reason |]; simpl;
      [destruct (String.eqb reason "MAX_TOKENS") |]; reflexivity.
  - intros t th Ht Hth ->.
    unfold Converter.convert_candidate, Converter.scan_parts,
      Converter.candidate_parts, Converter.scan_part. simpl.
    destruct t as [| c t]; [congruence |].
    destruct th as [[|] |]; [congruence | reflexivity | reflexivity].
Qed.

(** Counterexample to C9 as stated: a first candidate with one non-thought
    text part whose text is the empty string, and no finish reason, yields
    a sole choice whose content is [null], not that text. *)
Lemma convert_empty_text_gives_null :
  Converter.choices
    (Converter.convertAntigravityToOpenAI Examples.simple_runtime
       (Examples.one_part_response EmptyString) "m" None)
  = [Converter.mkChoice 0 None None (Some Converter.finish_stop)]
  /\ Converter.p_text (Examples.text_part EmptyString) = Some EmptyString
  /\ Converter.p_thought (Examples.text_part EmptyString) = None.
Proof.
  repeat split.
Qed.

(* ================================================================== *)
(** ** Request translator *)
(* ================================================================== *)

Section RequestTranslator.
Import Json Converter.

Lemma convertMessage_parts (m : OpenAIMessage) (c : AntigravityContent) :
  convertMessage m = Some c -> c_parts c <> [].
Proof.
  unfold convertMessage.
  destruct (role_eqb (msg_role m) tool && JS.truthy_opt_str (msg_tool_call_id m)).
  - intros [= <-]. simpl. discriminate.
  - destruct (content_parts (msg_content m) ++ _)%list eqn:P.
    + discriminate.
    + intros [= <-]. simpl. discriminate.
Qed.

Lemma convert_contents_parts (ms : list OpenAIMessage) :
  Forall (fun turn => c_parts turn <> []) (convert_contents ms).
Proof.
  induction ms as [| m ms IH]; simpl.
  - constructor.
  - destruct (convertMessage m) as [c |] eqn:E; [| exact IH].
    constructor; [eapply convertMessage_parts; eassumption | exact IH].
Qed.

Lemma convert_contents_app (xs ys : list OpenAIMessage) :
  convert_contents (xs ++ ys) = (convert_contents xs ++ convert_contents ys)%list.
Proof.
  induction xs as [| x xs IH]; simpl; [reflexivity |].
  destruct (convertMessage x); simpl; now rewrite IH.
Qed.

(** The turn sequence is the conversion of the non-system messages. *)
Lemma contents_convert (request : OpenAIChatRequest) :
  contents (convertOpenAIToAntigravity request)
  = convert_contents (filter (fun m => negb (is_system m)) (req_messages request)).
Proof. reflexivity. Qed.

(** The client's augmentation leaves the turn sequence as it is. *)
Lemma contents_prepareRequest (model : string) (request : AntigravityRequest) :
  contents (Client.prepareRequest model request) = contents request.
Proof.
  unfold Client.prepareRequest, Client.applyToolMode, Client.applyThinkingConfig.
  destruct (Client.resolvedThinking (Client.resolveModel model));
    destruct (Client.isClaude (Client.resolveModel model)); simpl;
    repeat match goal with
           | |- context [match ?x with _ => _ end] => destruct x; simpl
           end; reflexivity.
Qed.

End RequestTranslator.

(** Claim C8.  Every turn of the translated backend turn sequence has at
    least one part, also after the client's augmentation; a user or
    assistant message with empty string content and no tool call yields no
    turn, and a message that yields no turn is left out of the sequence. *)
Theorem turns_have_parts :
  forall request : Converter.OpenAIChatRequest,
    Forall (fun turn => Converter.c_parts turn <> [])
      (Converter.contents (Converter.convertOpenAIToAntigravity request))
    /\ Forall (fun turn => Converter.c_parts turn <> [])
         (Converter.contents
            (Client.prepareRequest (Converter.req_model request)
               (Converter.convertOpenAIToAntigravity request)))
    /\ (forall nm tid,
           Converter.convertMessage
             (Converter.mkMessage Converter.user (Converter.ContentString EmptyString)
                nm None tid) = None
           /\ Converter.convertMessage
                (Converter.mkMessage Converter.assistant
                   (Converter.ContentString EmptyString) nm None tid) = None
           /\ Converter.convertMessage
                (Converter.mkMessage Converter.assistant
                   (Converter.ContentString EmptyString) nm (Some []) tid) = None)
    /\ (forall m pre post,
           Converter.req_messages request = (pre ++ m :: post)%list ->
           Converter.convertMessage m = None ->
           Converter.contents (Converter.convertOpenAIToAntigravity request)
           = Converter.convert_contents
               (filter (fun x => negb (Converter.is_system x)) (pre ++ post))).
Proof.
  intros request.
  split; [| split; [| split]].
  - rewrite contents_convert. apply convert_contents_parts.
  - rewrite contents_prepareRequest, contents_convert. apply convert_contents_parts.
  - intros nm tid. repeat split.
  - intros m pre post Hm Hnone.
    rewrite contents_convert, Hm, !filter_app, !convert_contents_app. simpl.
    destruct (negb (Converter.is_system m)); simpl; [rewrite Hnone |]; reflexivity.
Qed.

(** Claim C7, as the code has it.  A tool-role message that carries a
    non-empty tool-call id and whose content is a string becomes a user turn
    holding a single function-response part, keyed by the declared tool name
    when there is a non-empty one and by the tool-call id otherwise; the
    body is the parsed content when the string is valid JSON and the wrapper
    [{result: <string>}] otherwise, as for [oops]. *)
Theorem tool_result_translation :
  forall (s : string) (nm : option string) (id : string)
         (tcs : option (list Converter.ToolCall)),
    id <> EmptyString ->
    let msg := Converter.mkMessage Converter.tool (Converter.ContentString s)
                 nm tcs (Some id) in
    let key := match nm with
               | Some n => if JS.truthy_str n then n else id
               | None => id
               end in
    (Json.JSON_parse s = None ->
     Converter.convertMessage msg
     = Some (Converter.mkContent Converter.role_user
               [Converter.PFunctionResponse key
                  (Converter.RespJson (Json.JObj [("result", Json.JStr s)]))]))
    /\ (forall v, Json.JSON_parse s = Some v ->
        Converter.convertMessage msg
        = Some (Converter.mkContent Converter.role_user
                  [Converter.PFunctionResponse key (Converter.RespJson v)]))
    /\ Json.JSON_parse "oops" = None
    /\ Converter.convertMessage
         (Converter.mkMessage Converter.tool (Converter.ContentString "oops")
            nm tcs (Some id))
       = Some (Converter.mkContent Converter.role_user
                 [Converter.PFunctionResponse key
                    (Converter.RespJson (Json.JObj [("result", Json.JStr "oops")]))]).
Proof.
  intros s nm id tcs Hid msg key.
  assert (T : JS.truthy_str id = true) by (destruct id; [congruence | reflexivity]).
  assert (K : JS.or_opt_str nm id = key) by reflexivity.
  split; [| split; [| split]].
  - intros P. unfold Converter.convertMessage. simpl. rewrite T. simpl.
    rewrite P, K. reflexivity.
  - intros v P. unfold Converter.convertMessage. simpl. rewrite T. simpl.
    rewrite P, K. reflexivity.
  - vm_compute. reflexivity.
  - unfold Converter.convertMessage. simpl. rewrite T. simpl.
    rewrite K. reflexivity.
Qed.

(** Witness for C7: the tool result [oops] of call [call_1]. *)
Lemma tool_result_translation_witness :
  Converter.convertMessage Examples.tool_oops
  = Some (Converter.mkContent Converter.role_user
            [Converter.PFunctionResponse "call_1"
               (Converter.RespJson (Json.JObj [("result", Json.JStr "oops")]))]).
Proof.
  apply (tool_result_translation "oops" None "call_1" None).
  discriminate.
Defined.

(** Counterexample to C7 as stated: a tool-role message with content [oops]
    and no tool-call id becomes a user turn holding a text part, not a
    function-response part. *)
Lemma tool_result_without_id_is_text :
  Converter.msg_role Examples.tool_oops_no_id = Converter.tool
  /\ Converter.msg_content Examples.tool_oops_no_id = Converter.ContentString "oops"
  /\ Json.JSON_parse "oops" = None
  /\ Converter.convertMessage Examples.tool_oops_no_id
     = Some (Converter.mkContent Converter.role_user [Converter.PText "oops"]).
Proof.
  vm_compute. repeat split.
Qed.

(* ================================================================== *)
(** ** Thinking augmentation *)
(* ================================================================== *)

Section Thinking.
Import Json Constants Converter Client.

(** Every registry entry with a thinking budget names a model of the
    thinking-budget family, has a non-zero budget and no thinking level, so
    [resolveModel] selects budget mode for it. *)
Lemma resolveModel_budget (model : string) (info : ModelInfo) (b : Z) :
  registry_get AVAILABLE_MODELS model = Some info ->
  thinkingBudget info = Some b ->
  resolveModel model = mkResolved model (Some (mkResolvedThinking None (Some b))) true
  /\ b <> 0%Z.
Proof.
  intros H B. unfold resolveModel. rewrite H.
  unfold AVAILABLE_MODELS, registry_get in H.
  repeat match type of H with
         | context [String.eqb model ?k] =>
             let E := fresh "E" in
             destruct (String.eqb model k) eqn:E;
             [ apply String.eqb_eq in E; subst model;
               injection H as <-; simpl in B;
               first [ discriminate B
                     | injection B as <-; split; [vm_compute; reflexivity | discriminate] ]
             | clear E ]
         end.
  discriminate H.
Qed.

Lemma generationConfig_applyToolMode (r : Resolved) (request : AntigravityRequest) :
  generationConfig (applyToolMode r request) = generationConfig request.
Proof.
  unfold applyToolMode.
  destruct (isClaude r && _); reflexivity.
Qed.

(** In budget mode the augmented generation config keeps the sampling
    parameters, raises the output limit to the floor and sets the budget. *)
Lemma applyThinkingConfig_budget (model : string) (b : Z) (request : AntigravityRequest) :
  b <> 0%Z ->
  generationConfig
    (applyThinkingConfig
       (mkResolved model (Some (mkResolvedThinking None (Some b))) true) request)
  = let gc := match generationConfig request with
              | Some g => g
              | None => emptyGenerationConfig
              end in
    Some (mkGenConfig (temperature gc) (topP gc) (topK gc)
            (Some (Z.max (JS.or_zero (maxOutputTokens gc)) 65536))
            (Some (mkThinking None None None (Some true) (Some b)))).
Proof.
  intros Hb. unfold applyThinkingConfig. simpl.
  destruct (Z.eqb_spec b 0) as [-> | _]; [congruence |]. reflexivity.
Qed.

Lemma maxOutputTokens_convert (request : OpenAIChatRequest) :
  JS.or_zero
    (maxOutputTokens
       match generationConfig (convertOpenAIToAntigravity request) with
       | Some g => g
       | None => emptyGenerationConfig
       end)
  = JS.or_zero (req_max_tokens request).
Proof.
  simpl. unfold convert_generation.
  destruct (req_temperature request), (req_top_p request),
    (req_max_tokens request); reflexivity.
Qed.

(** Both entry points put the augmented request in the body they send. *)
Lemma sent_request (w : World) (tokens : option OAuth.AuthTokens) (token : string)
    (model : string) (request : AntigravityRequest) :
  returned (ensureValidToken w tokens) = inl token ->
  option_map body_request (g_body (generateContent w tokens model request))
  = Some (prepareRequest model request)
  /\ option_map body_request (s_body (streamGenerateContent w tokens model request))
     = Some (prepareRequest model request).
Proof.
  intros H.
  unfold generateContent, generateContentOn, streamGenerateContent,
    streamGenerateContentOn.
  rewrite H.
  destruct (generate_loop w ANTIGRAVITY_ENDPOINTS ANTIGRAVITY_ENDPOINTS).
  destruct (stream_loop w ANTIGRAVITY_ENDPOINTS ANTIGRAVITY_ENDPOINTS None).
  split; reflexivity.
Qed.

End Thinking.

(** Claim C5.  For every request naming a budget-mode model of the registry,
    the request put in the backend call, by [generateContent] and by
    [streamGenerateContent] alike, has [maxOutputTokens] equal to the
    larger of the caller's [max_tokens] (0 when absent) and 65536: it is at
    least 65536, a caller's value below 65536 is raised to 65536, a caller's
    value of 65536 or more is kept; and the thinking config carries the
    include-thoughts flag and the model's budget. *)
Theorem budget_mode_raises_max_tokens :
  forall (request : Converter.OpenAIChatRequest)
         (info : Constants.ModelInfo) (b : Z),
    Constants.registry_get Constants.AVAILABLE_MODELS (Converter.req_model request)
    = Some info ->
    Constants.thinkingBudget info = Some b ->
    let sent := Client.prepareRequest (Converter.req_model request)
                  (Converter.convertOpenAIToAntigravity request) in
    (forall w tokens token,
        Client.returned (Client.ensureValidToken w tokens) = inl token ->
        option_map Client.body_request
          (Client.g_body
             (Client.generateContent w tokens (Converter.req_model request)
                (Converter.convertOpenAIToAntigravity request))) = Some sent
        /\ option_map Client.body_request
             (Client.s_body
                (Client.streamGenerateContent w tokens (Converter.req_model request)
                   (Converter.convertOpenAIToAntigravity request))) = Some sent)
    /\ exists gc m,
      Converter.generationConfig sent = Some gc
      /\ Converter.maxOutputTokens gc = Some m
      /\ m = Z.max (match Converter.req_max_tokens request with
                    | Some n => n
                    | None => 0%Z
                    end) 65536
      /\ (65536 <= m)%Z
      /\ (forall n, Converter.req_max_tokens request = Some n ->
                    (n < 65536)%Z -> m = 65536%Z)
      /\ (forall n, Converter.req_max_tokens request = Some n ->
                    (65536 <= n)%Z -> m = n)
      /\ Converter.thinkingConfig gc
         = Some (Converter.mkThinking None None None (Some true) (Some b)).
Proof.
  intros request info b H B sent.
  destruct (resolveModel_budget _ _ _ H B) as [R Hb].
  split; [intros w tokens token Htok; now apply sent_request with (token := token) |].
  subst sent. unfold Client.prepareRequest.
  rewrite generationConfig_applyToolMode, R, applyThinkingConfig_budget by exact Hb.
  cbv zeta. rewrite maxOutputTokens_convert.
  eexists. eexists. split; [reflexivity |]. split; [reflexivity |].
  unfold JS.or_zero.
  split; [reflexivity |]. split; [lia |].
  split; [intros n ->; lia |].
  split; [intros n ->; lia | reflexivity].
Qed.

(** Witness for C5: [claude-sonnet-4-5-thinking-low] (budget 8192) with a
    caller-supplied [max_tokens] of 100. *)
Lemma budget_mode_raises_max_tokens_witness :
  exists gc m,
    Converter.generationConfig
      (Client.prepareRequest "claude-sonnet-4-5-thinking-low"
         (Converter.convertOpenAIToAntigravity
            (Examples.chat_request "claude-sonnet-4-5-thinking-low"
               [Examples.user_message "Hi"] (Some 100%Z)))) = Some gc
    /\ Converter.maxOutputTokens gc = Some m
    /\ m = Z.max 100 65536
    /\ (65536 <= m)%Z
    /\ (forall n, Some 100%Z = Some n -> (n < 65536)%Z -> m = 65536%Z)
    /\ (forall n, Some 100%Z = Some n -> (65536 <= n)%Z -> m = n)
    /\ Converter.thinkingConfig gc
       = Some (Converter.mkThinking None None None (Some true) (Some 8192%Z)).
Proof.
  refine (proj2 (budget_mode_raises_max_tokens
           (Examples.chat_request "claude-sonnet-4-5-thinking-low"
              [Examples.user_message "Hi"] (Some 100%Z))
           (Constants.mkModel "claude-sonnet-4-5-thinking-low" "anthropic" 200000
              None (Some 8192%Z))
           8192%Z _ _)); reflexivity.
Defined.

(* ================================================================== *)
(** ** Stream translator *)
(* ================================================================== *)

Section StreamTranslator.
Import Json Client.

Lemma append_assoc (a b c : string) : ((a ++ b) ++ c = a ++ (b ++ c))%string.
Proof.
  induction a as [| x a IH]; simpl; [reflexivity | now rewrite IH].
Qed.

Lemma split_nl_nonempty (s : string) : JS.split_nl s <> [].
Proof.
  destruct s as [| c r]; simpl; [discriminate |].
  destruct (Ascii.eqb c JS.newline); [discriminate |].
  destruct (JS.split_nl r); discriminate.
Qed.

Lemma last_app_nonempty {A} (xs ys : list A) (d : A) :
  ys <> [] -> last (xs ++ ys) d = last ys d.
Proof.
  intros H. induction xs as [| x xs IH]; simpl; [reflexivity |].
  destruct (xs ++ ys)%list eqn:E; [| exact IH].
  apply app_eq_nil in E. destruct E; contradiction.
Qed.

(** Splitting a concatenation: the complete lines of the first string stay,
    and its last fragment is split together with the second string. *)
Lemma split_nl_app (a b : string) :
  JS.split_nl (a ++ b)
  = (removelast (JS.split_nl a)
     ++ JS.split_nl (last (JS.split_nl a) EmptyString ++ b))%list.
Proof.
  induction a as [| c r IH]; [reflexivity |].
  cbn [append JS.split_nl].
  pose proof (split_nl_nonempty r) as NE.
  destruct (Ascii.eqb c JS.newline) eqn:E.
  - rewrite IH. destruct (JS.split_nl r) as [| x l]; [contradiction |].
    reflexivity.
  - rewrite IH. destruct (JS.split_nl r) as [| x [| y l]]; [contradiction | |].
    + cbn [removelast last app append JS.split_nl]. rewrite E. reflexivity.
    + reflexivity.
Qed.

Lemma join_cons (sep x : string) (xs : list string) :
  xs <> [] -> JS.join sep (x :: xs) = (x ++ sep ++ JS.join sep xs)%string.
Proof. destruct xs; [contradiction | reflexivity]. Qed.

(** Splitting on newline loses nothing: joining the segments with a newline
    gives the string back. *)
Lemma join_split_nl (s : string) : JS.join JS.NL (JS.split_nl s) = s.
Proof.
  induction s as [| c r IH]; [reflexivity |].
  cbn [JS.split_nl].
  pose proof (split_nl_nonempty r) as NE.
  destruct (Ascii.eqb c JS.newline) eqn:E.
  - apply Ascii.eqb_eq in E. subst c.
    rewrite join_cons by exact NE. rewrite IH. reflexivity.
  - destruct (JS.split_nl r) as [| x [| y l]]; [contradiction | |].
    + simpl in *. now rewrite IH.
    + rewrite join_cons in * by discriminate. rewrite <- IH. reflexivity.
Qed.

Lemma or_str_empty (s : string) : JS.or_str s EmptyString = s.
Proof. destruct s; reflexivity. Qed.

(** What one read leaves in the buffer is the last segment of the split. *)
Lemma feed_eq (buffer value : string) :
  feed buffer value
  = (flat_map process_line (removelast (JS.split_nl (buffer ++ value))),
     last (JS.split_nl (buffer ++ value)) EmptyString).
Proof. unfold feed. now rewrite or_str_empty. Qed.

(** Feeding two reads one after the other yields the chunks, and leaves the
    buffer, of feeding their concatenation at once. *)
Lemma feed_app (buffer r1 r2 : string) :
  feed buffer (r1 ++ r2)
  = ((fst (feed buffer r1) ++ fst (feed (snd (feed buffer r1)) r2))%list,
     snd (feed (snd (feed buffer r1)) r2)).
Proof.
  rewrite !feed_eq. cbn [fst snd].
  rewrite <- append_assoc, split_nl_app.
  pose proof (split_nl_nonempty
                (last (JS.split_nl (buffer ++ r1)) EmptyString ++ r2)) as NE.
  rewrite removelast_app by exact NE.
  rewrite flat_map_app, last_app_nonempty by exact NE.
  reflexivity.
Qed.

(** A read without a newline completes no line: it is only appended to the
    buffer. *)
Lemma split_nl_no_newline (s : string) :
  (forall c, In c (list_ascii_of_string s) -> c <> JS.newline) ->
  JS.split_nl s = [s].
Proof.
  induction s as [| c r IH]; intros H; [reflexivity |].
  cbn [JS.split_nl].
  destruct (Ascii.eqb c JS.newline) eqn:E.
  - apply Ascii.eqb_eq in E. exfalso. apply (H c); [left; reflexivity | exact E].
  - rewrite IH; [reflexivity |]. intros d Hd. apply H. right. exact Hd.
Qed.

Lemma part_chunks_no_usage (p : json) (cs : list StreamChunk) :
  part_chunks p = Some cs ->
  Forall (fun c => chunk_usage c = None
                   /\ (chunk_type c = type_content \/ chunk_type c = type_thinking)) cs.
Proof.
  unfold part_chunks. intros H.
  destruct p; try discriminate;
    repeat match type of H with
           | context [if ?b then _ else _] => destruct b
           | context [match ?x with _ => _ end] => destruct x
           end;
    injection H as <-;
    repeat (apply Forall_cons || apply Forall_nil); simpl; auto.
Qed.

Lemma parts_chunks_no_usage (ps : list json) :
  Forall (fun c => chunk_usage c = None
                   /\ (chunk_type c = type_content \/ chunk_type c = type_thinking))
    (fst (parts_chunks ps)).
Proof.
  induction ps as [| p ps IH]; simpl; [constructor |].
  destruct (part_chunks p) as [cs |] eqn:E; [| constructor].
  destruct (parts_chunks ps) as [cs' fin]. simpl in *.
  apply Forall_app. split; [eapply part_chunks_no_usage; eassumption | exact IH].
Qed.

(** The loop over the parts runs to its end when no part is [null]. *)
Lemma parts_chunks_complete (ps : list json) :
  Forall (fun p => p <> JNull) ps -> snd (parts_chunks ps) = true.
Proof.
  induction 1 as [| p ps Hp _ IH]; simpl; [reflexivity |].
  destruct (part_chunks p) as [cs |] eqn:E.
  - destruct (parts_chunks ps). exact IH.
  - destruct p; try discriminate E; try contradiction;
      unfold part_chunks in E;
      repeat match type of E with
             | context [if ?b then _ else _] => destruct b
             | context [match ?x with _ => _ end] => destruct x
             end; discriminate E.
Qed.

End StreamTranslator.

(** Claim C6.  The two reads of the split record yield exactly one content
    chunk with text [hi]: the first read completes no line and is kept in
    the buffer, the second completes the record and leaves the buffer empty.
    In general, feeding two reads one after the other yields the chunks of
    feeding their concatenation, and the segments of a split joined by
    newlines give the buffer back: the carry-over loses nothing. *)
Theorem split_record_is_reassembled :
  (Examples.read1 ++ Examples.read2
   = "data: " ++ Examples.text_record "hi" ++ JS.NL ++ JS.NL)%string
  /\ Client.feed EmptyString Examples.read1 = ([], Examples.read1)
  /\ Client.feed Examples.read1 Examples.read2
     = ([Client.content_chunk (Json.JStr "hi")], EmptyString)
  /\ Client.read_loop EmptyString [Examples.read1; Examples.read2] None
     = ([Client.content_chunk (Json.JStr "hi"); Client.done_chunk], None)
  /\ (forall buffer r1 r2 : string,
         Client.feed buffer (r1 ++ r2)
         = ((fst (Client.feed buffer r1)
             ++ fst (Client.feed (snd (Client.feed buffer r1)) r2))%list,
            snd (Client.feed (snd (Client.feed buffer r1)) r2)))
  /\ (forall buffer value : string,
         (JS.join JS.NL (removelast (JS.split_nl (buffer ++ value)) ++
                           [snd (Client.feed buffer value)])
          = buffer ++ value)%string).
Proof.
  split; [reflexivity |].
  split; [vm_compute; reflexivity |].
  split; [vm_compute; reflexivity |].
  split; [vm_compute; reflexivity |].
  split; [exact feed_app |].
  intros buffer value. rewrite feed_eq. cbn [snd].
  rewrite <- app_removelast_last by apply split_nl_nonempty.
  apply join_split_nl.
Qed.

(** Claim C4, as the code has it.  For every parsed record whose first
    candidate has a list of parts, none of them [null], and whose response
    carries a usage block, the translator yields the chunks of the parts
    (none of which carries usage) and then one chunk that carries the
    prompt, completion and total token counts; that chunk is tagged
    [content], the tag having no usage variant, and has no content text. *)
Theorem usage_block_yields_content_tagged_chunk :
  forall (data : Json.json) (ps : list Json.json)
         (um : list (string * Json.json)),
    data <> Json.JNull ->
    Json.get_opt
      (Json.get_opt
         (Json.index0_opt (Json.get_opt (Json.get data "response") "candidates"))
         "content") "parts" = Some (Json.JArr ps) ->
    Forall (fun p => p <> Json.JNull) ps ->
    Json.get_opt (Json.get data "response") "usageMetadata" = Some (Json.JObj um) ->
    Client.translate_record data
    = (fst (Client.parts_chunks ps)
       ++ [Client.mkChunk Client.type_content None None None
             (Some (Client.mkChunkUsage
                      (Json.lookup "promptTokenCount" um)
                      (Json.lookup "candidatesTokenCount" um)
                      (Json.lookup "totalTokenCount" um)))])%list
    /\ Forall (fun c => Client.chunk_usage c = None
                        /\ (Client.chunk_type c = Client.type_content
                            \/ Client.chunk_type c = Client.type_thinking))
         (fst (Client.parts_chunks ps)).
Proof.
  intros data ps um Hd Hp Hnn Hu.
  split; [| apply parts_chunks_no_usage].
  pose proof (parts_chunks_complete ps Hnn) as C.
  unfold Client.translate_record.
  destruct data; try contradiction; rewrite Hp;
    destruct (Client.parts_chunks ps) as [cs fin]; simpl in C; subst fin;
    unfold Client.usage_chunks; rewrite Hu; reflexivity.
Qed.

(** Witness for C4: the record with an empty parts list and a usage block. *)
Lemma usage_block_witness :
  Client.translate_record Examples.usage_data
  = [Client.mkChunk Client.type_content None None None
       (Some (Client.mkChunkUsage (Some (Json.JNum 7 0)) (Some (Json.JNum 5 0))
                (Some (Json.JNum 12 0))))].
Proof.
  apply (usage_block_yields_content_tagged_chunk Examples.usage_data []
           [("promptTokenCount", Json.JNum 7 0);
            ("candidatesTokenCount", Json.JNum 5 0);
            ("totalTokenCount", Json.JNum 12 0)]).
  - discriminate.
  - reflexivity.
  - constructor.
  - reflexivity.
Defined.

(** Counterexample to C4 as stated: the line of a record with a usage block
    yields one chunk, which carries the counts and whose tag is [content],
    not a variant distinct from [content]. *)
Lemma usage_chunk_is_tagged_content :
  Json.JSON_parse Examples.usage_record = Some Examples.usage_data
  /\ Client.process_line ("data: " ++ Examples.usage_record)
     = [Client.mkChunk Client.type_content None None None
          (Some (Client.mkChunkUsage (Some (Json.JNum 7 0)) (Some (Json.JNum 5 0))
                   (Some (Json.JNum 12 0))))]
  /\ Forall (fun c => Client.chunk_type c = Client.type_content)
       (Client.process_line ("data: " ++ Examples.usage_record)).
Proof.
  vm_compute. repeat split. repeat constructor.
Qed.

(* ================================================================== *)
(** ** Endpoint dispatcher *)
(* ================================================================== *)

Section Dispatcher.
Import Json Client.

Variable w : World.
Variable endpoints : list string.

(** One iteration of the streaming loop, then the rest of the loop. *)
Lemma stream_loop_step (e : string) (rest : list string) (le : option string) :
  stream_loop w endpoints (e :: rest) le
  = match stream_attempt w endpoints e le with
    | StepReturn cs => ([stream_url e], cs)
    | StepContinue le' pre =>
        (stream_url e :: fst (stream_loop w endpoints rest le'),
         (pre ++ snd (stream_loop w endpoints rest le'))%list)
    end.
Proof.
  cbn [stream_loop]. unfold stream_attempt.
  destruct (fetch w (stream_url e)) as [m | r].
  - destruct (String.eqb e (last_endpoint endpoints)); [reflexivity |].
    destruct (stream_loop w endpoints rest (Some m)); reflexivity.
  - destruct (negb (ok r)).
    + destruct (retryable (status r)).
      * destruct (stream_loop w endpoints rest le); reflexivity.
      * destruct (String.eqb e (last_endpoint endpoints)); [reflexivity |].
        destruct (stream_loop w endpoints rest _); reflexivity.
    + destruct (body_stream r) as [st |].
      * destruct (read_loop EmptyString (reads st) (fault st)) as [cs [m |]];
          [| reflexivity].
        destruct (String.eqb e (last_endpoint endpoints)); [reflexivity |].
        destruct (stream_loop w endpoints rest (Some m)); reflexivity.
      * destruct (String.eqb e (last_endpoint endpoints)); [reflexivity |].
        destruct (stream_loop w endpoints rest _); reflexivity.
Qed.

(** The chunks of a record are never terminal. *)
Lemma translate_record_not_terminal (data : json) :
  Forall (fun c => is_terminal c = false) (translate_record data).
Proof.
  assert (U : forall r, Forall (fun c => is_terminal c = false) (usage_chunks r)).
  { intros r. unfold usage_chunks.
    destruct (get_opt r "usageMetadata") as [um |]; [| constructor].
    destruct (truthy um); repeat constructor. }
  assert (P : forall ps, Forall (fun c => is_terminal c = false) (fst (parts_chunks ps))).
  { intros ps. eapply Forall_impl; [| apply parts_chunks_no_usage].
    intros c [_ [T | T]]; unfold is_terminal; rewrite T; reflexivity. }
  unfold translate_record.
  destruct data; try constructor;
    match goal with
    | |- context [match ?x with _ => _ end] => destruct x as [[| | | [|] | ps |] |]
    end; try constructor; try apply U;
    specialize (P ps); destruct (parts_chunks ps) as [cs fin]; simpl in P;
    destruct fin; [apply Forall_app; split; [exact P | apply U] | exact P].
Qed.

Lemma process_line_not_terminal (line : string) :
  Forall (fun c => is_terminal c = false) (process_line line).
Proof.
  unfold process_line.
  destruct (negb (JS.startsWith line "data:")); [constructor |].
  destruct (negb (JS.truthy_str _)); [constructor |].
  destruct (JSON_parse _); [apply translate_record_not_terminal | constructor].
Qed.

Lemma feed_not_terminal (buffer value : string) :
  Forall (fun c => is_terminal c = false) (fst (feed buffer value)).
Proof.
  unfold feed. cbn [fst]. apply Forall_flat_map.
  apply Forall_forall. intros l _. apply process_line_not_terminal.
Qed.

(** The reads of one response yield non-terminal chunks, followed by [done]
    exactly when the stream ends without a fault. *)
Lemma read_loop_shape (rs : list string) (flt : option string) :
  forall buffer,
    exists body,
      Forall (fun c => is_terminal c = false) body
      /\ read_loop buffer rs flt
         = match flt with
           | None => ((body ++ [done_chunk])%list, None)
           | Some m => (body, Some m)
           end.
Proof.
  induction rs as [| value more IH]; intros buffer.
  - exists []. split; [constructor |]. destruct flt; reflexivity.
  - cbn [read_loop].
    pose proof (feed_not_terminal buffer value) as F.
    destruct (feed buffer value) as [cs buffer']. cbn [fst] in F.
    destruct (IH buffer') as [body [B E]]. rewrite E.
    exists (cs ++ body)%list. split; [apply Forall_app; auto |].
    destruct flt; [reflexivity | now rewrite app_assoc].
Qed.

(** An iteration that returns ends with a terminal chunk, and yields none
    before it; an iteration that continues yields no terminal chunk. *)
Lemma stream_attempt_shape (e : string) (le : option string) :
  match stream_attempt w endpoints e le with
  | StepReturn cs =>
      exists body t,
        cs = (body ++ [t])%list
        /\ Forall (fun c => is_terminal c = false) body
        /\ is_terminal t = true
  | StepContinue _ pre => Forall (fun c => is_terminal c = false) pre
  end.
Proof.
  assert (C : forall m pre,
             Forall (fun c => is_terminal c = false) pre ->
             match (if String.eqb e (last_endpoint endpoints)
                    then StepReturn (pre ++ [error_chunk m])%list
                    else StepContinue (Some m) pre) with
             | StepReturn cs =>
                 exists body t,
                   cs = (body ++ [t])%list
                   /\ Forall (fun c => is_terminal c = false) body
                   /\ is_terminal t = true
             | StepContinue _ pre' => Forall (fun c => is_terminal c = false) pre'
             end).
  { intros m pre F. destruct (String.eqb e (last_endpoint endpoints)); [| exact F].
    exists pre, (error_chunk m). auto. }
  unfold stream_attempt.
  destruct (fetch w (stream_url e)) as [m | r]; [apply C; constructor |].
  destruct (negb (ok r)).
  - destruct (retryable (status r)); [constructor | apply C; constructor].
  - destruct (body_stream r) as [st |]; [| apply C; constructor].
    destruct (read_loop_shape (reads st) (fault st) EmptyString) as [body [B E]].
    rewrite E. destruct (fault st) as [m |]; [apply C; exact B |].
    exists body, done_chunk. auto.
Qed.

(** Whatever the endpoints answer, the stream ends with exactly one terminal
    chunk, and no chunk follows it. *)
Lemma stream_loop_terminal (remaining : list string) :
  forall le,
    exists body t,
      snd (stream_loop w endpoints remaining le) = (body ++ [t])%list
      /\ Forall (fun c => is_terminal c = false) body
      /\ is_terminal t = true.
Proof.
  induction remaining as [| e rest IH]; intros le.
  - exists [], (error_chunk (exhausted_message le)). simpl. auto.
  - rewrite stream_loop_step.
    pose proof (stream_attempt_shape e le) as S.
    destruct (stream_attempt w endpoints e le) as [cs | le' pre].
    + exact S.
    + destruct (IH le') as [body [t [E [B T]]]]. cbn [snd]. rewrite E.
      exists (pre ++ body)%list, t. rewrite app_assoc.
      split; [reflexivity |]. split; [apply Forall_app; auto | exact T].
Qed.

(** An endpoint that answers 2xx with a body ends the loop when its stream
    ends without a fault, or when it is the last endpoint of the list. *)
Lemma stream_attempt_2xx (e : string) (le : option string)
    (r : HttpResponse) (st : Stream) :
  fetch w (stream_url e) = FetchReturns r ->
  ok r = true ->
  body_stream r = Some st ->
  fault st = None \/ String.eqb e (last_endpoint endpoints) = true ->
  exists body,
    Forall (fun c => is_terminal c = false) body
    /\ stream_attempt w endpoints e le
       = StepReturn (body ++ [match fault st with
                               | None => done_chunk
                               | Some m => error_chunk m
                               end])%list.
Proof.
  intros F O B H. unfold stream_attempt. rewrite F, O, B. cbn [negb].
  destruct (read_loop_shape (reads st) (fault st) EmptyString) as [body [N E]].
  rewrite E. exists body. split; [exact N |].
  destruct (fault st) as [m |]; [| reflexivity].
  destruct H as [H | H]; [discriminate | now rewrite H].
Qed.

(** Running the loop over [pre ++ rem]: either it stops within [pre], or it
    calls all of [pre] and then runs over [rem]. *)
Lemma stream_loop_prefix (pre rem : list string) :
  forall le,
    (exists tail,
        (fst (stream_loop w endpoints (pre ++ rem) le) ++ tail)%list
        = map stream_url pre)
    \/ (exists le' cs,
           Forall (fun c => is_terminal c = false) cs
           /\ stream_loop w endpoints (pre ++ rem) le
              = ((map stream_url pre ++ fst (stream_loop w endpoints rem le'))%list,
                 (cs ++ snd (stream_loop w endpoints rem le'))%list)).
Proof.
  induction pre as [| p pre IH]; intros le.
  - right. exists le, []. split; [constructor |]. simpl.
    destruct (stream_loop w endpoints rem le); reflexivity.
  - cbn [app]. rewrite stream_loop_step.
    pose proof (stream_attempt_shape p le) as S.
    destruct (stream_attempt w endpoints p le) as [cs | le1 cs1].
    + left. exists (map stream_url pre). reflexivity.
    + destruct (IH le1) as [[tail T] | [le' [cs [N E]]]].
      * left. exists tail. cbn [fst map app]. now rewrite T.
      * right. exists le', (cs1 ++ cs)%list.
        split; [apply Forall_app; auto |].
        rewrite E. cbn [fst snd map app]. now rewrite app_assoc.
Qed.

End Dispatcher.

Section Failover.
Import Json Client Reference.

Variable w : World.
Variable endpoints : list string.

(** Endpoints that answer 403, 404 or 5xx are passed over one by one. *)
Lemma generate_loop_skips (pre remaining : list string) :
  Forall (fun p => answers_retryable (fetch w) (generate_url p)) pre ->
  generate_loop w endpoints (pre ++ remaining)
  = ((map generate_url pre ++ fst (generate_loop w endpoints remaining))%list,
     snd (generate_loop w endpoints remaining)).
Proof.
  induction 1 as [| p pre [r [F [O R]]] _ IH]; cbn [app map].
  - destruct (generate_loop w endpoints remaining); reflexivity.
  - cbn [generate_loop]. rewrite F, O, R, IH. reflexivity.
Qed.

Lemma stream_loop_skips (pre remaining : list string) (le : option string) :
  Forall (fun p => answers_retryable (fetch w) (stream_url p)) pre ->
  stream_loop w endpoints (pre ++ remaining) le
  = ((map stream_url pre ++ fst (stream_loop w endpoints remaining le))%list,
     snd (stream_loop w endpoints remaining le)).
Proof.
  induction 1 as [| p pre [r [F [O R]]] _ IH]; cbn [app map].
  - destruct (stream_loop w endpoints remaining le); reflexivity.
  - cbn [stream_loop]. rewrite F, O, R, IH. reflexivity.
Qed.

End Failover.

(** Claim C2, as the code behaves (a defect).  The read loop of a stream
    sits inside the [try] block of the endpoint loop, and the [catch]
    clause surfaces an error only on the last endpoint of the list.  So
    when an endpoint that is not the last answers 2xx and its stream then
    faults, the chunks already read from it have been yielded, none of
    them terminal, no [error] chunk is yielded for the fault, and the next
    endpoint is contacted: the calls and the chunks go on with those of
    the loop over the remaining endpoints.  In particular, when that next
    endpoint answers 2xx with a stream that ends without a fault, its
    chunks follow those of the broken stream and the whole ends with
    [done]: the fault is never surfaced. *)
Theorem midstream_fault_contacts_next_endpoint :
  forall (w : Client.World) (tokens : option OAuth.AuthTokens)
         (model : string) (request : Converter.AntigravityRequest)
         (pre : list string) (e next : string) (rest : list string)
         (r : Client.HttpResponse) (st : Client.Stream) (m token : string),
    Client.returned (Client.ensureValidToken w tokens) = inl token ->
    Forall (fun p => Reference.answers_retryable (Client.fetch w)
                       (Client.stream_url p)) pre ->
    Client.fetch w (Client.stream_url e) = Client.FetchReturns r ->
    Client.ok r = true ->
    Client.body_stream r = Some st ->
    Client.fault st = Some m ->
    String.eqb e (Client.last_endpoint (pre ++ e :: next :: rest)) = false ->
    let endpoints := (pre ++ e :: next :: rest)%list in
    let out := Client.streamGenerateContentOn endpoints w tokens model request in
    let began := fst (Client.read_loop EmptyString (Client.reads st) (Some m)) in
    let later := Client.stream_loop w endpoints (next :: rest) (Some m) in
    Client.s_calls out = (map Client.stream_url (pre ++ [e]) ++ fst later)%list
    /\ (exists more, fst later = Client.stream_url next :: more)
    /\ Client.s_chunks out = (began ++ snd later)%list
    /\ Forall (fun c => Client.is_terminal c = false) began
    /\ (forall (r2 : Client.HttpResponse) (st2 : Client.Stream),
           Client.fetch w (Client.stream_url next) = Client.FetchReturns r2 ->
           Client.ok r2 = true ->
           Client.body_stream r2 = Some st2 ->
           Client.fault st2 = None ->
           Client.s_calls out = map Client.stream_url (pre ++ [e; next])
           /\ exists body,
               Client.s_chunks out = (began ++ body ++ [Client.done_chunk])%list
               /\ Forall (fun c => Client.is_terminal c = false) (began ++ body)).
Proof.
  intros w tokens model request pre e next rest r st m token
         Htok Pre F O B Flt NotLast endpoints out began later.
  assert (At : Client.stream_loop w endpoints (e :: next :: rest) None
               = (Client.stream_url e :: fst later, (began ++ snd later)%list)).
  { rewrite stream_loop_step. unfold Client.stream_attempt.
    rewrite F, O, B. cbn [negb]. fold endpoints in NotLast. rewrite NotLast.
    destruct (read_loop_shape (Client.reads st) (Client.fault st) EmptyString)
      as [body [_ R]].
    rewrite Flt in R. subst began. rewrite Flt, R. reflexivity. }
  assert (Began : Forall (fun c => Client.is_terminal c = false) began).
  { destruct (read_loop_shape (Client.reads st) (Some m) EmptyString)
      as [body [N R]].
    subst began. rewrite R. exact N. }
  assert (Calls : Client.s_calls out
                  = (map Client.stream_url (pre ++ [e]) ++ fst later)%list
                  /\ Client.s_chunks out = (began ++ snd later)%list).
  { subst out. unfold Client.streamGenerateContentOn. rewrite Htok.
    change (Client.stream_loop w endpoints endpoints None)
      with (Client.stream_loop w endpoints (pre ++ e :: next :: rest) None).
    rewrite (stream_loop_skips w endpoints pre (e :: next :: rest) None Pre).
    rewrite At. cbn [fst snd Client.s_calls Client.s_chunks].
    rewrite map_app, <- app_assoc. split; reflexivity. }
  destruct Calls as [Calls Chunks].
  split; [exact Calls |].
  split.
  { subst later. rewrite stream_loop_step.
    destruct (Client.stream_attempt w endpoints next (Some m));
      cbn [fst]; eexists; reflexivity. }
  split; [exact Chunks |]. split; [exact Began |].
  intros r2 st2 F2 O2 B2 Flt2.
  assert (L : later = ([Client.stream_url next],
                       fst (Client.read_loop EmptyString (Client.reads st2) None))).
  { subst later. rewrite stream_loop_step. unfold Client.stream_attempt.
    rewrite F2, O2, B2, Flt2. cbn [negb].
    destruct (read_loop_shape (Client.reads st2) None EmptyString) as [body [_ R]].
    rewrite R. reflexivity. }
  rewrite Calls, Chunks, L. cbn [fst snd].
  split.
  { rewrite !map_app. cbn [map]. rewrite <- app_assoc. reflexivity. }
  destruct (read_loop_shape (Client.reads st2) None EmptyString) as [body [N R]].
  exists body. rewrite R. cbn [fst]. split; [reflexivity |].
  apply Forall_app. split; assumption.
Qed.

(** Witness for C2: the first endpoint answers 200, yields one content
    chunk and then breaks; the second endpoint is contacted, its chunk
    follows and the stream ends with [done]. *)
Lemma midstream_fault_witness :
  Client.s_calls
    (Client.streamGenerateContent
       (Examples.with_fetch Examples.fetch_broken_stream)
       (Some Examples.fresh_tokens) "gemini-3-flash" Examples.empty_request)
  = [Client.stream_url Constants.ANTIGRAVITY_ENDPOINT_DAILY;
     Client.stream_url Constants.ANTIGRAVITY_ENDPOINT_AUTOPUSH]
  /\ exists body,
      Client.s_chunks
        (Client.streamGenerateContent
           (Examples.with_fetch Examples.fetch_broken_stream)
           (Some Examples.fresh_tokens) "gemini-3-flash" Examples.empty_request)
      = ([Client.content_chunk (Json.JStr "hi")] ++ body ++ [Client.done_chunk])%list
      /\ Forall (fun c => Client.is_terminal c = false)
           ([Client.content_chunk (Json.JStr "hi")] ++ body).
Proof.
  refine (proj2 (proj2 (proj2 (proj2
    (midstream_fault_contacts_next_endpoint
       (Examples.with_fetch Examples.fetch_broken_stream)
       (Some Examples.fresh_tokens) "gemini-3-flash" Examples.empty_request
       [] Constants.ANTIGRAVITY_ENDPOINT_DAILY
       Constants.ANTIGRAVITY_ENDPOINT_AUTOPUSH
       [Constants.ANTIGRAVITY_ENDPOINT_PROD]
       (Client.mkResponse 200 EmptyString
          (Some (Client.mkStream [Examples.text_line "hi"] (Some "socket closed"))))
       (Client.mkStream [Examples.text_line "hi"] (Some "socket closed"))
       "socket closed" "access-0" _ _ _ _ _ _ _))))
    _ _ _ _ _ _);
    try reflexivity.
  constructor.
Defined.

(** Where the streaming loop does stop.  In a streaming request, once an
    endpoint has answered 2xx with a body, no later endpoint is contacted
    when its stream ends without a fault, or when that endpoint is the last
    of the list: the calls made are an initial segment of the list up to that
    endpoint.  When the loop gets to that endpoint, the stream ends with
    [done] after a fault-free stream, and a fault on the last endpoint is
    surfaced as one [error] chunk carrying the fault message.  In every
    case the chunks end with exactly one terminal chunk. *)
Theorem stream_stops_after_2xx :
  forall (w : Client.World) (tokens : option OAuth.AuthTokens)
         (model : string) (request : Converter.AntigravityRequest)
         (pre : list string) (e : string) (rest : list string)
         (r : Client.HttpResponse) (st : Client.Stream) (token : string),
    Client.returned (Client.ensureValidToken w tokens) = inl token ->
    Client.fetch w (Client.stream_url e) = Client.FetchReturns r ->
    Client.ok r = true ->
    Client.body_stream r = Some st ->
    Client.fault st = None
    \/ String.eqb e (Client.last_endpoint (pre ++ e :: rest)) = true ->
    let out := Client.streamGenerateContentOn (pre ++ e :: rest) w tokens
                 model request in
    (exists tail,
        (Client.s_calls out ++ tail)%list = map Client.stream_url (pre ++ [e]))
    /\ (exists body t,
           Client.s_chunks out = (body ++ [t])%list
           /\ Forall (fun c => Client.is_terminal c = false) body
           /\ Client.is_terminal t = true)
    /\ (Client.s_calls out = map Client.stream_url (pre ++ [e]) ->
        exists body,
          Forall (fun c => Client.is_terminal c = false) body
          /\ Client.s_chunks out
             = (body ++ [match Client.fault st with
                         | None => Client.done_chunk
                         | Some m => Client.error_chunk m
                         end])%list).
Proof.
  intros w tokens model request pre e rest r st token Htok F O B H out.
  subst out. unfold Client.streamGenerateContentOn. rewrite Htok.
  set (endpoints := (pre ++ e :: rest)%list) in *.
  destruct (Client.stream_loop w endpoints endpoints None) as [calls chunks] eqn:L.
  cbn [Client.s_calls Client.s_chunks].
  assert (At : forall le, exists body,
               Forall (fun c => Client.is_terminal c = false) body
               /\ Client.stream_loop w endpoints (e :: rest) le
                  = ([Client.stream_url e],
                     (body ++ [match Client.fault st with
                               | None => Client.done_chunk
                               | Some m => Client.error_chunk m
                               end])%list)).
  { intros le.
    destruct (stream_attempt_2xx w endpoints e le r st F O B H) as [body [N E]].
    exists body. split; [exact N |]. now rewrite stream_loop_step, E. }
  pose proof (stream_loop_terminal w endpoints endpoints None) as T.
  rewrite L in T. cbn [snd] in T.
  pose proof (stream_loop_prefix w endpoints pre (e :: rest) None) as P.
  fold endpoints in P. rewrite L in P. cbn [fst] in P.
  split; [| split; [exact T |]].
  - destruct P as [[tail P] | [le' [cs [N P]]]].
    + exists (tail ++ [Client.stream_url e])%list.
      rewrite map_app, app_assoc, P. reflexivity.
    + destruct (At le') as [body [_ E]]. rewrite E in P.
      injection P as -> _. exists []. now rewrite app_nil_r, map_app.
  - intros C. destruct P as [[tail P] | [le' [cs [N P]]]].
    + exfalso. apply (f_equal (@List.length string)) in P.
      rewrite C, length_app, !length_map, length_app in P. simpl in P. lia.
    + destruct (At le') as [body [Nb E]]. rewrite E in P.
      injection P as _ ->. exists (cs ++ body)%list.
      split; [apply Forall_app; auto | now rewrite app_assoc].
Qed.

(** An instance: the first two endpoints answer 503 and the last answers
    200 with a stream that breaks after one record; all three are called
    and the stream is one content chunk followed by one [error] chunk. *)
Lemma stream_stops_after_2xx_witness :
  exists body,
    Forall (fun c => Client.is_terminal c = false) body
    /\ Client.s_chunks
         (Client.streamGenerateContent
            (Examples.with_fetch Examples.fetch_503_then_broken)
            (Some Examples.fresh_tokens) "gemini-3-flash" Examples.empty_request)
       = (body ++ [Client.error_chunk "socket closed"])%list.
Proof.
  refine (proj2 (proj2
    (stream_stops_after_2xx
       (Examples.with_fetch Examples.fetch_503_then_broken)
       (Some Examples.fresh_tokens) "gemini-3-flash" Examples.empty_request
       [Constants.ANTIGRAVITY_ENDPOINT_DAILY; Constants.ANTIGRAVITY_ENDPOINT_AUTOPUSH]
       Constants.ANTIGRAVITY_ENDPOINT_PROD []
       (Client.mkResponse 200 EmptyString
          (Some (Client.mkStream [Examples.text_line "hi"] (Some "socket closed"))))
       (Client.mkStream [Examples.text_line "hi"] (Some "socket closed"))
       "access-0" _ _ _ _ _)) _);
    try reflexivity.
  right. reflexivity.
Defined.

(** The failing input of C2, evaluated: the first endpoint answers 200 and
    yields a content chunk, then its stream breaks; the second endpoint is
    contacted all the same, its chunks follow, and the stream ends with
    [done]: the fault is not surfaced as an error chunk. *)
Lemma midstream_fault_fails_over :
  Client.fetch (Examples.with_fetch Examples.fetch_broken_stream)
    (Client.stream_url Constants.ANTIGRAVITY_ENDPOINT_DAILY)
  = Client.FetchReturns
      (Client.mkResponse 200 EmptyString
         (Some (Client.mkStream [Examples.text_line "hi"] (Some "socket closed"))))
  /\ Client.s_calls
       (Client.streamGenerateContent
          (Examples.with_fetch Examples.fetch_broken_stream)
          (Some Examples.fresh_tokens) "gemini-3-flash" Examples.empty_request)
     = [Client.stream_url Constants.ANTIGRAVITY_ENDPOINT_DAILY;
        Client.stream_url Constants.ANTIGRAVITY_ENDPOINT_AUTOPUSH]
  /\ Client.s_chunks
       (Client.streamGenerateContent
          (Examples.with_fetch Examples.fetch_broken_stream)
          (Some Examples.fresh_tokens) "gemini-3-flash" Examples.empty_request)
     = [Client.content_chunk (Json.JStr "hi");
        Client.content_chunk (Json.JStr "yo");
        Client.done_chunk].
Proof.
  vm_compute. repeat split.
Qed.

(** What [generateContent] does when an endpoint answers with a status that
    is neither 2xx nor among those the loop retries: the error is thrown
    inside the [try] block, so the [catch] clause rethrows it only on the
    last endpoint and otherwise goes on to the next endpoint. *)
Lemma generate_loop_rejected :
  forall (w : Client.World) (endpoints : list string) (e : string)
         (rest : list string) (r : Client.HttpResponse),
    Client.fetch w (Client.generate_url e) = Client.FetchReturns r ->
    Client.ok r = false ->
    Client.retryable (Client.status r) = false ->
    Client.generate_loop w endpoints (e :: rest)
    = if String.eqb e (Client.last_endpoint endpoints)
      then ([Client.generate_url e],
            inr ("API error " ++ JS.Z_to_string (Client.status r) ++ ": "
                   ++ Client.body_text r))
      else (Client.generate_url e :: fst (Client.generate_loop w endpoints rest),
            snd (Client.generate_loop w endpoints rest)).
Proof.
  intros w endpoints e rest r F O R.
  cbn [Client.generate_loop]. rewrite F, O, R.
  destruct (String.eqb e (Client.last_endpoint endpoints)); [reflexivity |].
  destruct (Client.generate_loop w endpoints rest); reflexivity.
Qed.

(** Claim C1 at a failing input.  The first endpoint answers 401 (not 2xx,
    not 403, not 404, below 500) and the second answers 200: the dispatcher
    calls the second endpoint as well and returns its response, where the
    claim has exactly one call and a failure carrying status 401. *)
Theorem generateContent_401_fails_over :
  Client.fetch (Examples.with_fetch Examples.fetch_401_then_200)
    (Client.generate_url Constants.ANTIGRAVITY_ENDPOINT_DAILY)
  = Client.FetchReturns (Client.mkResponse 401 "denied" None)
  /\ Client.g_calls
       (Client.generateContent (Examples.with_fetch Examples.fetch_401_then_200)
          (Some Examples.fresh_tokens) "gemini-3-flash" Examples.empty_request)
     = [Client.generate_url Constants.ANTIGRAVITY_ENDPOINT_DAILY;
        Client.generate_url Constants.ANTIGRAVITY_ENDPOINT_AUTOPUSH]
  /\ Client.g_result
       (Client.generateContent (Examples.with_fetch Examples.fetch_401_then_200)
          (Some Examples.fresh_tokens) "gemini-3-flash" Examples.empty_request)
     = inl (Json.JObj [("served", Json.JBool true)]).
Proof.
  vm_compute. repeat split.
Qed.

(* ================================================================== *)
(** ** The JSON parser never runs out of budget *)
(* ================================================================== *)

Section JsonParser.
Import Json.

Lemma skip_ws_length (s : string) :
  (String.length (skip_ws s) <= String.length s)%nat.
Proof.
  induction s as [| c r IH]; simpl; [lia |].
  destruct (is_ws c); simpl; lia.
Qed.

Lemma skip_ws_cons (s : string) (c : ascii) (r : string) :
  skip_ws s = String c r -> (String.length r < String.length s)%nat.
Proof.
  intros H. pose proof (skip_ws_length s) as L. rewrite H in L. simpl in L. lia.
Qed.

Lemma prepend_rest (p : string) (o : option (string * string))
    (body rest : string) :
  prepend p o = Some (body, rest) -> exists body', o = Some (body', rest).
Proof.
  destruct o as [[b r] |]; simpl; [| discriminate].
  intros [= _ <-]. now exists b.
Qed.

Lemma parse_string_body_length (n : nat) :
  forall s body rest,
    (String.length s <= n)%nat ->
    parse_string_body s = Some (body, rest) ->
    (String.length rest < String.length s)%nat.
Proof.
  induction n as [| n IH]; intros s body rest L H;
    destruct s as [| c r]; try discriminate H; simpl in L; [lia |].
  cbn [parse_string_body] in H.
  destruct (is_code c 34).
  { injection H as _ <-. simpl. lia. }
  destruct (is_code c 92).
  - destruct r as [| e r']; [discriminate |].
    destruct (is_code e 117).
    + destruct r' as [| a [| b [| c' [| d r'']]]]; try discriminate.
      destruct (hex4 a b c' d); [| discriminate].
      apply prepend_rest in H. destruct H as [body' H].
      apply IH in H; simpl in *; lia.
    + destruct (simple_escape e); [| discriminate].
      apply prepend_rest in H. destruct H as [body' H].
      apply IH in H; simpl in *; lia.
  - destruct (Nat.ltb (nat_of_ascii c) 32); [discriminate |].
    apply prepend_rest in H. destruct H as [body' H].
    apply IH in H; simpl in *; lia.
Qed.

Lemma span_digits_length (s : string) :
  (String.length (fst (span_digits s)) + String.length (snd (span_digits s))
   = String.length s)%nat.
Proof.
  induction s as [| c r IH]; simpl; [reflexivity |].
  destruct (is_digit c); [| reflexivity].
  destruct (span_digits r); simpl in *. lia.
Qed.

Lemma take_minus_length (s : string) :
  (String.length (snd (take_minus s)) <= String.length s)%nat.
Proof.
  destruct s as [| c r]; simpl; [lia |]. destruct (is_code c 45); simpl; lia.
Qed.

Lemma take_sign_length (s : string) :
  (String.length (snd (take_sign s)) <= String.length s)%nat.
Proof.
  destruct s as [| c r]; simpl; [lia |].
  destruct (is_code c 45); [simpl; lia |].
  destruct (is_code c 43); simpl; lia.
Qed.

Lemma parse_frac_length (s fp rest : string) :
  parse_frac s = Some (fp, rest) -> (String.length rest <= String.length s)%nat.
Proof.
  destruct s as [| c r]; simpl.
  - intros [= _ <-]. simpl. lia.
  - destruct (is_code c 46).
    + pose proof (span_digits_length r) as L.
      destruct (span_digits r) as [ds r']. simpl in L.
      destruct ds; [discriminate |]. intros [= _ <-]. lia.
    + intros [= _ <-]. simpl. lia.
Qed.

Lemma parse_exp_length (s rest : string) (e : Z) :
  parse_exp s = Some (e, rest) -> (String.length rest <= String.length s)%nat.
Proof.
  destruct s as [| c r]; simpl.
  - intros [= _ <-]. simpl. lia.
  - destruct (is_code c 101 || is_code c 69).
    + pose proof (take_sign_length r) as L1.
      destruct (take_sign r) as [eneg r1]. simpl in L1.
      pose proof (span_digits_length r1) as L2.
      destruct (span_digits r1) as [ds r']. simpl in L2.
      destruct ds; [discriminate |]. intros [= _ <-]. lia.
    + intros [= _ <-]. simpl. lia.
Qed.

Lemma parse_number_length (s rest : string) (v : json) :
  parse_number s = Some (v, rest) -> (String.length rest < String.length s)%nat.
Proof.
  unfold parse_number.
  pose proof (take_minus_length s) as L1.
  destruct (take_minus s) as [neg s1]. simpl in L1.
  pose proof (span_digits_length s1) as L2.
  destruct (span_digits s1) as [ip s2]. simpl in L2.
  destruct ip as [| d ip]; [discriminate |].
  destruct (leading_zero (String d ip)); [discriminate |].
  destruct (parse_frac s2) as [[fp s3] |] eqn:F; [| discriminate].
  apply parse_frac_length in F.
  destruct (parse_exp s3) as [[e s4] |] eqn:E; [| discriminate].
  apply parse_exp_length in E.
  intros [= _ <-]. simpl in L2. lia.
Qed.

Lemma prefix_slice_length (word s : string) :
  String.prefix word s = true ->
  (String.length (JS.slice (String.length word) s) + String.length word
   = String.length s)%nat.
Proof.
  revert s. induction word as [| c word IH]; intros s H; simpl.
  - lia.
  - destruct s as [| d s]; simpl in H; [discriminate |].
    destruct (ascii_dec c d); [| discriminate].
    simpl. rewrite <- (IH s H). lia.
Qed.

Lemma literal_length (word s rest : string) (v v' : json) :
  word <> EmptyString ->
  literal word v s = POk v' rest ->
  (String.length rest < String.length s)%nat.
Proof.
  unfold literal. intros W.
  destruct (String.prefix word s) eqn:P; [| discriminate].
  intros [= _ <-]. pose proof (prefix_slice_length word s P).
  destruct word; [congruence | simpl in *; lia].
Qed.

(** A successful step of the parser consumes at least one character. *)
Lemma parse_consumes (f : nat) :
  (forall s v rest,
      parse_value f s = POk v rest -> (String.length rest < String.length s)%nat)
  /\ (forall s vs rest,
         parse_elements f s = POk vs rest ->
         (String.length rest < String.length s)%nat)
  /\ (forall s ms rest,
         parse_members f s = POk ms rest ->
         (String.length rest < String.length s)%nat).
Proof.
  induction f as [| f [IHv [IHe IHm]]].
  - repeat split; intros; discriminate.
  - split; [| split].
    + intros s v rest H. cbn [parse_value] in H.
      destruct (skip_ws s) as [| c r] eqn:W; [discriminate |].
      apply skip_ws_cons in W.
      destruct (is_code c 123).
      { destruct (skip_ws r) as [| c1 r1] eqn:W1; [discriminate |].
        apply skip_ws_cons in W1.
        destruct (is_code c1 125); [injection H as _ <-; lia |].
        destruct (parse_members f r) as [ms rest' | |] eqn:M; try discriminate.
        injection H as _ <-. apply IHm in M. lia. }
      destruct (is_code c 91).
      { destruct (skip_ws r) as [| c1 r1] eqn:W1; [discriminate |].
        apply skip_ws_cons in W1.
        destruct (is_code c1 93); [injection H as _ <-; lia |].
        destruct (parse_elements f r) as [vs rest' | |] eqn:E; try discriminate.
        injection H as _ <-. apply IHe in E. lia. }
      destruct (is_code c 34).
      { destruct (parse_string_body r) as [[body rest'] |] eqn:B; [| discriminate].
        injection H as _ <-.
        apply (parse_string_body_length (String.length r)) in B; lia. }
      destruct (is_code c 116).
      { apply literal_length in H; [simpl in H; lia | discriminate]. }
      destruct (is_code c 102).
      { apply literal_length in H; [simpl in H; lia | discriminate]. }
      destruct (is_code c 110).
      { apply literal_length in H; [simpl in H; lia | discriminate]. }
      destruct (parse_number (String c r)) as [[v' rest'] |] eqn:N; [| discriminate].
      injection H as _ <-. apply parse_number_length in N. simpl in N. lia.
    + intros s vs rest H. cbn [parse_elements] in H.
      destruct (parse_value f s) as [v rest1 | |] eqn:V; try discriminate.
      apply IHv in V.
      destruct (skip_ws rest1) as [| c r] eqn:W; [discriminate |].
      apply skip_ws_cons in W.
      destruct (is_code c 44).
      { destruct (parse_elements f r) as [vs' rest' | |] eqn:E; try discriminate.
        injection H as _ <-. apply IHe in E. lia. }
      destruct (is_code c 93); [injection H as _ <-; lia | discriminate].
    + intros s ms rest H. cbn [parse_members] in H.
      destruct (skip_ws s) as [| q r0] eqn:W0; [discriminate |].
      apply skip_ws_cons in W0.
      destruct (is_code q 34); [| discriminate].
      destruct (parse_string_body r0) as [[key r1] |] eqn:B; [| discriminate].
      apply (parse_string_body_length (String.length r0)) in B; [| lia].
      destruct (skip_ws r1) as [| col r2] eqn:W1; [discriminate |].
      apply skip_ws_cons in W1.
      destruct (is_code col 58); [| discriminate].
      destruct (parse_value f r2) as [v rest1 | |] eqn:V; try discriminate.
      apply IHv in V.
      destruct (skip_ws rest1) as [| c r] eqn:W; [discriminate |].
      apply skip_ws_cons in W.
      destruct (is_code c 44).
      { destruct (parse_members f r) as [ms' rest' | |] eqn:M; try discriminate.
        injection H as _ <-. apply IHm in M. lia. }
      destruct (is_code c 125); [injection H as _ <-; lia | discriminate].
Qed.

(** With a budget of twice the length of the input (and one or two more),
    no step of the parser stops for lack of budget. *)
Lemma parse_budget_enough (f : nat) :
  (forall s, (2 * String.length s + 1 <= f)%nat -> parse_value f s <> PFuel)
  /\ (forall s, (2 * String.length s + 2 <= f)%nat -> parse_elements f s <> PFuel)
  /\ (forall s, (2 * String.length s + 2 <= f)%nat -> parse_members f s <> PFuel).
Proof.
  induction f as [| f [IHv [IHe IHm]]].
  - repeat split; intros; lia.
  - destruct (parse_consumes f) as [Cv _].
    split; [| split].
    + intros s L. cbn [parse_value].
      destruct (skip_ws s) as [| c r] eqn:W; [discriminate |].
      apply skip_ws_cons in W.
      destruct (is_code c 123).
      { destruct (skip_ws r) as [| c1 r1]; [discriminate |].
        destruct (is_code c1 125); [discriminate |].
        assert (M : parse_members f r <> PFuel) by (apply IHm; lia).
        destruct (parse_members f r); [discriminate | discriminate | contradiction]. }
      destruct (is_code c 91).
      { destruct (skip_ws r) as [| c1 r1]; [discriminate |].
        destruct (is_code c1 93); [discriminate |].
        assert (E : parse_elements f r <> PFuel) by (apply IHe; lia).
        destruct (parse_elements f r); [discriminate | discriminate | contradiction]. }
      destruct (is_code c 34).
      { destruct (parse_string_body r) as [[body rest'] |]; discriminate. }
      unfold literal.
      repeat match goal with
             | |- context [if ?b then _ else _] => destruct b
             end; try discriminate.
      destruct (parse_number (String c r)) as [[v' rest'] |]; discriminate.
    + intros s L. cbn [parse_elements].
      assert (V : parse_value f s <> PFuel) by (apply IHv; lia).
      destruct (parse_value f s) as [v rest1 | |] eqn:E;
        [| discriminate | contradiction].
      apply Cv in E.
      destruct (skip_ws rest1) as [| c r] eqn:W; [discriminate |].
      apply skip_ws_cons in W.
      destruct (is_code c 44).
      { assert (E' : parse_elements f r <> PFuel) by (apply IHe; lia).
        destruct (parse_elements f r); [discriminate | discriminate | contradiction]. }
      destruct (is_code c 93); discriminate.
    + intros s L. cbn [parse_members].
      destruct (skip_ws s) as [| q r0] eqn:W0; [discriminate |].
      apply skip_ws_cons in W0.
      destruct (is_code q 34); [| discriminate].
      destruct (parse_string_body r0) as [[key r1] |] eqn:B; [| discriminate].
      apply (parse_string_body_length (String.length r0)) in B; [| lia].
      destruct (skip_ws r1) as [| col r2] eqn:W1; [discriminate |].
      apply skip_ws_cons in W1.
      destruct (is_code col 58); [| discriminate].
      assert (V : parse_value f r2 <> PFuel) by (apply IHv; lia).
      destruct (parse_value f r2) as [v rest1 | |] eqn:E;
        [| discriminate | contradiction].
      apply Cv in E.
      destruct (skip_ws rest1) as [| c r] eqn:W; [discriminate |].
      apply skip_ws_cons in W.
      destruct (is_code c 44).
      { assert (M : parse_members f r <> PFuel) by (apply IHm; lia).
        destruct (parse_members f r); [discriminate | discriminate | contradiction]. }
      destruct (is_code c 125); discriminate.
Qed.

(** [JSON_parse] decides on the text alone: its recursion budget is never
    exhausted, so [None] always stands for a syntax error. *)
Lemma JSON_parse_budget (s : string) : parse_value (budget s) s <> PFuel.
Proof.
  apply (proj1 (parse_budget_enough (budget s))). unfold budget. lia.
Qed.

End JsonParser.

(* ================================================================== *)
(** ** Further properties of the dispatcher *)
(* ================================================================== *)

Section DispatcherLoops.
Import Json Client.

Variable w : World.
Variable endpoints : list string.

(** The two ways out of the [catch] clause: rethrow on the last endpoint,
    go on otherwise. *)
Ltac catch_clause :=
  destruct (String.eqb _ (last_endpoint _)) eqn:?;
  [ left; eexists; split; [reflexivity |];
    right; eexists; split; reflexivity
  | right; destruct (generate_loop _ _ _); reflexivity ].

(** One iteration of the non-streaming loop: it returns after this call,
    with the value of a 2xx answer or with an error raised on the last
    endpoint, or it goes on with the rest of the list. *)
Lemma generate_loop_step (e : string) (rest : list string) :
  (exists res,
      generate_loop w endpoints (e :: rest) = ([generate_url e], res)
      /\ ((exists r data,
              fetch w (generate_url e) = FetchReturns r
              /\ ok r = true
              /\ JSON_parse (body_text r) = Some data
              /\ data <> JNull
              /\ res = inl (or_json (get data "response") data))
          \/ (exists m,
                 res = inr m
                 /\ String.eqb e (last_endpoint endpoints) = true)))
  \/ generate_loop w endpoints (e :: rest)
     = (generate_url e :: fst (generate_loop w endpoints rest),
        snd (generate_loop w endpoints rest)).
Proof.
  cbn [generate_loop].
  destruct (fetch w (generate_url e)) as [m | r] eqn:F; [catch_clause |].
  destruct (ok r) eqn:O.
  - destruct (JSON_parse (body_text r)) as [data |] eqn:P; [| catch_clause].
    destruct data; try catch_clause;
      (left; eexists; split; [reflexivity |]; left;
       eexists; eexists; repeat split; try eassumption; try reflexivity;
       discriminate).
  - destruct (retryable (status r)); [| catch_clause].
    right. destruct (generate_loop w endpoints rest); reflexivity.
Qed.

(** The calls of the non-streaming loop follow the list, in order. *)
Lemma generate_loop_prefix (remaining : list string) :
  exists tail,
    (fst (generate_loop w endpoints remaining) ++ tail)%list
    = map generate_url remaining.
Proof.
  induction remaining as [| e rest [tail IH]].
  - exists []. reflexivity.
  - destruct (generate_loop_step e rest) as [[res [E _]] | E]; rewrite E.
    + exists (map generate_url rest). reflexivity.
    + exists tail. cbn [fst map app]. now rewrite IH.
Qed.

(** A value returned by the loop is the answer of the last endpoint called,
    which answered 2xx with a JSON body. *)
Lemma generate_loop_value (remaining : list string) (v : json) :
  snd (generate_loop w endpoints remaining) = inl v ->
  exists pre e r data,
    fst (generate_loop w endpoints remaining) = (pre ++ [generate_url e])%list
    /\ fetch w (generate_url e) = FetchReturns r
    /\ ok r = true
    /\ JSON_parse (body_text r) = Some data
    /\ v = or_json (get data "response") data.
Proof.
  induction remaining as [| e rest IH]; [discriminate |].
  destruct (generate_loop_step e rest) as [[res [E H]] | E]; rewrite E; cbn [fst snd].
  - intros ->. destruct H as [[r [data [F [O [P [_ [= ->]]]]]]] | [m [? _]]];
      [| discriminate].
    exists [], e, r, data. auto.
  - intros H. destruct (IH H) as [pre [e' [r [data [C rest']]]]].
    exists (generate_url e :: pre), e', r, data. rewrite C. auto.
Qed.

(** An error thrown by the loop was raised on the last endpoint of the list,
    unless it reports that every endpoint was tried. *)
Lemma generate_loop_error (remaining : list string) (m : string) :
  snd (generate_loop w endpoints remaining) = inr m ->
  m = "All Antigravity endpoints failed"
  \/ exists pre e,
      fst (generate_loop w endpoints remaining) = (pre ++ [generate_url e])%list
      /\ String.eqb e (last_endpoint endpoints) = true.
Proof.
  induction remaining as [| e rest IH].
  - intros [= <-]. now left.
  - destruct (generate_loop_step e rest) as [[res [E H]] | E]; rewrite E; cbn [fst snd].
    + intros ->. destruct H as [[r [data [_ [_ [_ [_ ?]]]]]] | [m' [_ L]]];
        [discriminate |].
      right. exists [], e. auto.
    + intros H. destruct (IH H) as [-> | [pre [e' [C L]]]]; [now left |].
      right. exists (generate_url e :: pre), e'. rewrite C. auto.
Qed.

End DispatcherLoops.

(** Property X1.
    The outcome of [generateContent].  Without an access token no endpoint
    is called and the token manager's error is the result.  With one, the
    endpoints are called in the order of the list, each at most once; a
    returned value is the answer ([response] member, else the whole body)
    of the last endpoint called, which answered 2xx; and an error is either
    the report that all endpoints failed or was raised on the last endpoint
    of the list. *)
Theorem generateContent_outcome :
  forall (endpoints : list string) (w : Client.World)
         (tokens : option OAuth.AuthTokens) (model : string)
         (request : Converter.AntigravityRequest),
    let out := Client.generateContentOn endpoints w tokens model request in
    match Client.returned (Client.ensureValidToken w tokens) with
    | inr m =>
        Client.g_calls out = [] /\ Client.g_result out = inr m
        /\ Client.g_body out = None
    | inl _ =>
        (exists tail,
            (Client.g_calls out ++ tail)%list = map Client.generate_url endpoints)
        /\ (forall v, Client.g_result out = inl v ->
              exists pre e r data,
                Client.g_calls out = (pre ++ [Client.generate_url e])%list
                /\ Client.fetch w (Client.generate_url e) = Client.FetchReturns r
                /\ Client.ok r = true
                /\ Json.JSON_parse (Client.body_text r) = Some data
                /\ v = Client.or_json (Json.get data "response") data)
        /\ (forall m, Client.g_result out = inr m ->
              m = "All Antigravity endpoints failed"
              \/ exists pre e,
                  Client.g_calls out = (pre ++ [Client.generate_url e])%list
                  /\ String.eqb e (Client.last_endpoint endpoints) = true)
    end.
Proof.
  intros endpoints w tokens model request out. subst out.
  unfold Client.generateContentOn.
  destruct (Client.returned (Client.ensureValidToken w tokens)) as [tok | m].
  - pose proof (generate_loop_prefix w endpoints endpoints) as P.
    pose proof (generate_loop_value w endpoints endpoints) as V.
    pose proof (generate_loop_error w endpoints endpoints) as E.
    destruct (Client.generate_loop w endpoints endpoints) as [calls res].
    cbn [fst snd Client.g_calls Client.g_result] in *.
    split; [exact P |]. split; [exact V | exact E].
  - repeat split.
Qed.

Section StreamingLoop.
Import Json Client.

Variable w : World.
Variable endpoints : list string.

(** An iteration that returns does so with [done] after a 2xx answer whose
    stream ended without a fault, or with an [error] chunk on the last
    endpoint of the list. *)
Lemma stream_attempt_return (e : string) (le : option string)
    (cs : list StreamChunk) :
  stream_attempt w endpoints e le = StepReturn cs ->
  exists body,
    Forall (fun c => is_terminal c = false) body
    /\ ((cs = (body ++ [done_chunk])%list
         /\ exists r st,
             fetch w (stream_url e) = FetchReturns r
             /\ ok r = true
             /\ body_stream r = Some st
             /\ fault st = None)
        \/ (exists m,
               cs = (body ++ [error_chunk m])%list
               /\ String.eqb e (last_endpoint endpoints) = true)).
Proof.
  unfold stream_attempt.
  destruct (fetch w (stream_url e)) as [m | r] eqn:F.
  { intros H. destruct (String.eqb e (last_endpoint endpoints)) eqn:L;
      [| discriminate].
    injection H as <-. exists []. split; [constructor |]. right. now exists m. }
  destruct (ok r) eqn:O; cbn [negb].
  - destruct (body_stream r) as [st |] eqn:B.
    + destruct (read_loop_shape (reads st) (fault st) EmptyString) as [body [N E]].
      rewrite E. destruct (fault st) as [m |] eqn:Fl.
      * intros H. destruct (String.eqb e (last_endpoint endpoints)) eqn:L;
          [| discriminate].
        injection H as <-. exists body. split; [exact N |]. right. now exists m.
      * intros [= <-]. exists body. split; [exact N |]. left.
        split; [reflexivity |]. exists r, st. auto.
    + intros H. destruct (String.eqb e (last_endpoint endpoints)) eqn:L;
        [| discriminate].
      injection H as <-. exists []. split; [constructor |]. right.
      now exists "No response body".
  - destruct (retryable (status r)); [discriminate |].
    intros H. destruct (String.eqb e (last_endpoint endpoints)) eqn:L;
      [| discriminate].
    injection H as <-. exists []. split; [constructor |]. right.
    eexists. split; reflexivity.
Qed.

(** How the streaming loop ends: with [done] after a 2xx answer of the last
    endpoint called whose stream ended without a fault, or with an [error]
    chunk, raised on the last endpoint of the list or reporting that every
    endpoint was tried. *)
Lemma stream_loop_end (remaining : list string) :
  forall le,
    exists body t,
      snd (stream_loop w endpoints remaining le) = (body ++ [t])%list
      /\ Forall (fun c => is_terminal c = false) body
      /\ ((t = done_chunk
           /\ exists pre e r st,
               fst (stream_loop w endpoints remaining le)
               = (pre ++ [stream_url e])%list
               /\ fetch w (stream_url e) = FetchReturns r
               /\ ok r = true
               /\ body_stream r = Some st
               /\ fault st = None)
          \/ (exists m,
                 t = error_chunk m
                 /\ (fst (stream_loop w endpoints remaining le)
                     = map stream_url remaining
                     \/ exists pre e,
                         fst (stream_loop w endpoints remaining le)
                         = (pre ++ [stream_url e])%list
                         /\ String.eqb e (last_endpoint endpoints) = true))).
Proof.
  induction remaining as [| e rest IH]; intros le.
  - exists [], (error_chunk (exhausted_message le)).
    split; [reflexivity |]. split; [constructor |]. right.
    eexists. split; [reflexivity |]. now left.
  - rewrite stream_loop_step.
    pose proof (stream_attempt_shape w endpoints e le) as S.
    pose proof (stream_attempt_return e le) as R.
    destruct (stream_attempt w endpoints e le) as [cs | le' pre].
    + specialize (R cs eq_refl). clear S.
      destruct R as [body [N [[Ecs D] | [m [Ecs L]]]]]; subst cs.
      * exists body, done_chunk. split; [reflexivity |]. split; [exact N |].
        left. split; [reflexivity |].
        destruct D as [r [st D]]. exists [], e, r, st.
        split; [reflexivity | exact D].
      * exists body, (error_chunk m). split; [reflexivity |]. split; [exact N |].
        right. exists m. split; [reflexivity |]. right. exists [], e. auto.
    + destruct (IH le') as [body [t [E [N H]]]].
      exists (pre ++ body)%list, t. cbn [fst snd]. rewrite E.
      split; [now rewrite app_assoc |]. split; [apply Forall_app; auto |].
      clear R S.
      destruct H as [[Et [p [e' [r [st [C D]]]]]] | [m [Et [C | [p [e' [C L]]]]]]];
        subst t.
      * left. split; [reflexivity |].
        exists (stream_url e :: p), e', r, st. rewrite C. auto.
      * right. exists m. split; [reflexivity |]. left. now rewrite C.
      * right. exists m. split; [reflexivity |]. right.
        exists (stream_url e :: p), e'. rewrite C. auto.
Qed.

End StreamingLoop.

(** Property X2.
    The outcome of [streamGenerateContent].  Without an access token no
    endpoint is called, no chunk is yielded and the generator throws.  With
    one, the endpoints are called in the order of the list, each at most
    once, and the chunks end with exactly one terminal chunk, before which
    no chunk is terminal: [done], after a 2xx answer of the last endpoint
    called whose stream ended without a fault, or an [error] chunk, raised
    on the last endpoint of the list or reporting that every endpoint was
    tried. *)
Theorem streamGenerateContent_outcome :
  forall (endpoints : list string) (w : Client.World)
         (tokens : option OAuth.AuthTokens) (model : string)
         (request : Converter.AntigravityRequest),
    let out := Client.streamGenerateContentOn endpoints w tokens model request in
    match Client.returned (Client.ensureValidToken w tokens) with
    | inr m =>
        Client.s_calls out = [] /\ Client.s_chunks out = []
        /\ Client.s_thrown out = Some m
    | inl _ =>
        Client.s_thrown out = None
        /\ (exists tail,
               (Client.s_calls out ++ tail)%list = map Client.stream_url endpoints)
        /\ exists body t,
            Client.s_chunks out = (body ++ [t])%list
            /\ Forall (fun c => Client.is_terminal c = false) body
            /\ ((t = Client.done_chunk
                 /\ exists pre e r st,
                     Client.s_calls out = (pre ++ [Client.stream_url e])%list
                     /\ Client.fetch w (Client.stream_url e) = Client.FetchReturns r
                     /\ Client.ok r = true
                     /\ Client.body_stream r = Some st
                     /\ Client.fault st = None)
                \/ (exists m,
                       t = Client.error_chunk m
                       /\ (Client.s_calls out = map Client.stream_url endpoints
                           \/ exists pre e,
                               Client.s_calls out
                               = (pre ++ [Client.stream_url e])%list
                               /\ String.eqb e (Client.last_endpoint endpoints)
                                  = true)))
    end.
Proof.
  intros endpoints w tokens model request out. subst out.
  unfold Client.streamGenerateContentOn.
  destruct (Client.returned (Client.ensureValidToken w tokens)) as [tok | m].
  - pose proof (stream_loop_prefix w endpoints endpoints [] None) as P.
    rewrite app_nil_r in P.
    pose proof (stream_loop_end w endpoints endpoints None) as E.
    destruct (Client.stream_loop w endpoints endpoints None) as [calls chunks].
    cbn [fst snd Client.s_calls Client.s_chunks Client.s_thrown] in *.
    split; [reflexivity |]. split; [| exact E].
    destruct P as [P | [le' [cs [_ P]]]]; [exact P |].
    injection P as -> _. exists []. simpl. now rewrite !app_nil_r.
  - repeat split.
Qed.

(** Property X3.
    Failover of [generateContent].  When the endpoints before one that
    answers 2xx with a JSON body (other than [null]) all answer 403, 404
    or 5xx, exactly those endpoints and that one are called, in order, no
    later endpoint is contacted, and the call returns the [response] member
    of the body, or the whole body when that member is missing or falsy. *)
Theorem generateContent_fails_over_to_first_success :
  forall (w : Client.World) (tokens : option OAuth.AuthTokens) (token : string)
         (model : string) (request : Converter.AntigravityRequest)
         (pre : list string) (e : string) (rest : list string)
         (r : Client.HttpResponse) (data : Json.json),
    Client.returned (Client.ensureValidToken w tokens) = inl token ->
    Forall (fun p => Reference.answers_retryable (Client.fetch w)
                       (Client.generate_url p)) pre ->
    Client.fetch w (Client.generate_url e) = Client.FetchReturns r ->
    Client.ok r = true ->
    Json.JSON_parse (Client.body_text r) = Some data ->
    data <> Json.JNull ->
    let out := Client.generateContentOn (pre ++ e :: rest) w tokens model request in
    Client.g_calls out = map Client.generate_url (pre ++ [e])
    /\ Client.g_result out
       = inl (match Json.get data "response" with
              | Some v => if Json.truthy v then v else data
              | None => data
              end).
Proof.
  intros w tokens token model request pre e rest r data T S F O P N out.
  subst out. unfold Client.generateContentOn. rewrite T.
  rewrite (generate_loop_skips w _ pre (e :: rest) S).
  cbn [Client.generate_loop]. rewrite F, O, P.
  destruct data; try contradiction; cbn [fst snd Client.g_calls Client.g_result];
    rewrite map_app; split; reflexivity.
Qed.

(** Witness: the first endpoint answers 503 and the second answers 200. *)
Lemma generateContent_fails_over_witness :
  Client.g_calls
    (Client.generateContent (Examples.with_fetch Reference.fetch_503_then_200)
       (Some Examples.fresh_tokens) "gemini-3-flash" Examples.empty_request)
  = [Client.generate_url Constants.ANTIGRAVITY_ENDPOINT_DAILY;
     Client.generate_url Constants.ANTIGRAVITY_ENDPOINT_AUTOPUSH].
Proof.
  refine (proj1 (generateContent_fails_over_to_first_success
           (Examples.with_fetch Reference.fetch_503_then_200)
           (Some Examples.fresh_tokens) "access-0" "gemini-3-flash"
           Examples.empty_request
           [Constants.ANTIGRAVITY_ENDPOINT_DAILY]
           Constants.ANTIGRAVITY_ENDPOINT_AUTOPUSH
           [Constants.ANTIGRAVITY_ENDPOINT_PROD]
           (Client.mkResponse 200 "[1]" None)
           (Json.JArr [Json.JNum 1 0]) _ _ _ _ _ _)); try reflexivity.
  - constructor; [| constructor].
    exists (Client.mkResponse 503 "unavailable" None). repeat split.
  - discriminate.
Defined.

(** Property X4.
    Failover of [streamGenerateContent].  When the endpoints before one
    that answers 2xx with a body whose stream ends without a fault all
    answer 403, 404 or 5xx, exactly those endpoints and that one are
    called, and the chunks are those of that one stream, ending with
    [done]: the passed-over endpoints contribute no chunk. *)
Theorem streamGenerateContent_fails_over_to_first_success :
  forall (w : Client.World) (tokens : option OAuth.AuthTokens) (token : string)
         (model : string) (request : Converter.AntigravityRequest)
         (pre : list string) (e : string) (rest : list string)
         (r : Client.HttpResponse) (st : Client.Stream),
    Client.returned (Client.ensureValidToken w tokens) = inl token ->
    Forall (fun p => Reference.answers_retryable (Client.fetch w)
                       (Client.stream_url p)) pre ->
    Client.fetch w (Client.stream_url e) = Client.FetchReturns r ->
    Client.ok r = true ->
    Client.body_stream r = Some st ->
    Client.fault st = None ->
    let out := Client.streamGenerateContentOn (pre ++ e :: rest) w tokens model
                 request in
    Client.s_calls out = map Client.stream_url (pre ++ [e])
    /\ Client.s_chunks out
       = fst (Client.read_loop EmptyString (Client.reads st) None)
    /\ exists body,
        Client.s_chunks out = (body ++ [Client.done_chunk])%list
        /\ Forall (fun c => Client.is_terminal c = false) body.
Proof.
  intros w tokens token model request pre e rest r st T S F O B Fl out.
  subst out. unfold Client.streamGenerateContentOn. rewrite T.
  rewrite (stream_loop_skips w _ pre (e :: rest) None S).
  cbn [Client.stream_loop]. rewrite F, O, B, Fl. cbn [negb].
  destruct (read_loop_shape (Client.reads st) None EmptyString) as [body [N E]].
  rewrite E. cbn [fst snd Client.s_calls Client.s_chunks].
  rewrite map_app. split; [reflexivity |]. split; [reflexivity |].
  exists body. auto.
Qed.

(** Witness: the first endpoint answers 404 and the second streams one
    record. *)
Lemma streamGenerateContent_fails_over_witness :
  Client.s_chunks
    (Client.streamGenerateContent (Examples.with_fetch Reference.fetch_404_then_stream)
       (Some Examples.fresh_tokens) "gemini-3-flash" Examples.empty_request)
  = [Client.content_chunk (Json.JStr "yo"); Client.done_chunk].
Proof.
  refine (proj1 (proj2 (streamGenerateContent_fails_over_to_first_success
           (Examples.with_fetch Reference.fetch_404_then_stream)
           (Some Examples.fresh_tokens) "access-0" "gemini-3-flash"
           Examples.empty_request
           [Constants.ANTIGRAVITY_ENDPOINT_DAILY]
           Constants.ANTIGRAVITY_ENDPOINT_AUTOPUSH
           [Constants.ANTIGRAVITY_ENDPOINT_PROD]
           (Client.mkResponse 200 EmptyString
              (Some (Client.mkStream [Examples.text_line "yo"] None)))
           (Client.mkStream [Examples.text_line "yo"] None) _ _ _ _ _ _)));
    try reflexivity.
  constructor; [| constructor].
  exists (Client.mkResponse 404 "not found" None). repeat split.
Defined.

(** Property X5.
    Exhaustion.  When every endpoint answers 403, 404 or 5xx, every
    endpoint is called once, in order; [generateContent] fails with the
    message that all endpoints failed, and [streamGenerateContent] yields
    one [error] chunk with its own such message and nothing else. *)
Theorem all_endpoints_retryable :
  forall (endpoints : list string) (w : Client.World)
         (tokens : option OAuth.AuthTokens) (token : string)
         (model : string) (request : Converter.AntigravityRequest),
    Client.returned (Client.ensureValidToken w tokens) = inl token ->
    Forall (fun p => Reference.answers_retryable (Client.fetch w)
                       (Client.generate_url p)
                     /\ Reference.answers_retryable (Client.fetch w)
                          (Client.stream_url p)) endpoints ->
    let g := Client.generateContentOn endpoints w tokens model request in
    let s := Client.streamGenerateContentOn endpoints w tokens model request in
    Client.g_calls g = map Client.generate_url endpoints
    /\ Client.g_result g = inr "All Antigravity endpoints failed"
    /\ Client.s_calls s = map Client.stream_url endpoints
    /\ Client.s_chunks s = [Client.error_chunk "All endpoints failed"].
Proof.
  intros endpoints w tokens token model request T A g s. subst g s.
  unfold Client.generateContentOn, Client.streamGenerateContentOn. rewrite T.
  assert (G : Forall (fun p => Reference.answers_retryable (Client.fetch w)
                                 (Client.generate_url p)) endpoints)
    by (eapply Forall_impl; [| exact A]; now intros p [H _]).
  assert (S : Forall (fun p => Reference.answers_retryable (Client.fetch w)
                                 (Client.stream_url p)) endpoints)
    by (eapply Forall_impl; [| exact A]; now intros p [_ H]).
  pose proof (generate_loop_skips w endpoints endpoints [] G) as EG.
  pose proof (stream_loop_skips w endpoints endpoints [] None S) as ES.
  rewrite app_nil_r in EG, ES. rewrite EG, ES. simpl.
  rewrite !app_nil_r. repeat split.
Qed.

(** Witness: the three endpoints of the client all answer 503. *)
Lemma all_endpoints_retryable_witness :
  Client.g_result
    (Client.generateContent (Examples.with_fetch Reference.fetch_all_503)
       (Some Examples.fresh_tokens) "gemini-3-flash" Examples.empty_request)
  = inr "All Antigravity endpoints failed".
Proof.
  refine (proj1 (proj2 (all_endpoints_retryable Constants.ANTIGRAVITY_ENDPOINTS
           (Examples.with_fetch Reference.fetch_all_503)
           (Some Examples.fresh_tokens) "access-0" "gemini-3-flash"
           Examples.empty_request _ _))); [reflexivity |].
  repeat constructor;
    exists (Client.mkResponse 503 "unavailable" None); repeat split.
Defined.

(* ================================================================== *)
(** ** Further properties of the token manager *)
(* ================================================================== *)

(** Property X6.
    A rejected refresh.  When the credential is inside the expiry buffer and
    the token endpoint rejects the refresh, [ensureValidToken] makes that
    one refresh call, saves nothing, leaves the credential as it was and
    throws the provider's error body; [generateContent] and
    [streamGenerateContent] then call no backend endpoint and fail with
    that error. *)
Theorem rejected_refresh_blocks_the_request :
  forall (endpoints : list string) (w : Client.World) (t : OAuth.AuthTokens)
         (model : string) (request : Converter.AntigravityRequest)
         (errorText : string),
    OAuth.isTokenExpired (Client.clock w) (OAuth.expiresAt t) = true ->
    Client.token_endpoint w (OAuth.refreshToken t) = OAuth.TokenNotOk errorText ->
    let o := Client.ensureValidToken w (Some t) in
    let g := Client.generateContentOn endpoints w (Some t) model request in
    let s := Client.streamGenerateContentOn endpoints w (Some t) model request in
    Client.events o = [Client.EvRefresh (OAuth.refreshToken t)]
    /\ Client.tokens_after o = Some t
    /\ Client.returned o = inr ("Token refresh failed: " ++ errorText)
    /\ Client.g_calls g = []
    /\ Client.g_result g = inr ("Token refresh failed: " ++ errorText)
    /\ Client.s_calls s = [] /\ Client.s_chunks s = []
    /\ Client.s_thrown s = Some ("Token refresh failed: " ++ errorText).
Proof.
  intros endpoints w t model request errorText E R o g s. subst o g s.
  unfold Client.generateContentOn, Client.streamGenerateContentOn,
    Client.ensureValidToken, OAuth.refreshAccessToken.
  rewrite E, R. cbn. repeat split.
Qed.

(** Witness: an expired credential and a token endpoint that answers
    [invalid_grant]. *)
Lemma rejected_refresh_witness :
  Client.g_calls
    (Client.generateContent Reference.rejecting_world (Some Examples.stale_tokens)
       "gemini-3-flash" Examples.empty_request) = [].
Proof.
  refine (proj1 (proj2 (proj2 (proj2
    (rejected_refresh_blocks_the_request Constants.ANTIGRAVITY_ENDPOINTS
       Reference.rejecting_world Examples.stale_tokens "gemini-3-flash"
       Examples.empty_request "invalid_grant" _ _))))); reflexivity.
Defined.

(** Property X7.
    An accepted refresh.  When the credential is inside the expiry buffer
    and the token endpoint answers, the credential kept in memory has the
    new access token and the expiry [now + expires_in * 1000], and the same
    refresh token, email and project id as before; that same record is what
    is saved; the new access token is returned when the save succeeds, and
    a failing save fails the call while the refreshed credential stays in
    memory.  A later call, made while the new expiry is at least 5 minutes
    away, makes no refresh call and returns the new access token. *)
Theorem accepted_refresh_updates_the_credential :
  forall (w : Client.World) (t : OAuth.AuthTokens) (a : string) (e : Z),
    OAuth.isTokenExpired (Client.clock w) (OAuth.expiresAt t) = true ->
    Client.token_endpoint w (OAuth.refreshToken t) = OAuth.TokenOk a e ->
    let o := Client.ensureValidToken w (Some t) in
    let t' := OAuth.mkTokens a (OAuth.refreshToken t)
                (Client.clock_refresh w + e * 1000)%Z
                (OAuth.email t) (OAuth.projectId t) in
    Client.tokens_after o = Some t'
    /\ Client.events o = [Client.EvRefresh (OAuth.refreshToken t); Client.EvSave t']
    /\ (Client.save_error w t' = None -> Client.returned o = inl a)
    /\ (forall m, Client.save_error w t' = Some m -> Client.returned o = inr m)
    /\ (forall w2 : Client.World,
           (300000 <= Client.clock_refresh w + e * 1000 - Client.clock w2)%Z ->
           Client.ensureValidToken w2 (Client.tokens_after o)
           = Client.mkTokenOutcome [] (Some t') (inl a)).
Proof.
  intros w t a e E R o t'. subst o.
  assert (T : Client.tokens_after (Client.ensureValidToken w (Some t)) = Some t').
  { unfold Client.ensureValidToken, OAuth.refreshAccessToken. rewrite E, R.
    cbn [OAuth.r_accessToken OAuth.r_expiresAt]. fold t'.
    destruct (Client.save_error w t'); reflexivity. }
  split; [exact T |].
  split; [| split; [| split]].
  - unfold Client.ensureValidToken, OAuth.refreshAccessToken. rewrite E, R.
    cbn [OAuth.r_accessToken OAuth.r_expiresAt]. fold t'.
    destruct (Client.save_error w t'); reflexivity.
  - intros S. unfold Client.ensureValidToken, OAuth.refreshAccessToken.
    rewrite E, R. cbn [OAuth.r_accessToken OAuth.r_expiresAt]. fold t'.
    now rewrite S.
  - intros m S. unfold Client.ensureValidToken, OAuth.refreshAccessToken.
    rewrite E, R. cbn [OAuth.r_accessToken OAuth.r_expiresAt]. fold t'.
    now rewrite S.
  - intros w2 L. rewrite T.
    apply ensureValidToken_valid.
    unfold OAuth.isTokenExpired. subst t'. cbn [OAuth.expiresAt].
    rewrite Z.gtb_ltb. apply Z.ltb_ge. lia.
Qed.

(** Witness: an expired credential, refreshed for one hour. *)
Lemma accepted_refresh_witness :
  Client.tokens_after
    (Client.ensureValidToken Examples.quiet_world (Some Examples.stale_tokens))
  = Some (OAuth.mkTokens "access-1" "refresh-0" 3600000 None "project-1").
Proof.
  refine (proj1 (accepted_refresh_updates_the_credential Examples.quiet_world
                   Examples.stale_tokens "access-1" 3600 _ _)); reflexivity.
Defined.

(* ================================================================== *)
(** ** Further properties of the stream translator *)
(* ================================================================== *)

Section StreamText.
Import Json Client Reference.

Lemma append_empty_r (s : string) : (s ++ EmptyString)%string = s.
Proof. induction s as [| c s IH]; simpl; [reflexivity | now rewrite IH]. Qed.

Lemma stream_text_cons (v : string) (more : list string) :
  stream_text (v :: more) = (v ++ stream_text more)%string.
Proof.
  unfold stream_text. destruct more as [| x more]; simpl.
  - now rewrite append_empty_r.
  - reflexivity.
Qed.

Lemma split_nl_without_newline (s : string) :
  has_newline s = false -> JS.split_nl s = [s].
Proof.
  induction s as [| c r IH]; simpl; [reflexivity |].
  destruct (Ascii.eqb c JS.newline); [discriminate |].
  simpl. intros H. now rewrite IH.
Qed.

(** The fragment kept in the buffer never holds a newline. *)
Lemma last_split_nl_clean (s : string) :
  has_newline (last (JS.split_nl s) EmptyString) = false.
Proof.
  induction s as [| c r IH]; [reflexivity |].
  cbn [JS.split_nl].
  pose proof (split_nl_nonempty r) as NE.
  destruct (Ascii.eqb c JS.newline) eqn:E.
  - destruct (JS.split_nl r) as [| x l]; [contradiction | exact IH].
  - destruct (JS.split_nl r) as [| x [| y l]]; [contradiction | |].
    + simpl in *. now rewrite E.
    + exact IH.
Qed.

(** The chunks of a stream depend on its text alone: they are those of the
    lines that a newline completes. *)
Lemma read_loop_closed (rs : list string) (flt : option string) :
  forall buffer,
    has_newline buffer = false ->
    read_loop buffer rs flt
    = ((flat_map process_line
          (removelast (JS.split_nl (buffer ++ stream_text rs)))
        ++ match flt with None => [done_chunk] | Some _ => [] end)%list,
       flt).
Proof.
  induction rs as [| value more IH]; intros buffer B.
  - cbn [read_loop stream_text String.concat].
    rewrite append_empty_r, (split_nl_without_newline buffer B).
    destruct flt; reflexivity.
  - cbn [read_loop]. rewrite feed_eq, stream_text_cons.
    rewrite (IH _ (last_split_nl_clean (buffer ++ value))).
    rewrite <- (append_assoc buffer value (stream_text more)).
    rewrite (split_nl_app (buffer ++ value) (stream_text more)).
    rewrite removelast_app by apply split_nl_nonempty.
    rewrite flat_map_app, app_assoc. reflexivity.
Qed.

Lemma split_nl_line (x : string) :
  has_newline x = false -> JS.split_nl (x ++ JS.NL) = [x; EmptyString].
Proof.
  induction x as [| c r IH]; [reflexivity |].
  simpl. destruct (Ascii.eqb c JS.newline); [discriminate |].
  simpl. intros H. now rewrite (IH H).
Qed.

(** After a text that ends with a newline the buffer is empty. *)
Lemma split_nl_terminated (text : string) :
  JS.split_nl (text ++ JS.NL)
  = (JS.split_nl text ++ [EmptyString])%list.
Proof.
  rewrite split_nl_app, (split_nl_line _ (last_split_nl_clean text)).
  rewrite (app_removelast_last EmptyString (split_nl_nonempty text)) at 3.
  now rewrite <- app_assoc.
Qed.

End StreamText.

(** Property X8.
    The stream parser, in closed form.  The chunks that the reads of one
    response yield are those of the lines of the whole text that a newline
    completes, in order, followed by [done] when the stream ends without a
    fault; so they do not depend on how the text is cut into reads, and the
    text after the last newline is never translated, even when the stream
    ends there. *)
Theorem stream_chunks_depend_on_text_only :
  forall (rs : list string) (flt : option string),
    let ending := match flt with
                  | None => [Client.done_chunk]
                  | Some _ => []
                  end in
    Client.read_loop EmptyString rs flt
    = ((flat_map Client.process_line
          (removelast (JS.split_nl (Reference.stream_text rs))) ++ ending)%list,
       flt)
    /\ (forall rs',
           Reference.stream_text rs' = Reference.stream_text rs ->
           Client.read_loop EmptyString rs' flt
           = Client.read_loop EmptyString rs flt)
    /\ (forall text tail,
           Reference.stream_text rs = (text ++ JS.NL ++ tail)%string ->
           Reference.has_newline tail = false ->
           fst (Client.read_loop EmptyString rs flt)
           = (flat_map Client.process_line (JS.split_nl text) ++ ending)%list).
Proof.
  intros rs flt ending.
  assert (C : forall l,
             Client.read_loop EmptyString l flt
             = ((flat_map Client.process_line
                   (removelast (JS.split_nl (Reference.stream_text l)))
                 ++ ending)%list, flt))
    by (intros l; apply (read_loop_closed l flt EmptyString); reflexivity).
  split; [apply C |]. split.
  - intros rs' E. now rewrite !C, E.
  - intros text tail E T. rewrite C, E. cbn [fst].
    rewrite <- append_assoc, split_nl_app, split_nl_terminated.
    rewrite removelast_last, last_last. cbn [append].
    rewrite (split_nl_without_newline tail T), removelast_last.
    reflexivity.
Qed.

Section NullPart.
Import Json Client.

Lemma part_chunks_defined (p : json) :
  p <> JNull -> exists cs, part_chunks p = Some cs.
Proof.
  intros N. unfold part_chunks.
  destruct p; try contradiction;
    repeat match goal with
           | |- context [if ?b then _ else _] => destruct b
           | |- context [match ?x with _ => _ end] => destruct x
           end; eexists; reflexivity.
Qed.

(** A [null] part stops the loop over the parts: the chunks of the parts
    before it stay, the parts after it are not looked at. *)
Lemma parts_chunks_null (ps1 ps2 : list json) :
  Forall (fun p => p <> JNull) ps1 ->
  parts_chunks (ps1 ++ JNull :: ps2) = (fst (parts_chunks ps1), false).
Proof.
  induction 1 as [| p ps1 Hp _ IH]; [reflexivity |].
  cbn [app parts_chunks].
  destruct (part_chunks_defined p Hp) as [cs E]. rewrite E, IH.
  destruct (parts_chunks ps1). reflexivity.
Qed.

End NullPart.

(** Property X9.
    A [null] part in a record.  When the parts of the first candidate hold a
    [null] after parts that are not, the record yields the chunks of the
    parts before the [null] and nothing else: the parts after it yield no
    chunk, and no usage chunk is yielded even when the record carries a
    usage block. *)
Theorem null_part_cuts_the_record :
  forall (data : Json.json) (ps1 ps2 : list Json.json),
    data <> Json.JNull ->
    Json.get_opt
      (Json.get_opt
         (Json.index0_opt (Json.get_opt (Json.get data "response") "candidates"))
         "content") "parts" = Some (Json.JArr (ps1 ++ Json.JNull :: ps2)) ->
    Forall (fun p => p <> Json.JNull) ps1 ->
    Client.translate_record data = fst (Client.parts_chunks ps1)
    /\ Forall (fun c => Client.chunk_usage c = None) (Client.translate_record data).
Proof.
  intros data ps1 ps2 N P C.
  assert (E : Client.translate_record data = fst (Client.parts_chunks ps1)).
  { unfold Client.translate_record.
    destruct data; try contradiction; rewrite P, (parts_chunks_null ps1 ps2 C);
      reflexivity. }
  split; [exact E |]. rewrite E.
  eapply Forall_impl; [| apply parts_chunks_no_usage]. now intros c [U _].
Qed.

(** Witness: a record with the parts [a], [null], [b] and a usage block
    yields the one content chunk [a]. *)
Lemma null_part_witness :
  Client.translate_record Reference.null_part_data
  = [Client.content_chunk (Json.JStr "a")].
Proof.
  refine (proj1 (null_part_cuts_the_record Reference.null_part_data
                   [Json.JObj [("text", Json.JStr "a")]]
                   [Json.JObj [("text", Json.JStr "b")]] _ _ _)).
  - discriminate.
  - reflexivity.
  - constructor; [discriminate | constructor].
Defined.

(* ================================================================== *)
(** ** Further properties of the request translator *)
(* ================================================================== *)

Section Turns.
Import Json Converter Reference.

Lemma convertMessage_role (m : OpenAIMessage) (turn : AntigravityContent) :
  convertMessage m = Some turn ->
  c_role turn = match msg_role m with
                | assistant => role_model
                | _ => role_user
                end.
Proof.
  unfold convertMessage.
  destruct (role_eqb (msg_role m) tool) eqn:T; cbn [andb].
  - destruct (msg_role m); try discriminate T.
    destruct (JS.truthy_opt_str (msg_tool_call_id m)).
    + now intros [= <-].
    + destruct (_ ++ _)%list; [discriminate | now intros [= <-]].
  - destruct (_ ++ _)%list; [discriminate | now intros [= <-]].
Qed.

(** Every turn comes from a message that is not a system message. *)
Lemma convert_contents_origin (ms : list OpenAIMessage) :
  Forall (fun turn => exists m, In m ms /\ convertMessage m = Some turn)
    (convert_contents ms).
Proof.
  induction ms as [| m ms IH]; simpl; [constructor |].
  assert (IH' : Forall (fun turn => exists m', (m = m' \/ In m' ms)
                                               /\ convertMessage m' = Some turn)
                  (convert_contents ms)).
  { eapply Forall_impl; [| exact IH]. intros t [m' [I C]]. exists m'. auto. }
  destruct (convertMessage m) as [c |] eqn:E; [| exact IH'].
  constructor; [| exact IH']. exists m. auto.
Qed.

Lemma convert_contents_length (ms : list OpenAIMessage) :
  (List.length (convert_contents ms) <= List.length ms)%nat.
Proof.
  induction ms as [| m ms IH]; simpl; [lia |].
  destruct (convertMessage m); simpl; lia.
Qed.

Lemma content_parts_no_call (c : MessageContent) :
  function_calls (content_parts c) = [].
Proof.
  destruct c as [s | items]; simpl.
  - destruct (JS.truthy_str s); reflexivity.
  - induction items as [| i items IH]; [reflexivity |].
    cbn [flat_map]. unfold function_calls in *. rewrite flat_map_app, IH.
    rewrite app_nil_r. unfold item_parts.
    repeat match goal with
           | |- context [if ?b then _ else _] => destruct b
           | |- context [match ?x with _ => _ end] => destruct x
           end; reflexivity.
Qed.

Lemma tool_call_parts_calls (tcs : list ToolCall) :
  function_calls (map tool_call_part tcs)
  = map (fun tc => (tc_name tc, parsed_arguments tc)) tcs.
Proof.
  induction tcs as [| tc tcs IH]; [reflexivity |].
  unfold function_calls in *. cbn [map flat_map]. rewrite IH. reflexivity.
Qed.

Lemma tool_call_parts_rebuilt (tcs : list ToolCall) :
  map tool_call_part tcs
  = map (fun c => PFunctionCall (fst c) (snd c))
      (map (fun tc => (tc_name tc, parsed_arguments tc)) tcs).
Proof. rewrite map_map. reflexivity. Qed.

(** The parts of the turn of a message that is not a tool result: those of
    its content, then one per tool call of an assistant message. *)
Lemma convertMessage_content_then_calls (m : OpenAIMessage) :
  role_eqb (msg_role m) tool && JS.truthy_opt_str (msg_tool_call_id m) = false ->
  match convertMessage m with
  | Some turn => c_parts turn
  | None => []
  end
  = (content_parts (msg_content m)
     ++ (if role_eqb (msg_role m) assistant then
           match msg_tool_calls m with
           | Some tcs => map tool_call_part tcs
           | None => []
           end
         else []))%list.
Proof.
  intros G. unfold convertMessage. rewrite G.
  destruct (_ ++ _)%list; reflexivity.
Qed.

End Turns.

(** Property X10.
    Turns follow the messages.  The turn sequence of a message list that is
    the concatenation of two lists is the concatenation of their turn
    sequences, so order is kept and no message influences the turn of
    another; there are at most as many turns as messages; and every turn
    is the translation of a message that is not a system message, with
    role [model] when that message is an assistant message and [user]
    otherwise. *)
Theorem turns_follow_messages :
  forall (model : string) (ms1 ms2 : list Converter.OpenAIMessage)
         (t p : option Q) (mt : option Z) (st : option bool)
         (tl : option (list Converter.Tool)) (tc : option Converter.ToolChoice),
    let turns := fun ms =>
      Converter.contents
        (Converter.convertOpenAIToAntigravity
           (Converter.mkChatRequest model ms t p mt st tl tc)) in
    turns (ms1 ++ ms2)%list = (turns ms1 ++ turns ms2)%list
    /\ (List.length (turns ms1) <= List.length ms1)%nat
    /\ Forall (fun turn =>
                 exists m,
                   In m ms1
                   /\ Converter.msg_role m <> Converter.system
                   /\ Converter.convertMessage m = Some turn
                   /\ Converter.c_role turn
                      = match Converter.msg_role m with
                        | Converter.assistant => Converter.role_model
                        | _ => Converter.role_user
                        end)
         (turns ms1).
Proof.
  intros model ms1 ms2 t p mt st tl tc turns. subst turns. cbn beta.
  rewrite !contents_convert. cbn [Converter.req_messages].
  split; [now rewrite filter_app, convert_contents_app |].
  split.
  - etransitivity; [apply convert_contents_length |]. apply filter_length_le.
  - eapply Forall_impl; [| apply convert_contents_origin].
    intros turn [m [I C]]. apply filter_In in I. destruct I as [I S].
    exists m. split; [exact I |]. split.
    + intros R. unfold Converter.is_system in S. rewrite R in S. discriminate.
    + split; [exact C | now apply convertMessage_role].
Qed.

(** Property X11.
    Tool calls in the request.  The function-call parts of the turn of a
    message are, in order, one per tool call of that message when it is an
    assistant message, each under the name of the tool call and with its
    arguments parsed as JSON, or with the empty object when they are not
    valid JSON; there is none for any other role, whatever its [tool_calls]
    field holds; and in the turn they come after every other part. *)
Theorem tool_calls_become_function_calls :
  forall m : Converter.OpenAIMessage,
    let parts := match Converter.convertMessage m with
                 | Some turn => Converter.c_parts turn
                 | None => []
                 end in
    let expected :=
      match Converter.msg_role m, Converter.msg_tool_calls m with
      | Converter.assistant, Some tcs =>
          map (fun tc =>
                 (Converter.tc_name tc,
                  match Json.JSON_parse (Converter.tc_arguments tc) with
                  | Some v => v
                  | None => Json.JObj []
                  end)) tcs
      | _, _ => []
      end in
    Reference.function_calls parts = expected
    /\ exists before,
        parts = (before
                 ++ map (fun c => Converter.PFunctionCall (fst c) (snd c))
                      expected)%list
        /\ Reference.function_calls before = [].
Proof.
  intros m parts expected.
  assert (E : exists before,
             parts = (before
                      ++ map (fun c => Converter.PFunctionCall (fst c) (snd c))
                           expected)%list
             /\ Reference.function_calls before = []).
  { subst parts expected.
    destruct (Converter.role_eqb (Converter.msg_role m) Converter.tool
              && JS.truthy_opt_str (Converter.msg_tool_call_id m)) eqn:G.
    - apply andb_prop in G. destruct G as [T I].
      unfold Converter.convertMessage. rewrite T, I. cbn [andb Converter.c_parts].
      destruct (Converter.msg_role m); try discriminate T.
      eexists. cbn [map]. rewrite app_nil_r. split; reflexivity.
    - rewrite (convertMessage_content_then_calls m G).
      exists (Converter.content_parts (Converter.msg_content m)).
      split; [| apply content_parts_no_call].
      f_equal.
      destruct (Converter.msg_role m); cbn [Converter.role_eqb]; try reflexivity.
      destruct (Converter.msg_tool_calls m) as [tcs |]; [| reflexivity].
      apply tool_call_parts_rebuilt. }
  split; [| exact E].
  destruct E as [before [P N]]. rewrite P.
  unfold Reference.function_calls in *. rewrite flat_map_app, N. cbn [app].
  clear. induction expected as [| [n a] cs IH]; [reflexivity |].
  cbn [map flat_map fst snd app]. now rewrite IH.
Qed.

Section DataUri.
Import Json Converter Reference.

Lemma prefix_split (p s : string) :
  String.prefix p s = true -> s = (p ++ JS.slice (String.length p) s)%string.
Proof.
  revert s. induction p as [| c p IH]; intros s H; [reflexivity |].
  destruct s as [| d s]; simpl in H; [discriminate |].
  destruct (ascii_dec c d) as [<- |]; [| discriminate].
  simpl. now rewrite <- (IH s H).
Qed.

Lemma prefix_append (p s : string) : String.prefix p (p ++ s) = true.
Proof.
  induction p as [| c p IH]; simpl; [destruct s; reflexivity |].
  destruct (ascii_dec c c); [exact IH | contradiction].
Qed.

Lemma slice_append (p s : string) : JS.slice (String.length p) (p ++ s) = s.
Proof. induction p as [| c p IH]; simpl; [reflexivity | exact IH]. Qed.

Lemma until_semicolon_join (s : string) :
  s = (fst (until_semicolon s) ++ snd (until_semicolon s))%string.
Proof.
  induction s as [| c r IH]; simpl; [reflexivity |].
  destruct (is_code c 59); [reflexivity |].
  destruct (until_semicolon r); simpl in *. now rewrite <- IH.
Qed.

Lemma until_semicolon_append (mime rest : string) :
  has_semicolon mime = false ->
  until_semicolon (mime ++ String (ascii_of_nat 59) rest)
  = (mime, String (ascii_of_nat 59) rest).
Proof.
  induction mime as [| c r IH]; simpl; [reflexivity |].
  destruct (is_code c 59); [discriminate |].
  simpl. intros H. now rewrite (IH H).
Qed.

End DataUri.

(** Property X12.
    Inline images.  A data URI [data:<mime>;base64,<payload>] whose mime
    type is not empty and has no semicolon, and whose payload is not empty
    and has no line terminator (line feed, carriage return, U+2028,
    U+2029), is matched into exactly that mime type and that payload; whatever is matched puts the URL back together; and an image
    item with such a URL becomes one inline-data part, while an image URL
    that does not start with [data:] yields no part. *)
Theorem data_uri_round_trip :
  forall (mime payload : string) (txt : option string),
    mime <> EmptyString ->
    Reference.has_semicolon mime = false ->
    payload <> EmptyString ->
    Converter.no_line_terminator payload = true ->
    let url := ("data:" ++ mime ++ ";base64," ++ payload)%string in
    Converter.match_data_uri url = Some (mime, payload)
    /\ Converter.item_parts (Converter.mkItem "image_url" txt (Some url))
       = [Converter.PInlineData mime payload]
    /\ (forall u m d,
           Converter.match_data_uri u = Some (m, d) ->
           u = ("data:" ++ m ++ ";base64," ++ d)%string)
    /\ (forall u,
           JS.startsWith u "data:" = false ->
           Converter.item_parts (Converter.mkItem "image_url" txt (Some u)) = []).
Proof.
  intros mime payload txt Hm Hs Hp Hl url.
  assert (M : Converter.match_data_uri url = Some (mime, payload)).
  { unfold Converter.match_data_uri, JS.startsWith. subst url.
    rewrite prefix_append.
    replace (JS.slice 5 ("data:" ++ mime ++ ";base64," ++ payload))
      with (mime ++ String (ascii_of_nat 59) ("base64," ++ payload))%string
      by reflexivity.
    rewrite (until_semicolon_append _ _ Hs).
    replace (String.prefix ";base64," (String (ascii_of_nat 59) ("base64," ++ payload)))
      with true by (symmetry; apply (prefix_append ";base64," payload)).
    replace (JS.slice 8 (String (ascii_of_nat 59) ("base64," ++ payload)))
      with payload by reflexivity.
    destruct mime; [contradiction |]. cbn [JS.truthy_str andb].
    destruct payload; [contradiction |]. cbn [JS.truthy_str andb].
    now rewrite Hl. }
  split; [exact M |]. split; [| split].
  - unfold Converter.item_parts. cbn [Converter.item_type Converter.item_image_url].
    assert (S : JS.startsWith url "data:" = true)
      by (unfold JS.startsWith; subst url; apply prefix_append).
    replace (String.eqb "image_url" "text") with false by reflexivity.
    cbn [andb]. replace (String.eqb "image_url" "image_url") with true by reflexivity.
    assert (T : JS.truthy_opt_str (Some url) = true) by reflexivity.
    rewrite T. cbn [andb]. now rewrite S, M.
  - intros u m d. unfold Converter.match_data_uri, JS.startsWith.
    destruct (String.prefix "data:" u) eqn:P; [| discriminate].
    pose proof (prefix_split _ _ P) as U.
    pose proof (until_semicolon_join (JS.slice 5 u)) as J.
    destruct (Converter.until_semicolon (JS.slice 5 u)) as [a b]. cbn [fst snd] in J.
    destruct (JS.truthy_str a); [| discriminate]. cbn [andb].
    destruct (String.prefix ";base64," b) eqn:Q; [| discriminate].
    pose proof (prefix_split _ _ Q) as B.
    destruct (JS.truthy_str (JS.slice 8 b) && _); [| discriminate].
    intros [= <- <-]. rewrite U at 1. cbn [String.length]. rewrite J.
    rewrite B at 1. reflexivity.
  - intros u S. unfold Converter.item_parts.
    cbn [Converter.item_type Converter.item_image_url].
    replace (String.eqb "image_url" "text") with false by reflexivity.
    cbn [andb]. destruct (String.eqb "image_url" "image_url" && _); [| reflexivity].
    now rewrite S.
Qed.

(** Witness: a PNG data URI. *)
Lemma data_uri_round_trip_witness :
  Converter.match_data_uri "data:image/png;base64,QUJD" = Some ("image/png", "QUJD").
Proof.
  refine (proj1 (data_uri_round_trip "image/png" "QUJD" None _ _ _ _));
    first [discriminate | reflexivity].
Defined.

Section ToolMode.
Import Json Constants Converter Client.

Lemma tools_applyThinkingConfig (r : Resolved) (request : AntigravityRequest) :
  tools (applyThinkingConfig r request) = tools request
  /\ toolConfig (applyThinkingConfig r request) = toolConfig request.
Proof.
  unfold applyThinkingConfig. destruct (resolvedThinking r); split; reflexivity.
Qed.

(** Every registry entry with a thinking level has a non-empty one. *)
Lemma registry_level (model : string) (info : ModelInfo) (l : string) :
  registry_get AVAILABLE_MODELS model = Some info ->
  thinkingLevel info = Some l ->
  l <> EmptyString /\ thinkingBudget info = None.
Proof.
  intros H L. unfold AVAILABLE_MODELS, registry_get in H.
  repeat match type of H with
         | context [String.eqb model ?k] =>
             let E := fresh "E" in
             destruct (String.eqb model k) eqn:E;
             [ injection H as <-; simpl in L;
               first [ discriminate L
                     | injection L as <-; split; [discriminate | reflexivity] ]
             | clear E ]
         end.
  discriminate H.
Qed.

Lemma generation_fields (request : OpenAIChatRequest) :
  let gc := match convert_generation request with
            | Some g => g
            | None => emptyGenerationConfig
            end in
  temperature gc = req_temperature request
  /\ topP gc = req_top_p request
  /\ topK gc = None
  /\ maxOutputTokens gc = req_max_tokens request.
Proof.
  unfold convert_generation.
  destruct (req_temperature request), (req_top_p request),
    (req_max_tokens request); repeat split.
Qed.

End ToolMode.

(** Property X13.
    Tool-calling mode.  In the request sent for a model whose id contains
    [claude] (in any letter case), when the caller declared at least one
    tool of type [function], the tool-calling mode is [VALIDATED] with no
    allow-list, whatever [tool_choice] the caller gave; in every other case
    the tool configuration is the one translated from [tool_choice]. *)
Theorem claude_tools_use_validated_mode :
  forall request : Converter.OpenAIChatRequest,
    Converter.toolConfig
      (Client.prepareRequest (Converter.req_model request)
         (Converter.convertOpenAIToAntigravity request))
    = if JS.includes (JS.toLowerCase (Converter.req_model request)) "claude"
         && match Converter.req_tools request with
            | Some ts =>
                existsb (fun t => String.eqb (Converter.tool_type t) "function") ts
            | None => false
            end
      then Some (Converter.mkToolConfig
                   (Some (Converter.mkFCC (Some "VALIDATED") None)))
      else Converter.toolConfig (Converter.convertOpenAIToAntigravity request).
Proof.
  intros request. unfold Client.prepareRequest, Client.applyToolMode.
  destruct (tools_applyThinkingConfig
              (Client.resolveModel (Converter.req_model request))
              (Converter.convertOpenAIToAntigravity request)) as [T C].
  rewrite T.
  change (Client.isClaude (Client.resolveModel (Converter.req_model request)))
    with (JS.includes (JS.toLowerCase (Converter.req_model request)) "claude").
  destruct (JS.includes _ "claude"); cbn [andb]; [| exact C].
  cbn [Converter.tools Converter.convertOpenAIToAntigravity].
  destruct (Converter.req_tools request) as [[| t ts] |]; try exact C.
  set (ts' := t :: ts).
  assert (F : match map Converter.convert_tool
                      (filter (fun t0 => String.eqb (Converter.tool_type t0) "function")
                         ts') with
              | [] => false
              | _ => true
              end
              = existsb (fun t0 => String.eqb (Converter.tool_type t0) "function") ts').
  { clearbody ts'. clear. induction ts' as [| x xs IH]; [reflexivity |].
    cbn [filter existsb]. destruct (String.eqb (Converter.tool_type x) "function");
      [reflexivity | exact IH]. }
  rewrite <- F.
  destruct (map Converter.convert_tool _); [exact C | reflexivity].
Qed.

(** Property X14.
    Thinking augmentation, by registry entry.  For a model with a thinking
    level the generation config sent has the caller's sampling parameters
    and output limit as given and a thinking config with the
    include-thoughts flag and that level; for a model that is unknown or
    has neither a level nor a budget the generation config is the one
    translated from the request, absent when the caller gave no sampling
    parameter. *)
Theorem thinking_by_registry_entry :
  forall request : Converter.OpenAIChatRequest,
    let sent := Client.prepareRequest (Converter.req_model request)
                  (Converter.convertOpenAIToAntigravity request) in
    let plain := Converter.generationConfig
                   (Converter.convertOpenAIToAntigravity request) in
    match Constants.registry_get Constants.AVAILABLE_MODELS
            (Converter.req_model request) with
    | None => Converter.generationConfig sent = plain
    | Some info =>
        match Constants.thinkingLevel info, Constants.thinkingBudget info with
        | Some l, _ =>
            Converter.generationConfig sent
            = Some (Converter.mkGenConfig
                      (Converter.req_temperature request)
                      (Converter.req_top_p request) None
                      (Converter.req_max_tokens request)
                      (Some (Converter.mkThinking (Some true) (Some l) None None None)))
        | None, None => Converter.generationConfig sent = plain
        | None, Some _ => True
        end
    end
    /\ (plain = None
        <-> Converter.req_temperature request = None
            /\ Converter.req_top_p request = None
            /\ Converter.req_max_tokens request = None).
Proof.
  intros request sent plain. subst sent plain. split.
  - unfold Client.prepareRequest.
    rewrite generationConfig_applyToolMode.
    unfold Client.resolveModel, Client.applyThinkingConfig.
    destruct (Constants.registry_get Constants.AVAILABLE_MODELS
                (Converter.req_model request)) as [info |] eqn:R;
      cbn [Client.resolvedThinking]; [| reflexivity].
    destruct (Constants.thinkingLevel info) as [l |] eqn:L.
    + destruct (registry_level _ _ _ R L) as [Nl B].
      cbn [Client.resolvedThinking Client.rt_thinkingBudget Client.rt_thinkingLevel
           Client.truthy_num Client.isClaude].
      rewrite andb_false_r.
      assert (T : JS.truthy_opt_str (Some l) = true)
        by (destruct l; [contradiction | reflexivity]).
      rewrite T. cbn [Converter.generationConfig Converter.convertOpenAIToAntigravity].
      destruct (generation_fields request) as [F1 [F2 [F3 F4]]].
      rewrite F1, F2, F3, F4. reflexivity.
    + destruct (Constants.thinkingBudget info); [exact I | reflexivity].
  - cbn [Converter.generationConfig Converter.convertOpenAIToAntigravity].
    unfold Converter.convert_generation.
    destruct (Converter.req_temperature request), (Converter.req_top_p request),
      (Converter.req_max_tokens request); cbn; split;
      first [ discriminate | intros [? [? ?]]; discriminate | auto ].
Qed.

(* ================================================================== *)
(** ** Further properties of the response translator *)
(* ================================================================== *)

Section Assembly.
Import Json Converter Reference.

Variable rt : Runtime.

Lemma visible_text_cons (p : ResponsePart) (ps : list ResponsePart) :
  visible_text (p :: ps)
  = ((if not_thought p then text_of p else EmptyString) ++ visible_text ps)%string.
Proof.
  unfold visible_text. cbn [filter]. destruct (not_thought p); [| reflexivity].
  cbn [map]. destruct (map text_of (filter not_thought ps)) eqn:E; cbn.
  - now rewrite append_empty_r.
  - reflexivity.
Qed.

(** The state of the scan after a list of parts. *)
Lemma scan_parts_state (ps : list ResponsePart) :
  forall st,
    scan_parts rt st ps
    = mkScan (scan_content st ++ visible_text ps)
        (scan_toolCalls st ++ number_calls rt (scan_uuids st) (called_functions ps))
        (scan_uuids st + List.length (called_functions ps)).
Proof.
  induction ps as [| p ps IH]; intros st.
  - cbn. rewrite append_empty_r, app_nil_r, Nat.add_0_r. now destruct st.
  - unfold scan_parts in *. cbn [fold_left]. rewrite IH.
    rewrite visible_text_cons. unfold called_functions. cbn [filter].
    unfold scan_part, not_thought, text_of.
    destruct (p_thought p) as [[|] |]; cbn [flat_map];
      try reflexivity;
      destruct (p_text p) as [t |]; destruct (p_functionCall p) as [fc |];
      cbn [scan_content scan_toolCalls scan_uuids app List.length number_calls];
      try destruct (JS.truthy_str t) eqn:T;
      try (destruct t; [| discriminate T]);
      rewrite ?append_empty_r, ?append_assoc, <- ?app_assoc, ?Nat.add_succ_r,
        ?Nat.add_0_r;
      cbn [app Nat.add]; rewrite ?Nat.add_succ_r; reflexivity.
Qed.

End Assembly.

(** Property X15.
    The assembled choice.  The content of the sole choice is the
    concatenation, in order, of the texts of the parts of the first
    candidate that are not flagged as thoughts ([null] when that is empty);
    its tool calls are the function calls of those parts, in order, each
    with the identifier [call_] followed by the first 8 characters of the
    next UUID drawn (the field is absent when there is none); parts flagged
    as thoughts contribute neither text nor tool call, and the candidates
    after the first are not looked at. *)
Theorem choice_is_assembled_from_visible_parts :
  forall (rt : Converter.Runtime) (candidate : Converter.Candidate)
         (others : list Converter.Candidate)
         (um : option Converter.UsageMetadata)
         (model : string) (requestId : option string),
    let ps := Converter.candidate_parts candidate in
    let first_uuid := if JS.truthy_opt_str requestId then 0%nat else 1%nat in
    let calls := Reference.number_calls rt first_uuid
                   (Reference.called_functions ps) in
    Converter.choices
      (Converter.convertAntigravityToOpenAI rt
         (Converter.mkBackendResponse (Some (candidate :: others)) um)
         model requestId)
    = [Converter.mkChoice 0
         (if JS.truthy_str (Reference.visible_text ps)
          then Some (Reference.visible_text ps) else None)
         (match calls with [] => None | _ => Some calls end)
         (Some (if match Converter.finishReason candidate with
                   | Some reason => String.eqb reason "MAX_TOKENS"
                   | None => false
                   end
                then Converter.finish_length
                else match calls with
                     | [] => Converter.finish_stop
                     | _ => Converter.finish_tool_calls
                     end))]
    /\ map Converter.call_name calls = Reference.called_names ps.
Proof.
  intros rt candidate others um model requestId ps first_uuid calls.
  split.
  - unfold Converter.convertAntigravityToOpenAI.
    cbn [Converter.candidates Converter.choices].
    unfold Converter.convert_candidate. fold ps.
    rewrite scan_parts_state.
    cbn [Converter.scan_content Converter.scan_toolCalls Converter.scan_uuids
         app append].
    replace (if negb (JS.truthy_opt_str requestId) then 1%nat else 0%nat)
      with first_uuid
      by (subst first_uuid; destruct (JS.truthy_opt_str requestId); reflexivity).
    fold calls.
    destruct (Converter.finishReason candidate) as [reason |];
      [destruct (String.eqb reason "MAX_TOKENS") |];
      destruct calls; reflexivity.
  - subst calls. generalize first_uuid. unfold Reference.called_names,
      Reference.called_functions.
    induction (filter Reference.not_thought ps) as [| p l IH]; intros n;
      [reflexivity |].
    cbn [flat_map]. destruct (Converter.p_functionCall p) as [fc |];
      cbn [app Reference.number_calls map Converter.call_name];
      [now rewrite IH | apply IH].
Qed.

(* ================================================================== *)
(** ** The outbound event stream *)
(* ================================================================== *)

Section Outbound.
Import Json Converter Client Server.

Variable rt : ServerRuntime.
Variable id model : string.

Lemma isFirst_track (st : Tracker) (c : StreamChunk) :
  isFirst (track st c) = isFirst st.
Proof. unfold track. destruct (chunk_usage c); reflexivity. Qed.

Lemma forwarded_app (xs ys : list StreamChunk) :
  forwarded (xs ++ ys) = (forwarded xs ++ forwarded ys)%list.
Proof. unfold forwarded. apply flat_map_app. Qed.

Lemma forwarded_terminal (t : StreamChunk) :
  is_terminal t = true -> forwarded [t] = [].
Proof.
  unfold is_terminal, forwarded. cbn [flat_map].
  destruct (chunk_type t); try discriminate; reflexivity.
Qed.

(** The frames of a run of chunks up to its first terminal chunk. *)
Lemma consume_frames (body : list StreamChunk) :
  forall (st : Tracker) (t : StreamChunk) (after : list StreamChunk),
    Forall (fun c => is_terminal c = false) body ->
    is_terminal t = true ->
    exists data,
      consume rt id model st (body ++ t :: after)
      = ((map FrameData data
          ++ closing_frames rt id model (fold_left advance body st) t)%list, true)
      /\ map delta_content data = map Some (forwarded body)
      /\ map delta_role data
         = role_markers (isFirst st) (List.length (forwarded body))
      /\ Forall (fun c => sc_finish_reason c = None /\ sc_usage c = None
                          /\ sc_id c = id /\ sc_model c = model) data.
Proof.
  induction body as [| c body IH]; intros st t after N T.
  - exists []. split; [| repeat split; constructor].
    cbn [app fold_left map consume]. unfold closing_frames.
    unfold is_terminal in T.
    destruct (chunk_type t); try discriminate T; reflexivity.
  - inversion N as [| ? ? Nc N']; subst.
    cbn [app fold_left consume].
    unfold is_terminal in Nc.
    destruct (chunk_type c) eqn:Tc; try discriminate Nc.
    + destruct (truthy_opt (chunk_content c)) eqn:V.
      * set (st' := track (mkTracker false (promptTokens st) (completionTokens st)
                             (S (created_chunks st))) c).
        assert (A : advance st c = st')
          by (unfold advance; now rewrite Tc, V).
        destruct (IH st' t after N' T) as [data [E [C [R F]]]].
        rewrite E, A.
        eexists (_ :: data). split; [reflexivity |].
        assert (Fw : forwarded (c :: body)
                     = match chunk_content c with
                       | Some v => v :: forwarded body
                       | None => forwarded body
                       end).
        { unfold forwarded. cbn [flat_map]. rewrite Tc.
          destruct (chunk_content c) as [v |]; [| reflexivity].
          cbn [truthy_opt] in V. now rewrite V. }
        destruct (chunk_content c) as [v |] eqn:Cc; [| discriminate V].
        rewrite Fw. cbn [map List.length createStreamChunk delta_content delta_role].
        split; [now rewrite C |]. split.
        -- rewrite R. subst st'. rewrite isFirst_track. cbn [isFirst role_markers].
           destruct (List.length (forwarded body)); reflexivity.
        -- constructor; [repeat split | exact F].
      * assert (A : advance st c = track st c)
          by (unfold advance; now rewrite Tc, V).
        destruct (IH (track st c) t after N' T) as [data [E [C [R F]]]].
        rewrite E, A. exists data. split; [reflexivity |].
        assert (Fw : forwarded (c :: body) = forwarded body).
        { unfold forwarded. cbn [flat_map]. rewrite Tc.
          destruct (chunk_content c) as [v |]; [| reflexivity].
          cbn [truthy_opt] in V. now rewrite V. }
        rewrite Fw, isFirst_track in *. auto.
    + assert (A : advance st c = track st c) by (unfold advance; now rewrite Tc).
      destruct (IH (track st c) t after N' T) as [data [E [C [R F]]]].
      rewrite E, A. exists data. split; [reflexivity |].
      assert (Fw : forwarded (c :: body) = forwarded body)
        by (unfold forwarded; cbn [flat_map]; now rewrite Tc).
      rewrite Fw, isFirst_track in *. auto.
Qed.

End Outbound.

(** Property X16.
    The frames of the streaming handler.  For chunks of which the first
    terminal one comes after chunks that are not terminal, the handler
    sends one data frame per chunk tagged [content] with truthy content, in
    order and with that content, and no frame for any other chunk, thoughts
    included; only the first of these frames carries the assistant role;
    none carries a finish reason or usage; then, on [done], a final frame
    without content and with finish reason [stop] followed by the [DONE]
    sentinel, or, on [error], one error frame and no sentinel; the stream
    is closed and the chunks after the terminal one are not looked at. *)
Theorem handler_frames :
  forall (rt : Server.ServerRuntime) (id model : string) (st : Server.Tracker)
         (body : list Client.StreamChunk) (t : Client.StreamChunk)
         (after : list Client.StreamChunk),
    Forall (fun c => Client.is_terminal c = false) body ->
    Client.is_terminal t = true ->
    exists data,
      Server.consume rt id model st (body ++ t :: after)
      = ((map Server.FrameData data
          ++ match Client.chunk_type t with
             | Client.type_error =>
                 [Server.FrameError
                    (match Client.chunk_error t with
                     | Some m => if JS.truthy_str m then m else "Unknown error"
                     | None => "Unknown error"
                     end)]
             | _ =>
                 [Server.FrameData
                    (Server.final_chunk rt id model
                       (fold_left Server.advance body st));
                  Server.FrameDone]
             end)%list, true)
      /\ map Server.delta_content data = map Some (Server.forwarded body)
      /\ map Server.delta_role data
         = Server.role_markers (Server.isFirst st)
             (List.length (Server.forwarded body))
      /\ Forall (fun c => Server.sc_finish_reason c = None
                          /\ Server.sc_usage c = None
                          /\ Server.sc_id c = id /\ Server.sc_model c = model) data
      /\ Server.sc_finish_reason
           (Server.final_chunk rt id model (fold_left Server.advance body st))
         = Some Converter.finish_stop
      /\ Server.delta_content
           (Server.final_chunk rt id model (fold_left Server.advance body st))
         = None.
Proof.
  intros rt id model st body t after N T.
  destruct (consume_frames rt id model body st t after N T) as [data [E [C [R F]]]].
  exists data. split; [| repeat split; assumption].
  rewrite E. unfold Server.closing_frames, JS.or_opt_str, JS.or_str.
  destruct (Client.chunk_type t); reflexivity.
Qed.

(** Witness: a thought, two contents, a usage chunk, [done], and a stray
    content chunk after it. *)
Lemma handler_frames_witness :
  exists data,
    map Server.delta_content data = [Some (Json.JStr "a"); Some (Json.JStr "b")]
    /\ map Server.delta_role data = [Some "assistant"; None]
    /\ snd (Server.consume Reference.sample_server_runtime "chatcmpl-1" "m"
              Server.initial_tracker Reference.sample_chunks) = true.
Proof.
  destruct (handler_frames Reference.sample_server_runtime "chatcmpl-1" "m"
              Server.initial_tracker
              [Client.thinking_chunk (Json.JStr "hm");
               Client.content_chunk (Json.JStr "a");
               Client.content_chunk (Json.JStr "b");
               Client.usage_chunk
                 (Client.mkChunkUsage (Some (Json.JNum 7 0)) (Some (Json.JNum 5 0))
                    (Some (Json.JNum 12 0)))]
              Client.done_chunk [Client.content_chunk (Json.JStr "late")])
    as [data [E [C [R _]]]].
  - repeat constructor.
  - reflexivity.
  - exists data. split; [exact C |]. split; [exact R |]. reflexivity.
Defined.

(** Property X17.
    The outbound stream of a request.  Whatever the credential and the
    endpoints do, the streamed response is closed, and its frames are: one
    data frame per content chunk of the generator, in order, of which only
    the first carries the assistant role and none a finish reason; then
    either one error frame and no sentinel, or a final frame with finish
    reason [stop] and no content, followed by the [DONE] sentinel. *)
Theorem outbound_stream_always_closes :
  forall (endpoints : list string) (w : Client.World)
         (tokens : option OAuth.AuthTokens) (model : string)
         (request : Converter.AntigravityRequest)
         (rt : Server.ServerRuntime) (id : string),
    let out := Client.streamGenerateContentOn endpoints w tokens model request in
    let res := Server.streamResponse rt id model out in
    snd res = true
    /\ exists data closing,
        fst res = (map Server.FrameData data ++ closing)%list
        /\ map Server.delta_content data
           = map Some (Server.forwarded (Client.s_chunks out))
        /\ map Server.delta_role data
           = Server.role_markers true
               (List.length (Server.forwarded (Client.s_chunks out)))
        /\ Forall (fun c => Server.sc_finish_reason c = None
                            /\ Server.sc_usage c = None) data
        /\ ((exists m, closing = [Server.FrameError m])
            \/ (exists final,
                   closing = [Server.FrameData final; Server.FrameDone]
                   /\ Server.sc_finish_reason final = Some Converter.finish_stop
                   /\ Server.delta_content final = None
                   /\ Server.delta_role final = None)).
Proof.
  intros endpoints w tokens model request rt id out res. subst res out.
  unfold Client.streamGenerateContentOn, Server.streamResponse.
  destruct (Client.returned (Client.ensureValidToken w tokens)) as [tok | m].
  - destruct (stream_loop_terminal w endpoints endpoints None) as [body [t [E [N T]]]].
    destruct (Client.stream_loop w endpoints endpoints None) as [calls chunks].
    cbn [snd] in E. subst chunks.
    cbn [Client.s_thrown Client.s_chunks].
    destruct (consume_frames rt id model body Server.initial_tracker t [] N T)
      as [data [C [D [R F]]]].
    rewrite C. cbn [fst snd]. split; [reflexivity |].
    exists data. eexists. split; [reflexivity |].
    rewrite forwarded_app, (forwarded_terminal t T), app_nil_r.
    split; [exact D |]. split; [exact R |]. split.
    + eapply Forall_impl; [| exact F]. intros c [A [B _]]. auto.
    + unfold Server.closing_frames.
      destruct (Client.chunk_type t); [right | right | right | left];
        try (eexists; split; [reflexivity | repeat split]).
      eexists. reflexivity.
  - cbn. split; [reflexivity |]. exists [], [Server.FrameError m].
    split; [reflexivity |]. split; [reflexivity |]. split; [reflexivity |].
    split; [constructor |]. left. now exists m.
Qed.

(* ================================================================== *)
(** ** The login flow *)
(* ================================================================== *)

Section Pkce.
Import OAuthFlow.

Lemma chars_unreserved (i : nat) :
  (i < String.length chars)%nat -> is_unreserved (char_at i) = true.
Proof.
  intros H.
  assert (A : forallb (fun k => is_unreserved (char_at k))
                (seq 0 (String.length chars)) = true) by (vm_compute; reflexivity).
  rewrite forallb_forall in A. apply A. apply in_seq. lia.
Qed.

End Pkce.

(** Property X18.
    The PKCE verifier alphabet.  [generateRandomString] returns as many
    characters as it was given random bytes, and every one of them is an
    unreserved URI character (a letter, a digit, or one of [-], [.], [_],
    [~]), whatever the bytes are. *)
Theorem random_string_is_unreserved :
  forall randomValues : list nat,
    String.length (OAuthFlow.generateRandomString randomValues)
    = List.length randomValues
    /\ OAuthFlow.all_chars OAuthFlow.is_unreserved
         (OAuthFlow.generateRandomString randomValues) = true.
Proof.
  induction randomValues as [| v rest [L U]]; [split; reflexivity |].
  cbn [OAuthFlow.generateRandomString String.length List.length OAuthFlow.all_chars].
  split; [now rewrite L |].
  rewrite U, chars_unreserved; [reflexivity |].
  apply Nat.mod_upper_bound. discriminate.
Qed.

Section Base64Url.
Import OAuthFlow.

Lemma replace_char_append (c d : ascii) (a b : string) :
  replace_char c d (a ++ b) = (replace_char c d a ++ replace_char c d b)%string.
Proof.
  induction a as [| x a IH]; cbn [append replace_char]; [reflexivity | now rewrite IH].
Qed.

Lemma replace_char_padding (c d : ascii) (k : nat) :
  c <> equals_sign ->
  replace_char c d (repeat_char equals_sign k) = repeat_char equals_sign k.
Proof.
  intros N. induction k as [| k IH]; cbn [repeat_char replace_char]; [reflexivity |].
  rewrite IH. destruct (Ascii.eqb equals_sign c) eqn:E; [| reflexivity].
  apply Ascii.eqb_eq in E. congruence.
Qed.

(** The URL-safe rewriting followed by its inverse gives a base64 body
    back, and the rewritten body holds no equals sign. *)
Lemma body_round_trip (body : string) :
  all_chars is_base64_char body = true ->
  replace_char underscore solidus
    (replace_char minus_sign plus_sign
       (replace_char solidus underscore (replace_char plus_sign minus_sign body)))
  = body
  /\ all_chars (fun c => negb (Ascii.eqb c equals_sign))
       (replace_char solidus underscore (replace_char plus_sign minus_sign body))
     = true.
Proof.
  induction body as [| c body IH]; [split; reflexivity |].
  cbn [all_chars replace_char]. intros H. apply andb_prop in H. destruct H as [Hc Hb].
  destruct (IH Hb) as [R E]. rewrite R, E.
  clear - Hc. revert Hc.
  destruct c as [[] [] [] [] [] [] [] []]; vm_compute; intros; try discriminate;
    split; reflexivity.
Qed.

Lemma strip_padding_clean (x : string) (k : nat) :
  all_chars (fun c => negb (Ascii.eqb c equals_sign)) x = true ->
  strip_padding (x ++ repeat_char equals_sign k) = x.
Proof.
  induction x as [| c x IH]; cbn [append all_chars strip_padding].
  - intros _. induction k as [| k IHk]; [reflexivity |].
    cbn [repeat_char strip_padding]. now rewrite IHk.
  - intros H. apply andb_prop in H. destruct H as [Hc Hx].
    rewrite (IH Hx). destruct (Ascii.eqb c equals_sign); [discriminate |].
    destruct x; reflexivity.
Qed.

Lemma replace_char_length (c d : ascii) (s : string) :
  String.length (replace_char c d s) = String.length s.
Proof.
  induction s as [| x s IH]; cbn [replace_char String.length];
    [reflexivity | now rewrite IH].
Qed.

End Base64Url.

Section Base64UrlSafe.
Import OAuthFlow.

Lemma body_url_safe (body : string) :
  all_chars is_base64_char body = true ->
  all_chars (fun c => negb (Ascii.eqb c plus_sign) && negb (Ascii.eqb c solidus)
                      && negb (Ascii.eqb c equals_sign))
    (replace_char solidus underscore (replace_char plus_sign minus_sign body))
  = true.
Proof.
  induction body as [| c body IH]; [reflexivity |].
  cbn [all_chars replace_char]. intros H. apply andb_prop in H. destruct H as [Hc Hb].
  rewrite (IH Hb). clear - Hc. revert Hc.
  destruct c as [[] [] [] [] [] [] [] []]; vm_compute; intros; try discriminate;
    reflexivity.
Qed.

Lemma padding_count (n k : nat) :
  (k <= 2)%nat -> ((n + k) mod 4 = 0)%nat -> ((4 - n mod 4) mod 4 = k)%nat.
Proof.
  intros K H. rewrite <- Nat.Div0.add_mod_idemp_l in H.
  pose proof (Nat.mod_upper_bound n 4) as B.
  destruct (n mod 4) as [| [| [| [| r]]]]; [| | | | lia];
    destruct k as [| [| [| k]]]; try lia; try discriminate H; reflexivity.
Qed.

End Base64UrlSafe.

(** Property X19.
    URL-safe base64.  For every padded base64 text (characters of the
    base64 alphabet followed by at most two equals signs, of a length that
    is a multiple of 4), [base64UrlEncode] yields a text without [+], [/]
    and [=], and the text that [decodeState] rebuilds from it before
    decoding, by putting the two characters back and padding to a multiple
    of 4, is the base64 text again. *)
Theorem base64url_round_trip :
  forall (body : string) (k : nat),
    OAuthFlow.all_chars OAuthFlow.is_base64_char body = true ->
    (k <= 2)%nat ->
    ((String.length body + k) mod 4 = 0)%nat ->
    let base64 := (body ++ OAuthFlow.repeat_char OAuthFlow.equals_sign k)%string in
    OAuthFlow.padded_state (OAuthFlow.base64UrlEncode base64) = base64
    /\ OAuthFlow.all_chars
         (fun c => negb (Ascii.eqb c OAuthFlow.plus_sign)
                   && negb (Ascii.eqb c OAuthFlow.solidus)
                   && negb (Ascii.eqb c OAuthFlow.equals_sign))
         (OAuthFlow.base64UrlEncode base64) = true.
Proof.
  intros body k A K M base64. subst base64.
  destruct (body_round_trip body A) as [R E].
  assert (U : OAuthFlow.base64UrlEncode
                (body ++ OAuthFlow.repeat_char OAuthFlow.equals_sign k)
              = OAuthFlow.replace_char OAuthFlow.solidus OAuthFlow.underscore
                  (OAuthFlow.replace_char OAuthFlow.plus_sign OAuthFlow.minus_sign body)).
  { unfold OAuthFlow.base64UrlEncode.
    rewrite !replace_char_append, !replace_char_padding by discriminate.
    now apply strip_padding_clean. }
  rewrite U. split; [| now apply body_url_safe].
  unfold OAuthFlow.padded_state, OAuthFlow.padEnd. rewrite R.
  replace (String.length body + (4 - String.length body mod 4) mod 4
           - String.length body)%nat
    with ((4 - String.length body mod 4) mod 4)%nat by lia.
  now rewrite (padding_count _ _ K M).
Qed.

(** Witness: the base64 text of one byte, with its two padding signs. *)
Lemma base64url_round_trip_witness :
  OAuthFlow.padded_state (OAuthFlow.base64UrlEncode "+/==") = "+/==".
Proof.
  refine (proj1 (base64url_round_trip "+/" 2 _ _ _)); first [reflexivity | lia].
Defined.

Section ProjectId.
Import OAuthFlow.

Variable load : string -> LoadReply.



End ProjectId.


(** Property X21.
    The authorization-code exchange, given the verifier and the project id
    that [decodeState] read from the state (it never throws).
    [exchangeCodeForTokens] makes exactly one exchange call, first.  When it fails (the call throws, the status
    is not 2xx, or the answer has no refresh token) it makes no other call.
    When it returns a credential, the refresh token and the project id of
    that credential are not empty, the access token and the refresh token
    are the ones received, the expiry is [now + expires_in * 1000], and a
    failing user-info lookup only leaves the email unset; a project id
    carried by the state is used as it is, without any project lookup. *)
Theorem exchange_yields_a_complete_credential :
  forall (w : OAuthFlow.AuthWorld) (code : string)
         (decoded : OAuthFlow.DecodedState),
    let events := fst (OAuthFlow.exchangeCodeForTokens w code decoded) in
    let result := snd (OAuthFlow.exchangeCodeForTokens w code decoded) in
    (exists others,
        events = OAuthFlow.EvExchange code (OAuthFlow.ds_verifier decoded) :: others
        /\ Forall (fun ev => match ev with
                             | OAuthFlow.EvExchange _ _ => False
                             | _ => True
                             end) others)
    /\ match result with
       | inr _ =>
           events = [OAuthFlow.EvExchange code (OAuthFlow.ds_verifier decoded)]
       | inl t =>
           OAuth.refreshToken t <> EmptyString
           /\ OAuth.projectId t <> EmptyString
           /\ (exists d,
                  OAuthFlow.exchange w code (OAuthFlow.ds_verifier decoded)
                  = OAuthFlow.ExchangeOk d
                  /\ OAuth.accessToken t = OAuthFlow.td_access_token d
                  /\ OAuthFlow.td_refresh_token d = Some (OAuth.refreshToken t)
                  /\ OAuth.expiresAt t
                     = (OAuthFlow.auth_clock w + OAuthFlow.td_expires_in d * 1000)%Z
                  /\ OAuth.email t
                     = OAuthFlow.fetchUserInfo w (OAuthFlow.td_access_token d)
                  /\ (OAuthFlow.ds_projectId decoded <> EmptyString ->
                      OAuth.projectId t = OAuthFlow.ds_projectId decoded
                      /\ events
                         = [OAuthFlow.EvExchange code (OAuthFlow.ds_verifier decoded);
                            OAuthFlow.EvUserInfo (OAuthFlow.td_access_token d)]))
       end.
Proof.
  intros w code decoded events result. subst events result.
  unfold OAuthFlow.exchangeCodeForTokens.
  destruct (OAuthFlow.exchange w code (OAuthFlow.ds_verifier decoded))
    as [m | errorText | d] eqn:X; cbn [fst snd];
    try (split; [exists []; split; [reflexivity | constructor] | reflexivity]).
  destruct (OAuthFlow.td_refresh_token d) as [refresh |] eqn:R; cbn [fst snd];
    try (split; [exists []; split; [reflexivity | constructor] | reflexivity]).
  destruct refresh as [| c refresh]; cbn [JS.truthy_str negb fst snd];
    try (split; [exists []; split; [reflexivity | constructor] | reflexivity]).
  destruct (JS.truthy_str (OAuthFlow.ds_projectId decoded)) eqn:P.
  - cbn [fst snd map]. split.
    + eexists. split; [reflexivity |]. repeat constructor.
    + split; [discriminate |]. split.
      * unfold JS.or_str. rewrite P. destruct (OAuthFlow.ds_projectId decoded);
          [discriminate P | discriminate].
      * exists d. split; [reflexivity |]. split; [reflexivity |].
        split; [exact R |]. split; [reflexivity |]. split; [reflexivity |].
        intros _. split; [| reflexivity].
        cbn [OAuth.projectId]. unfold JS.or_str. now rewrite P.
  - destruct (OAuthFlow.fetchProjectId (OAuthFlow.loadCodeAssist w)) as [calls pid].
    cbn [fst snd]. split.
    + eexists. split; [reflexivity |]. constructor; [exact I |].
      apply Forall_map. apply Forall_forall. intros; exact I.
    + split; [discriminate |]. split.
      * unfold JS.or_str. destruct pid; cbn [JS.truthy_str]; discriminate.
      * exists d. split; [reflexivity |]. split; [reflexivity |].
        split; [exact R |]. split; [reflexivity |]. split; [reflexivity |].
        intros N. destruct (OAuthFlow.ds_projectId decoded);
          [contradiction | discriminate P].
Qed.


Section SystemPrompt.
Import Converter.

(** A join with a separator that is not empty is empty only for the empty
    list and for the list of one empty string. *)
Lemma join_empty (sep : string) (xs : list string) :
  sep <> EmptyString ->
  JS.join sep xs = EmptyString ->
  xs = [] \/ xs = [EmptyString].
Proof.
  intros S H. destruct xs as [| x [| y r]].
  - now left.
  - right. cbn [JS.join] in H. now subst x.
  - exfalso. cbn [JS.join] in H.
    destruct x; [| discriminate H].
    destruct sep; [now apply S | discriminate H].
Qed.

Lemma truthy_str_false (s : string) : JS.truthy_str s = false <-> s = EmptyString.
Proof. destruct s; cbn [JS.truthy_str]; split; intros H; congruence. Qed.

End SystemPrompt.

(** Property X22.
    The system instruction.  It is built from the system messages only, in
    their order: the string contents joined by a blank line, a content that
    is not a string counting as the empty string.  It is absent exactly when
    there is no system message, or one system message whose content is the
    empty string or not a string; when present it has one part, which is
    not empty; and with two or more system messages it is always present,
    even when none of them has any text. *)
Theorem system_instruction_presence :
  forall request : Converter.OpenAIChatRequest,
    let sys := filter Converter.is_system (Converter.req_messages request) in
    let text := JS.join (JS.NL ++ JS.NL) (map Converter.content_as_text sys) in
    let instruction :=
      Converter.systemInstruction (Converter.convertOpenAIToAntigravity request) in
    (instruction = None
     <-> sys = [] \/ exists m, sys = [m] /\ Converter.content_as_text m = EmptyString)
    /\ (forall parts, instruction = Some parts -> parts = [text] /\ text <> EmptyString)
    /\ (forall m1 m2 rest, sys = m1 :: m2 :: rest -> instruction = Some [text]).
Proof.
  intros request sys text instruction.
  assert (S : (JS.NL ++ JS.NL)%string <> EmptyString) by discriminate.
  assert (E : instruction
              = match sys with
                | [] => None
                | _ => if JS.truthy_str text then Some [text] else None
                end).
  { subst instruction sys text. cbn [Converter.convertOpenAIToAntigravity
      Converter.systemInstruction]. unfold Converter.convert_system.
    destruct (filter Converter.is_system (Converter.req_messages request));
      reflexivity. }
  split; [| split].
  - rewrite E. split.
    + intros H. destruct sys as [| m rest] eqn:Y; [now left |].
      right. destruct (JS.truthy_str text) eqn:T; [discriminate H |].
      apply truthy_str_false in T. subst text.
      destruct (join_empty _ _ S T) as [N | N]; [discriminate N |].
      destruct rest; [| discriminate N].
      exists m. split; [reflexivity |]. now injection N.
    + intros [H | [m [H C]]].
      * now rewrite H.
      * subst text. rewrite H. cbn [map JS.join]. now rewrite C.
  - intros parts H. rewrite E in H.
    destruct sys; [discriminate H |].
    destruct (JS.truthy_str text) eqn:T; [| discriminate H].
    injection H as <-. split; [reflexivity |].
    intros Z. rewrite Z in T. discriminate T.
  - intros m1 m2 rest Y. rewrite E, Y.
    destruct (JS.truthy_str text) eqn:T; [reflexivity |].
    apply truthy_str_false in T. subst text. rewrite Y in T.
    destruct (join_empty _ _ S T) as [N | N]; discriminate N.
Qed.

(** Property X23.
    Tool declarations.  The translated request declares tools exactly when
    the caller declared at least one tool of type [function]; it then has
    one group, holding one declaration per such tool, in order and under the
    same name, a missing description becoming the empty string.  A
    [tool_choice] is translated whenever the caller's tool list is not
    empty, also when that list has no tool of type [function] and no tool
    is declared to the backend; it is dropped when the tool list is absent
    or empty. *)
Theorem tools_are_declared_by_type :
  forall request : Converter.OpenAIChatRequest,
    let sent := Converter.convertOpenAIToAntigravity request in
    let given := match Converter.req_tools request with
                 | Some ts => ts
                 | None => []
                 end in
    let functions :=
      filter (fun t => String.eqb (Converter.tool_type t) "function") given in
    (Converter.tools sent = None <-> functions = [])
    /\ (forall groups,
           Converter.tools sent = Some groups ->
           exists ds,
             groups = [ds]
             /\ map Converter.fd_name ds = map Converter.tool_name functions
             /\ map Converter.fd_description ds
                = map (fun t => match Converter.tool_description t with
                                | Some d => d
                                | None => EmptyString
                                end) functions)
    /\ (given = [] -> Converter.toolConfig sent = None)
    /\ (given <> [] ->
        Converter.toolConfig sent
        = option_map Converter.convert_tool_choice (Converter.req_tool_choice request)).
Proof.
  intros request sent given functions.
  subst sent given functions.
  cbn [Converter.convertOpenAIToAntigravity Converter.tools Converter.toolConfig].
  assert (D : forall ts,
             map Converter.fd_description (map Converter.convert_tool ts)
             = map (fun t => match Converter.tool_description t with
                             | Some d => d
                             | None => EmptyString
                             end) ts).
  { induction ts as [| t ts IH]; [reflexivity |].
    cbn [map]. rewrite IH. f_equal.
    unfold Converter.convert_tool. cbn [Converter.fd_description].
    unfold JS.or_opt_str. destruct (Converter.tool_description t) as [[| c d] |];
      reflexivity. }
  destruct (Converter.req_tools request) as [[| t ts] |].
  - cbn [filter]. repeat split; try reflexivity; try discriminate.
    intros N. now contradiction N.
  - set (fs := filter (fun t0 => String.eqb (Converter.tool_type t0) "function")
                 (t :: ts)).
    split; [| split; [| split]].
    + destruct fs as [| f fs']; cbn [map]; split; intros H;
        try reflexivity; discriminate H.
    + intros groups H. exists (map Converter.convert_tool fs).
      split; [| split].
      * destruct fs as [| f fs']; cbn [map] in *; [discriminate H |].
        now injection H as <-.
      * rewrite map_map. reflexivity.
      * apply D.
    + intros N. discriminate N.
    + reflexivity.
  - cbn [filter]. repeat split; try reflexivity; try discriminate.
    intros N. now contradiction N.
Qed.

(** Property X24.
    The body of a backend call.  Whenever [generateContent] or
    [streamGenerateContent] gets past the token manager, the body posted
    names a project that is not empty: the project id of the credential,
    also when the credential was refreshed by this very call, or the
    default project when the credential has none; the model is the id the
    caller gave, also for a model of the registry; and the request inside
    has the turns, the system instruction and the tool declarations it was
    given: the client changes the generation and tool configurations only.
    For the same credential, clock and UUID drawn, both entry points build
    the same body. *)
Theorem backend_body_names_a_project :
  forall (endpoints : list string) (w : Client.World)
         (tokens : option OAuth.AuthTokens) (model : string)
         (request : Converter.AntigravityRequest),
    let g := Client.generateContentOn endpoints w tokens model request in
    let s := Client.streamGenerateContentOn endpoints w tokens model request in
    Client.s_body s = Client.g_body g
    /\ match Client.g_body g with
       | None => exists m, Client.g_result g = inr m /\ Client.g_calls g = []
       | Some b =>
           Client.project b <> EmptyString
           /\ (exists t,
                  tokens = Some t
                  /\ Client.project b
                     = if JS.truthy_str (OAuth.projectId t)
                       then OAuth.projectId t
                       else Constants.ANTIGRAVITY_DEFAULT_PROJECT_ID)
           /\ Client.body_model b = model
           /\ Client.requestId b = ("agent-" ++ Client.uuid w)%string
           /\ Converter.contents (Client.body_request b) = Converter.contents request
           /\ Converter.systemInstruction (Client.body_request b)
              = Converter.systemInstruction request
           /\ Converter.tools (Client.body_request b) = Converter.tools request
       end.
Proof.
  intros endpoints w tokens model request g s. subst g s.
  unfold Client.generateContentOn, Client.streamGenerateContentOn.
  assert (P : forall t : OAuth.AuthTokens,
             JS.or_str (OAuth.projectId t) Constants.ANTIGRAVITY_DEFAULT_PROJECT_ID
             <> EmptyString).
  { intros t. unfold JS.or_str.
    destruct (OAuth.projectId t); cbn [JS.truthy_str]; discriminate. }
  assert (F : forall r rq,
             Converter.contents (Client.applyToolMode r (Client.applyThinkingConfig r rq))
             = Converter.contents rq
             /\ Converter.systemInstruction
                  (Client.applyToolMode r (Client.applyThinkingConfig r rq))
                = Converter.systemInstruction rq
             /\ Converter.tools (Client.applyToolMode r (Client.applyThinkingConfig r rq))
                = Converter.tools rq).
  { intros r rq. unfold Client.applyToolMode, Client.applyThinkingConfig.
    destruct (Client.resolvedThinking r);
      cbn [Converter.tools Converter.contents Converter.systemInstruction];
      destruct (Client.isClaude r && _);
      cbn [Converter.tools Converter.contents Converter.systemInstruction];
      repeat split. }
  destruct tokens as [t |].
  - unfold Client.ensureValidToken.
    destruct (OAuth.isTokenExpired (Client.clock w) (OAuth.expiresAt t)).
    + destruct (OAuth.refreshAccessToken _ _ _) as [refreshed | m].
      * destruct (Client.save_error w _) as [m |];
          cbn [Client.returned Client.tokens_after Client.events].
        -- cbn [Client.g_body Client.s_body Client.g_result Client.g_calls].
           split; [reflexivity |]. exists m. split; reflexivity.
        -- destruct (Client.generate_loop w endpoints endpoints) as [gc gr].
           destruct (Client.stream_loop w endpoints endpoints None) as [sc ss].
           cbn [Client.g_body Client.s_body]. split; [reflexivity |].
           unfold Client.makeBody, Client.getProjectId, Client.prepareRequest.
           cbn [Client.project Client.body_model Client.requestId
                Client.body_request OAuth.projectId Client.actualModel
                Client.resolveModel].
           split; [apply (P t) |].
           split; [exists t; split; reflexivity |].
           split; [reflexivity |]. split; [reflexivity |]. apply F.
      * cbn [Client.returned Client.tokens_after Client.events
             Client.g_body Client.s_body Client.g_result Client.g_calls].
        split; [reflexivity |]. exists m. split; reflexivity.
    + cbn [Client.returned Client.tokens_after Client.events].
      destruct (Client.generate_loop w endpoints endpoints) as [gc gr].
      destruct (Client.stream_loop w endpoints endpoints None) as [sc ss].
      cbn [Client.g_body Client.s_body]. split; [reflexivity |].
      unfold Client.makeBody, Client.getProjectId, Client.prepareRequest.
      cbn [Client.project Client.body_model Client.requestId
           Client.body_request Client.actualModel Client.resolveModel].
      split; [apply P |].
      split; [exists t; split; reflexivity |].
      split; [reflexivity |]. split; [reflexivity |]. apply F.
  - cbn [Client.ensureValidToken Client.returned Client.events
         Client.g_body Client.s_body Client.g_result Client.g_calls].
    split; [reflexivity |]. eexists. split; reflexivity.
Qed.
